(** * The OpenAI gateway of open-webui: aggregation, routing and relay

    A shallow embedding of [backend/apps/openai/main.py].  JSON payloads and
    Python dictionaries with string keys are finite maps; the handlers that
    read or write [app.state] pass the state explicitly; a raised exception
    is the [Raise] outcome of [result]; calls to the network are recorded in
    an event trace. *)

From Stdlib Require Import ZArith Floats Ascii.
From stdpp Require Import gmap strings list fin_maps.

Local Open Scope string_scope.
Local Open Scope list_scope.
Local Open Scope Z_scope.

(** ** Python strings

    A [str] is kept as the byte string of its UTF-8 encoding.  For an ASCII
    needle, [needle in s] and [s.startswith(needle)] on code points agree
    with the same tests on the encoding. *)

Module PyStr.

(** [s.startswith(p)] *)
Fixpoint startswith (p s : string) : bool :=
  match p, s with
  | EmptyString, _ => true
  | String a p', String b s' => if Ascii.eqb a b then startswith p' s' else false
  | String _ _, EmptyString => false
  end.

(** [needle in s] *)
Fixpoint contains (needle s : string) : bool :=
  startswith needle s ||
  match s with
  | EmptyString => false
  | String _ s' => contains needle s'
  end.

Definition lower_ascii (c : ascii) : ascii :=
  let n := nat_of_ascii c in
  if (Nat.leb 65 n && Nat.leb n 90)%bool then ascii_of_nat (n + 32) else c.

(** [s.lower()], on the ASCII letters.  The only code points outside ASCII
    that [str.lower] sends to an ASCII letter are U+212A (to [k]) and
    U+0130 (to [i] followed by U+0307); the reserved prefixes tested on
    lowered ids hold no [k], and the second never lowers to a bare [i], so
    the prefix tests below are those of Python. *)
Fixpoint lower (s : string) : string :=
  match s with
  | EmptyString => EmptyString
  | String c s' => String (lower_ascii c) (lower s')
  end.

(** The characters of a string, as [for c in s] yields them. *)
Fixpoint chars (s : string) : list string :=
  match s with
  | EmptyString => []
  | String c s' => String c EmptyString :: chars s'
  end.

End PyStr.

(** ** Values, exceptions and results *)

(** What [json.loads] and [model_dump] produce. *)
#[warnings="-register-all"]
Inductive value : Type :=
  | VNone
  | VBool (b : bool)
  | VInt (z : Z)
  | VFloat (f : float)
  | VStr (s : string)
  | VList (l : list value)
  | VDict (d : gmap string value).

(** The exceptions the module meets or raises.  The [detail] of an
    [HTTPException] is the fixed message, or [f"External: {x}"] with [x] a
    value of the backend's error body or the exception that was caught (the
    text is not rendered). *)
Inductive exn : Type :=
  | TypeError
  | KeyError (k : value)
  | IndexError
  | ValueError
  | OverflowError
  | AttributeError
  | ClientError                        (* aiohttp / requests: no response *)
  | ResponseError (status : Z)         (* raise_for_status() *)
  | DecodeError                        (* r.json() on a body that is not JSON *)
  | HTTPException (status_code : Z) (detail : error_detail)
  | OutOfModel                         (* an input this embedding does not cover *)
with error_detail : Type :=
  | ServerConnectionError              (* "Open WebUI: Server Connection Error" *)
  | ExternalValue (v : value)
  | ExternalException (e : exn).

Inductive result (A : Type) : Type :=
  | Ok (a : A)
  | Raise (e : exn).
Arguments Ok {A} a.
Arguments Raise {A} e.

#[global] Instance result_ret : MRet result := @Ok.
#[global] Instance result_bind : MBind result := λ A B f m,
  match m with
  | Ok a => f a
  | Raise e => Raise e
  end.
#[global] Instance result_fmap : FMap result := λ A B f m,
  match m with
  | Ok a => Ok (f a)
  | Raise e => Raise e
  end.

Definition is_Ok {A} (r : result A) : bool :=
  match r with Ok _ => true | Raise _ => false end.

(** [try: m  except: h] *)
Definition try_except {A} (m : result A) (h : exn → result A) : result A :=
  match m with
  | Ok a => Ok a
  | Raise e => h e
  end.

(** Runs [f] on each element in order and stops at the first exception. *)
Fixpoint mapM {A B} (f : A → result B) (l : list A) : result (list B) :=
  match l with
  | [] => Ok []
  | x :: l' => y ← f x; ys ← mapM f l'; Ok (y :: ys)
  end.

(** ** The Python operations the module applies to values *)

Module Py.

Definition float_of_Z (z : Z) : float :=
  SF2Prim (SpecFloat.binary_normalize prec emax z 0 false).

(** [bool(v)] *)
Definition truthy (v : value) : bool :=
  match v with
  | VNone => false
  | VBool b => b
  | VInt z => negb (z =? 0)
  | VFloat f => negb (PrimFloat.eqb f 0%float)
  | VStr s => negb (s =? EmptyString)%string
  | VList l => match l with [] => false | _ => true end
  | VDict d => negb (bool_decide (d = ∅))
  end.

(** [k in v], for a string [k]. *)
Definition contains (k : string) (v : value) : result bool :=
  match v with
  | VStr s => Ok (PyStr.contains k s)
  | VList l =>
      Ok (existsb (λ x, match x with VStr s => (s =? k)%string | _ => false end) l)
  | VDict d => Ok (bool_decide (is_Some (d !! k)))
  | _ => Raise TypeError
  end.

(** [v[k]], for a string [k]. *)
Definition getitem (v : value) (k : string) : result value :=
  match v with
  | VDict d =>
      match d !! k with
      | Some x => Ok x
      | None => Raise (KeyError (VStr k))
      end
  | _ => Raise TypeError
  end.

(** [d.get(k)] on a dictionary. *)
Definition get (d : gmap string value) (k : string) : value :=
  default VNone (d !! k).

(** [l[i]] on a list, with Python's negative indices. *)
Definition index {A} (l : list A) (i : Z) : result A :=
  let n := Z.of_nat (length l) in
  let j := if i <? 0 then i + n else i in
  if (j <? 0) || (n <=? j) then Raise IndexError
  else match l !! Z.to_nat j with
       | Some x => Ok x
       | None => Raise IndexError
       end.

(** [l[v]] when the index is itself a value. *)
Definition index_value {A} (l : list A) (v : value) : result A :=
  match v with
  | VInt i => index l i
  | VBool b => index l (if b then 1 else 0)
  | _ => Raise TypeError
  end.

(** [for x in v]: the elements in order.  A dictionary yields its keys; this
    embedding does not keep their insertion order. *)
Definition iter (v : value) : result (list value) :=
  match v with
  | VList l => Ok l
  | VStr s => Ok (VStr <$> PyStr.chars s)
  | VDict d => Ok (VStr <$> (map_to_list d).*1)
  | _ => Raise TypeError
  end.

(** [a + b] where [a] is a string. *)
Definition add_str (a : string) (b : value) : result value :=
  match b with
  | VStr s => Ok (VStr (a +:+ s))
  | _ => Raise TypeError
  end.

(** [int(f)] on a float: truncation toward zero. *)
Definition int_of_float (f : float) : result Z :=
  match Prim2SF f with
  | S754_zero _ => Ok 0
  | S754_infinity _ => Raise OverflowError
  | S754_nan => Raise ValueError
  | S754_finite s m e =>
      let a := Z.shiftl (Z.pos m) e in
      Ok (if s then - a else a)
  end.

(** [float(z)] on an int: the nearest float, [OverflowError] beyond the range. *)
Definition float_of_int (z : Z) : result float :=
  let f := float_of_Z z in
  match Prim2SF f with
  | S754_infinity _ => Raise OverflowError
  | _ => Ok f
  end.

Section Parsers.
(** [float(s)] and [int(s)] on a string are taken as given. *)
Variable float_of_str : string → result float.
Variable int_of_str : string → result Z.

(** [float(v)] *)
Definition to_float (v : value) : result float :=
  match v with
  | VBool b => Ok (if b then 1%float else 0%float)
  | VInt z => float_of_int z
  | VFloat f => Ok f
  | VStr s => float_of_str s
  | _ => Raise TypeError
  end.

(** [int(v)] *)
Definition to_int (v : value) : result Z :=
  match v with
  | VBool b => Ok (if b then 1 else 0)
  | VInt z => Ok z
  | VFloat f => int_of_float f
  | VStr s => int_of_str s
  | _ => Raise TypeError
  end.
End Parsers.

End Py.

(** ** The environment of the module

    What the module imports or talks to: the backends, the store of model
    overrides ([Models]), [prompt_template], the clock and the string
    parsers of Python. *)

(** What a backend does with a model-list request of [fetch_url]. *)
Inductive backend_reply : Type :=
  | TimedOut                           (* no answer within ClientTimeout(total=5) *)
  | Unreachable                        (* connection error *)
  | NotJSON                            (* response.json() raises *)
  | Body (v : value).                  (* response.json() returns v *)

(** A response object of aiohttp or requests. *)
Record http_response : Type := {
  status : Z;
  headers : list (string * string);
  content : list string;               (* the chunks of the body, as they arrive *)
  json : result value                  (* what r.json() returns or raises *)
}.

(** A row of [Models]: [base_model_id] and [params.model_dump()]. *)
Record ModelModel : Type := {
  base_model_id : option string;
  params : gmap string value
}.

Record UserModel : Type := {
  user_name : string;
  user_id : string;
  user_email : string;
  user_role : string;
  user_info : option (gmap string value)
}.

Record environment : Type := {
  (** GET [url] with [Authorization: Bearer key], as [fetch_url] sends it. *)
  models_endpoint : string → string → backend_reply;
  (** A request of [requests] or of an aiohttp session; [None] when no
      response arrives. *)
  http_request : string → string → list (string * string) → value → option http_response;
  (** Whether [aiohttp.ClientSession(trust_env=True)] returns a session. *)
  session_opens : bool;
  get_model_by_id : value → option ModelModel;
  (** [prompt_template(template, user_name=.., user_location=..)]; the
      second argument is [None] when no keyword is passed. *)
  prompt_template : value → option (string * value) → result string;
  (** [bytes(stop, "utf-8").decode("unicode_escape")] *)
  unicode_escape : value → result value;
  float_of_str : string → result float;
  int_of_str : string → result Z;
  (** The successive readings of [int(time.time())] during one call. *)
  clock : nat → Z
}.

(** ** Configuration and process-wide state *)

Record AppConfig : Type := {
  ENABLE_MODEL_FILTER : bool;
  MODEL_FILTER_LIST : list string;
  ENABLE_OPENAI_API : option bool;
  OPENAI_API_BASE_URLS : list string;
  OPENAI_API_KEYS : list string
}.

(** [app.state]: the configuration and the catalog [MODELS]. *)
Record app_state : Type := {
  config : AppConfig;
  MODELS : gmap string value
}.

Definition set_OPENAI_API_KEYS (keys : list string) (st : app_state) : app_state :=
  {| config := {| ENABLE_MODEL_FILTER := ENABLE_MODEL_FILTER (config st);
                  MODEL_FILTER_LIST := MODEL_FILTER_LIST (config st);
                  ENABLE_OPENAI_API := ENABLE_OPENAI_API (config st);
                  OPENAI_API_BASE_URLS := OPENAI_API_BASE_URLS (config st);
                  OPENAI_API_KEYS := keys |};
     MODELS := MODELS st |}.

Definition set_OPENAI_API_BASE_URLS (urls : list string) (st : app_state) : app_state :=
  {| config := {| ENABLE_MODEL_FILTER := ENABLE_MODEL_FILTER (config st);
                  MODEL_FILTER_LIST := MODEL_FILTER_LIST (config st);
                  ENABLE_OPENAI_API := ENABLE_OPENAI_API (config st);
                  OPENAI_API_BASE_URLS := urls;
                  OPENAI_API_KEYS := OPENAI_API_KEYS (config st) |};
     MODELS := MODELS st |}.

Definition set_MODELS (models : gmap string value) (st : app_state) : app_state :=
  {| config := config st; MODELS := models |}.

(** What a handler, or the framework serving its response, does to the
    outside, in order. *)
Inductive event : Type :=
  | Fetch (url key : string)           (* fetch_url(url, key) *)
  | Request (method url : string) (hdrs : list (string * string)) (body : value)
  | SessionOpen
  | ReadJSON                           (* await r.json() *)
  | ResponseClose
  | SessionClose
  | ResponseStart (status_code : Z) (hdrs : gmap string string)
  | ChunkRead (c : string)
  | ChunkSent (c : string).

(** A handler run: what it returns or raises, the state it leaves, and what
    it did. *)
Record run (A : Type) : Type := {
  returned : result A;
  state_after : app_state;
  trace : list event
}.
Arguments returned {A} r.
Arguments state_after {A} r.
Arguments trace {A} r.

(** ** Catalog aggregation: [fetch_url], [merge_models_lists], [get_all_models] *)

(** ["api.openai.com" in url]: how the module recognises the canonical
    OpenAI endpoint. *)
Definition is_openai_url (url : string) : bool :=
  PyStr.contains "api.openai.com" url.

(** The URL [speech] looks up in the list of base URLs. *)
Definition OPENAI_URL : string := "https://api.openai.com/v1".

(** [enumerate(l)], counting from [i]. *)
Fixpoint enumerate_from {A} (i : nat) (l : list A) : list (nat * A) :=
  match l with
  | [] => []
  | x :: l' => (i, x) :: enumerate_from (S i) l'
  end.

(** [fetch_url]: the decoded body, or [None] on any exception. *)
Definition fetch_url (env : environment) (url key : string) : value :=
  match models_endpoint env url key with
  | Body v => v
  | TimedOut | Unreachable | NotJSON => VNone
  end.

(** The dictionary the comprehension of [merge_models_lists] builds for one
    model. *)
Definition merged_entry (idx : nat) (d : gmap string value) (mid : value) : value :=
  VDict (<["urlIdx" := VInt (Z.of_nat idx)]>
        (<["openai" := VDict d]>
        (<["owned_by" := VStr "openai"]>
        (<["name" := default mid (d !! "name")]> d)))).

(** One step of the comprehension: the condition, then the entry. *)
Definition merge_model (urls : list string) (idx : nat) (model : value)
    : result (option value) :=
  url ← Py.index urls (Z.of_nat idx);
  keep ← (if negb (is_openai_url url) then Ok true
          else mid ← Py.getitem model "id"; Py.contains "gpt" mid);
  if keep : bool then
    match model with
    | VDict d => mid ← Py.getitem model "id"; Ok (Some (merged_entry idx d mid))
    | _ => Raise TypeError
    end
  else Ok None.

(** The elements a comprehension keeps: those its condition lets through. *)
Definition kept {A} (l : list (option A)) : list A := omap id l.

(** The body of the loop of [merge_models_lists] for the backend [idx]. *)
Definition merge_models (urls : list string) (idx : nat) (models : value)
    : result (list value) :=
  match models with
  | VNone => Ok []
  | _ =>
      has_error ← Py.contains "error" models;
      if has_error : bool then Ok []
      else ms ← Py.iter models;
           entries ← mapM (merge_model urls idx) ms;
           Ok (kept entries)
  end.

Fixpoint merge_from (urls : list string) (idx : nat) (model_lists : list value)
    : result (list value) :=
  match model_lists with
  | [] => Ok []
  | models :: rest =>
      here ← merge_models urls idx models;
      there ← merge_from urls (S idx) rest;
      Ok (here ++ there)
  end.

Definition merge_models_lists (urls : list string) (model_lists : list value)
    : result (list value) :=
  merge_from urls 0 model_lists.

(** The key reconciliation at the head of the aggregation branch. *)
Definition reconcile_keys (urls keys : list string) : list string :=
  if (length keys =? length urls)%nat then keys
  else if (length urls <? length keys)%nat then take (length urls) keys
  else keys ++ replicate (length urls - length keys) EmptyString.

(** The [lambda response: ...] mapped over the responses. *)
Definition response_models (response : value) : result value :=
  has_data ← (if Py.truthy response then Py.contains "data" response else Ok false);
  if has_data : bool then Py.getitem response "data"
  else Ok (match response with VList _ => response | _ => VNone end).

(** A static entry of [moonshot_models] or [qianfan_models]. *)
Definition static_model (created : Z) (mid : string) (with_urlIdx : bool) : value :=
  let raw : gmap string value :=
    <["id" := VStr mid]> (<["object" := VStr "model"]>
    (<["created" := VInt created]> (<["owned_by" := VStr "system"]> ∅))) in
  let entry : gmap string value :=
    <["id" := VStr mid]> (<["object" := VStr "model"]>
    (<["created" := VInt created]> (<["owned_by" := VStr "openai"]>
    (<["name" := VStr mid]> (<["openai" := VDict raw]> ∅))))) in
  VDict (if with_urlIdx then <["urlIdx" := VInt 0]> entry else entry).

(** Only the first entry of each static list carries ["urlIdx": 0]. *)
Definition moonshot_models (current_time : Z) : list value :=
  [ static_model current_time "moonshot-v1-8k" true;
    static_model current_time "moonshot-v1-32k" false;
    static_model current_time "moonshot-v1-64k" false ].

Definition qianfan_models (current_time : Z) : list value :=
  [ static_model current_time "ERNIE-4.0-8K" true;
    static_model current_time "ERNIE-4.0-8K-Preview" false;
    static_model current_time "ERNIE-4.0-8K-Preview-0518" false;
    static_model current_time "ERNIE-4.0-8K-Latest" false;
    static_model current_time "ERNIE-4.0-8K-0329" false;
    static_model current_time "ERNIE-4.0-8K-0613" false;
    static_model current_time "ERNIE-4.0-Turbo-8K" false;
    static_model current_time "ERNIE-4.0-Turbo-8K-Preview" false;
    static_model current_time "ERNIE-3.5-8K" false ].

(** The ids of the static entries. *)
Definition static_ids : list string :=
  [ "moonshot-v1-8k"; "moonshot-v1-32k"; "moonshot-v1-64k";
    "ERNIE-4.0-8K"; "ERNIE-4.0-8K-Preview"; "ERNIE-4.0-8K-Preview-0518";
    "ERNIE-4.0-8K-Latest"; "ERNIE-4.0-8K-0329"; "ERNIE-4.0-8K-0613";
    "ERNIE-4.0-Turbo-8K"; "ERNIE-4.0-Turbo-8K-Preview"; "ERNIE-3.5-8K" ].

(** [{model["id"]: model for model in data}], added to [acc].  The catalog
    is keyed by strings: an id that is hashable and not a string is outside
    this embedding. *)
Fixpoint index_by_id (acc : gmap string value) (data : list value)
    : result (gmap string value) :=
  match data with
  | [] => Ok acc
  | model :: rest =>
      mid ← Py.getitem model "id";
      match mid with
      | VStr s => index_by_id (<[s := model]> acc) rest
      | VList _ | VDict _ => Raise TypeError
      | _ => Raise OutOfModel
      end
  end.

Definition models_payload (data : list value) : value :=
  VDict {["data" := VList data]}.

(** The head of [get_all_models]: one empty key, or the API switched off. *)
Definition not_configured (c : AppConfig) : bool :=
  ((length (OPENAI_API_KEYS c) =? 1)%nat
     && match OPENAI_API_KEYS c with k :: _ => (k =? EmptyString)%string | [] => false end)
  || negb (default false (ENABLE_OPENAI_API c)).

(** The arguments of the [fetch_url] tasks. *)
Definition fetch_tasks (urls keys : list string) : result (list (string * string)) :=
  mapM (λ '(idx, url), key ← Py.index keys (Z.of_nat idx); Ok (url +:+ "/models", key))
       (enumerate_from 0 urls).

Section Aggregation.
Variable env : environment.

(** From the model lists to the data returned and the new catalog: merge,
    static entries, index. *)
Definition catalog_of_lists (urls : list string) (model_lists : list value)
    : result (list value * gmap string value) :=
  merged ← merge_models_lists urls model_lists;
  let data := merged ++ moonshot_models (clock env 0) ++ qianfan_models (clock env 1) in
  catalog ← index_by_id ∅ data;
  Ok (data, catalog).

(** The aggregation branch after the fan-out. *)
Definition aggregate (urls : list string) (responses : list value)
    : result (list value * gmap string value) :=
  model_lists ← mapM response_models responses;
  catalog_of_lists urls model_lists.

Definition get_all_models (raw : bool) (st : app_state) : run value :=
  if not_configured (config st) then
    {| returned := Ok (models_payload []); state_after := st; trace := [] |}
  else
    let urls := OPENAI_API_BASE_URLS (config st) in
    let st1 := set_OPENAI_API_KEYS (reconcile_keys urls (OPENAI_API_KEYS (config st))) st in
    match fetch_tasks urls (OPENAI_API_KEYS (config st1)) with
    | Raise e => {| returned := Raise e; state_after := st1; trace := [] |}
    | Ok tasks =>
        let responses := (λ '(url, key), fetch_url env url key) <$> tasks in
        let log := (λ '(url, key), Fetch url key) <$> tasks in
        if raw then
          {| returned := Ok (VList responses); state_after := st1; trace := log |}
        else
          match aggregate urls responses with
          | Ok (data, catalog) =>
              {| returned := Ok (models_payload data);
                 state_after := set_MODELS catalog st1; trace := log |}
          | Raise e => {| returned := Raise e; state_after := st1; trace := log |}
          end
    end.

(** POST /urls/update *)
Definition update_openai_urls (form_urls : list string) (st : app_state) : run value :=
  let r := get_all_models false st in
  match returned r with
  | Ok _ =>
      let st' := set_OPENAI_API_BASE_URLS form_urls (state_after r) in
      {| returned := Ok (VDict {["OPENAI_API_BASE_URLS" := VList (VStr <$> form_urls)]});
         state_after := st'; trace := trace r |}
  | Raise e => {| returned := Raise e; state_after := state_after r; trace := trace r |}
  end.


(** The [check_url] middleware, before the handler runs. *)
Definition check_url (st : app_state) : run unit :=
  if bool_decide (MODELS st = ∅) then
    let r := get_all_models false st in
    {| returned := (λ _, ()) <$> returned r;
       state_after := state_after r; trace := trace r |}
  else {| returned := Ok (); state_after := st; trace := [] |}.

(** [raise HTTPException(...)] at the end of the [except] clause of
    [get_models]: [requests] makes a response falsy when its status is an
    error status. *)
Definition requests_ok (r : http_response) : bool :=
  negb ((400 <=? status r) && (status r <? 600)).

(** GET /models and GET /models/{url_idx} *)
Definition get_models (url_idx : option Z) (user : UserModel) (st : app_state)
    : run value :=
  match url_idx with
  | None =>
      let r := get_all_models false st in
      match returned r with
      | Ok models =>
          if ENABLE_MODEL_FILTER (config (state_after r))
             && (user_role user =? "user")%string
          then
            let allowed : value → result bool := λ model,
              mid ← Py.getitem model "id";
              Ok (match mid with
                  | VStr s => bool_decide (s ∈ MODEL_FILTER_LIST (config (state_after r)))
                  | _ => false
                  end) in
            let filtered :=
              data ← Py.getitem models "data";
              ms ← Py.iter data;
              flags ← mapM (λ model, b ← allowed model; Ok (if b : bool then Some model else None)) ms;
              match models with
              | VDict d => Ok (VDict (<["data" := VList (kept flags)]> d))
              | _ => Raise TypeError
              end in
            {| returned := filtered; state_after := state_after r; trace := trace r |}
          else r
      | Raise _ => r
      end
  | Some i =>
      match (url ← Py.index (OPENAI_API_BASE_URLS (config st)) i;
             key ← Py.index (OPENAI_API_KEYS (config st)) i;
             Ok (url, key)) with
      | Raise e => {| returned := Raise e; state_after := st; trace := [] |}
      | Ok (url, key) =>
          let hdrs := [("Authorization", "Bearer " +:+ key);
                       ("Content-Type", "application/json")] in
          let target := url +:+ "/models" in
          let outcome :=
            match http_request env "GET" target hdrs VNone with
            | None => Raise (HTTPException 500 ServerConnectionError)
            | Some r =>
                try_except
                  ((if requests_ok r then Ok () else Raise (ResponseError (status r))) ≫= λ _,
                   response_data ← json r;
                   if is_openai_url url then
                     data ← Py.getitem response_data "data";
                     ms ← Py.iter data;
                     flags ← mapM (λ model, mid ← Py.getitem model "id";
                                            b ← Py.contains "gpt" mid;
                                            Ok (if b : bool then Some model else None)) ms;
                     match response_data with
                     | VDict d => Ok (VDict (<["data" := VList (kept flags)]> d))
                     | _ => Raise TypeError
                     end
                   else Ok response_data)
                  (λ e,
                     let detail :=
                       match (res ← json r;
                              has_error ← Py.contains "error" res;
                              if has_error : bool
                              then ExternalValue <$> Py.getitem res "error"
                              else Ok ServerConnectionError) with
                       | Ok d => d
                       | Raise _ => ExternalException e
                       end in
                     Raise (HTTPException (if requests_ok r then status r else 500) detail))
            end in
          {| returned := outcome; state_after := st;
             trace := [Request "GET" target hdrs VNone] |}
      end
  end.

End Aggregation.

(** ** Chat completion: [generate_chat_completion] and [cleanup_response] *)

(** The adapters behind the reserved prefixes ([handle_leagent_request],
    [handle_moonshot_request], [handle_qianfan_request]). *)
Inductive adapter : Type := Leagent | Moonshot | Qianfan.

Inductive ClientSession : Type := client_session.

(** What a handler hands back to the framework. *)
Inductive response : Type :=
  | JSONResponse (body : value)
  | StreamingResponse (body_iterator : list string) (status_code : Z)
      (hdrs : gmap string string)
      (background : option http_response * option ClientSession)
  | AdapterStream (a : adapter) (payload : gmap string value).

(** [headers.get(name)] on the case-insensitive multi-dict of aiohttp. *)
Definition headers_get (hs : list (string * string)) (name : string) : option string :=
  snd <$> List.find (λ h, (PyStr.lower (fst h) =? PyStr.lower name)%string) hs.

(** [dict(headers)]: each name as received, with the value
    [headers[name]] finds first. *)
Definition headers_dict (hs : list (string * string)) : gmap string string :=
  foldl (λ m h, <[fst h := default EmptyString (headers_get hs (fst h))]> m) ∅ hs.

(** ["text/event-stream" in r.headers.get("Content-Type", "")] *)
Definition is_event_stream (r : http_response) : bool :=
  PyStr.contains "text/event-stream"
    (default EmptyString (headers_get (headers r) "Content-Type")).

Definition cleanup_response (response : option http_response)
    (session : option ClientSession) : list event :=
  (if response is Some _ then [ResponseClose] else [])
  ++ (if session is Some _ then [SessionClose] else []).

(** How the serving of a [StreamingResponse] ends: every chunk of the body
    arrives and is sent; or the body iterator raises after [n] chunks (the
    backend breaks off); or the caller goes away after [n] chunks. *)
Inductive relay_end : Type :=
  | Completed
  | BodyRaises (n : nat) (e : exn)
  | CallerLeaves (n : nat) (background_runs : bool).

(** Whether the background task of the response is run.  Starlette runs it
    after the streaming, when the streaming returns: it does when the
    iterator is exhausted; it does not when the iterator raises, since the
    exception leaves the response before the task; when the caller goes
    away the streaming is cancelled, and whether the task is then run
    depends on the version of Starlette and on the middleware around the
    response, so that both outcomes are kept. *)
Definition background_runs_after (how : relay_end) : bool :=
  match how with
  | Completed => true
  | BodyRaises _ _ => false
  | CallerLeaves _ b => b
  end.

(** The chunks that are forwarded before the relay ends. *)
Definition forwarded (body : list string) (how : relay_end) : list string :=
  match how with
  | Completed => body
  | BodyRaises n _ | CallerLeaves n _ => take n body
  end.

(** How the framework sends a response: a [StreamingResponse] sends the
    start of the response, then forwards each chunk of the iterator as it
    reads it, until the relay ends, and then runs the background task if
    the relay ended in a way after which it is run.  This is Starlette's
    [StreamingResponse.__call__], not code of the module. *)
Definition serve (resp : response) (how : relay_end) : list event :=
  match resp with
  | StreamingResponse body status_code hdrs (r, session) =>
      ResponseStart status_code hdrs
        :: flat_map (λ c, [ChunkRead c; ChunkSent c]) (forwarded body how)
        ++ (if background_runs_after how then cleanup_response r session else [])
  | _ => []
  end.

Definition reserved_adapter (model_id : string) : option adapter :=
  let l := PyStr.lower model_id in
  if PyStr.startswith "leagent" l then Some Leagent
  else if PyStr.startswith "moonshot" l then Some Moonshot
  else if PyStr.startswith "ernie" l then Some Qianfan
  else None.

(** [if cond: payload[key] = v] *)
Definition override (cond : bool) (key : string) (v : result value)
    (payload : gmap string value) : result (gmap string value) :=
  if cond then x ← v; Ok (<[key := x]> payload) else Ok payload.

Definition is_None (v : value) : bool :=
  match v with VNone => true | _ => false end.

(** [model["id"] == s] and the like: a value against a string literal. *)
Definition eq_str (v : value) (s : string) : bool :=
  match v with VStr x => (x =? s)%string | _ => false end.

Definition system_message (system : string) : value :=
  VDict (<["role" := VStr "system"]> (<["content" := VStr system]> ∅)).

(** The [for message in payload["messages"]] loop: [Some] of the messages
    after the first system message was rewritten ([break]), [None] when the
    loop ends without one ([else]). *)
Fixpoint prepend_system (system : string) (messages : list value)
    : result (option (list value)) :=
  match messages with
  | [] => Ok None
  | message :: rest =>
      match message with
      | VDict m =>
          if eq_str (Py.get m "role") "system" then
            old ← Py.getitem message "content";
            new ← Py.add_str system old;
            Ok (Some (VDict (<["content" := new]> m) :: rest))
          else
            found ← prepend_system system rest;
            Ok (cons message <$> (found : option (list value)))
      | _ => Raise AttributeError
      end
  end.

(** The keywords passed to [prompt_template]. *)
Definition user_kwargs (user : option UserModel) : option (string * value) :=
  match user with
  | Some u =>
      Some (user_name u,
            match user_info u with
            | Some info => if bool_decide (info = ∅) then VNone else Py.get info "location"
            | None => VNone
            end)
  | None => None
  end.

Section ChatCompletion.
Variable env : environment.

(** The block under [if model_info.params:]. *)
Definition apply_params (params payload : gmap string value)
    : result (gmap string value) :=
  if bool_decide (params = ∅) then Ok payload
  else
    let temperature := Py.get params "temperature" in
    let top_p := Py.get params "top_p" in
    let max_tokens := Py.get params "max_tokens" in
    let frequency_penalty := Py.get params "frequency_penalty" in
    let seed := Py.get params "seed" in
    let stop := Py.get params "stop" in
    p1 ← override (negb (is_None temperature)) "temperature"
           (VFloat <$> Py.to_float (float_of_str env) temperature) payload;
    p2 ← override (Py.truthy top_p) "top_p"
           (VInt <$> Py.to_int (int_of_str env) top_p) p1;
    p3 ← override (Py.truthy max_tokens) "max_tokens"
           (VInt <$> Py.to_int (int_of_str env) max_tokens) p2;
    p4 ← override (Py.truthy frequency_penalty) "frequency_penalty"
           (VInt <$> Py.to_int (int_of_str env) frequency_penalty) p3;
    p5 ← override (Py.truthy seed) "seed" (Ok seed) p4;
    override (Py.truthy stop) "stop"
      (if Py.truthy stop
       then stops ← Py.iter stop; VList <$> mapM (unicode_escape env) stops
       else Ok VNone) p5.

(** The block under [if system:]. *)
Definition apply_system (user : option UserModel) (params payload : gmap string value)
    : result (gmap string value) :=
  let system := Py.get params "system" in
  if Py.truthy system then
    rendered ← prompt_template env system (user_kwargs user);
    let messages := Py.get payload "messages" in
    if Py.truthy messages then
      ms ← Py.iter messages;
      found ← prepend_system rendered ms;
      match found : option (list value) with
      | Some ms' => Ok (<["messages" := VList ms']> payload)
      | None =>
          match messages return result (gmap string value) with
          | VList l => Ok (<["messages" := VList (system_message rendered :: l)]> payload)
          | _ => Raise AttributeError
          end
      end
    else Ok payload
  else Ok payload.

(** The block under [if model_info:]. *)
Definition normalize (model_info : option ModelModel) (user : option UserModel)
    (payload : gmap string value) : result (gmap string value) :=
  match model_info with
  | Some info =>
      let p0 := match base_model_id info with
                | Some b => if (b =? EmptyString)%string then payload
                            else <["model" := VStr b]> payload
                | None => payload
                end in
      p1 ← apply_params (params info) p0;
      apply_system user (params info) p1
  | None => Ok payload
  end.

(** [app.state.MODELS[key]] *)
Definition lookup_model (models : gmap string value) (key : value) : result value :=
  match key with
  | VStr s =>
      match models !! s with
      | Some model => Ok model
      | None => Raise (KeyError key)
      end
  | VList _ | VDict _ => Raise TypeError
  | _ => Raise (KeyError key)
  end.

Definition user_envelope (user : option UserModel) : result value :=
  match user with
  | Some u =>
      Ok (VDict (<["name" := VStr (user_name u)]> (<["id" := VStr (user_id u)]>
                (<["email" := VStr (user_email u)]> (<["role" := VStr (user_role u)]> ∅)))))
  | None => Raise AttributeError
  end.

(** From the catalog lookup to the payload that is serialised: the backend
    index, the pipeline envelope and the [max_tokens] workaround. *)
Definition route (st : app_state) (user : option UserModel)
    (payload : gmap string value) : result (value * gmap string value) :=
  model ← lookup_model (MODELS st) (Py.get payload "model");
  idx ← Py.getitem model "urlIdx";
  has_pipeline ← Py.contains "pipeline" model;
  pipeline ← (if has_pipeline : bool then Py.getitem model "pipeline" else Ok VNone);
  p1 ← (if Py.truthy pipeline
        then u ← user_envelope user; Ok (<["user" := u]> payload)
        else Ok payload);
  let p2 := if eq_str (Py.get p1 "model") "gpt-4-vision-preview"
            then match p1 !! "max_tokens" with
                 | Some _ => p1
                 | None => <["max_tokens" := VInt 4000]> p1
                 end
            else p1 in
  Ok (idx, p2).

(** Everything before the [try]: the base URL, the key and the payload to
    send.  [json.dumps(payload)] is not rendered: the request carries the
    dictionary that is serialised. *)
Definition prepare (form_data : gmap string value) (user : option UserModel)
    (st : app_state) : result (string * string * gmap string value) :=
  let model_info := get_model_by_id env (Py.get form_data "model") in
  p ← normalize model_info user form_data;
  routed ← route st user p;
  url ← Py.index_value (OPENAI_API_BASE_URLS (config st)) (fst routed);
  key ← Py.index_value (OPENAI_API_KEYS (config st)) (fst routed);
  Ok (url, key, snd routed).

(** The local variables [r], [session] and [streaming]. *)
Record locals : Type := {
  r : option http_response;
  session : option ClientSession;
  streaming : bool
}.

Definition chat_headers (key : string) : list (string * string) :=
  [("Authorization", "Bearer " +:+ key); ("Content-Type", "application/json")].

(** The [try] block: the locals where it ends, what it did, its outcome. *)
Definition try_block (url key : string) (payload : gmap string value)
    : locals * list event * result response :=
  if session_opens env then
    let target := url +:+ "/chat/completions" in
    let sent := [SessionOpen; Request "POST" target (chat_headers key) (VDict payload)] in
    match http_request env "POST" target (chat_headers key) (VDict payload) with
    | None =>
        ({| r := None; session := Some client_session; streaming := false |},
         sent, Raise ClientError)
    | Some resp =>
        let here := {| r := Some resp; session := Some client_session; streaming := false |} in
        if 400 <=? status resp then (here, sent, Raise (ResponseError (status resp)))
        else if is_event_stream resp then
          ({| r := Some resp; session := Some client_session; streaming := true |},
           sent,
           Ok (StreamingResponse (content resp) (status resp) (headers_dict (headers resp))
                 (Some resp, Some client_session)))
        else (here, sent ++ [ReadJSON], JSONResponse <$> json resp)
    end
  else ({| r := None; session := None; streaming := false |}, [], Raise ClientError).

(** [await r.json()] on a response on which [r.raise_for_status()] has
    run.  For a status of 400 or more, aiohttp's [raise_for_status]
    releases the response before it raises, and reading a released
    response raises (the connection is closed); for any other status the
    body is read, or was read before, and is decoded. *)
Definition json_after_status_check (resp : http_response) : result value :=
  if 400 <=? status resp then Raise ClientError else json resp.

(** The [except Exception as e] clause: what it does and what it raises.
    When [r] is set, [r.raise_for_status()] has run. *)
Definition except_clause (l : locals) (e : exn) : list event * exn :=
  match r l with
  | Some resp =>
      let detail :=
        match (res ← json_after_status_check resp;
               has_error ← Py.contains "error" res;
               if has_error : bool then
                 err ← Py.getitem res "error";
                 has_message ← Py.contains "message" err;
                 if has_message : bool then ExternalValue <$> Py.getitem err "message"
                 else Ok (ExternalValue err)
               else Ok ServerConnectionError) with
        | Ok d => d
        | Raise _ => ExternalException e
        end in
      ([ReadJSON], HTTPException (status resp) detail)
  | None => ([], HTTPException 500 ServerConnectionError)
  end.

(** The [finally] clause. *)
Definition finally_clause (l : locals) : list event :=
  if negb (streaming l) && bool_decide (is_Some (session l)) then
    (if r l is Some _ then [ResponseClose] else []) ++ [SessionClose]
  else [].

(** The [try] statement of the handler. *)
Definition forward (url key : string) (payload : gmap string value)
    : result response * list event :=
  let '(l, did, outcome) := try_block url key payload in
  match outcome with
  | Ok resp => (Ok resp, did ++ finally_clause l)
  | Raise e =>
      let '(did', e') := except_clause l e in
      (Raise e', did ++ did' ++ finally_clause l)
  end.

(** POST /chat/completions.  The adapters behind the reserved prefixes are
    not unfolded. *)
Definition generate_chat_completion (form_data : gmap string value)
    (url_idx : option Z) (user : option UserModel) (st : app_state)
    : result response * list event :=
  match Py.get form_data "model" with
  | VStr model_id =>
      match reserved_adapter model_id with
      | Some a => (Ok (AdapterStream a form_data), [])
      | None =>
          match prepare form_data user st with
          | Ok (url, key, payload) => forward url key payload
          | Raise e => (Raise e, [])
          end
      end
  | _ => (Raise AttributeError, [])
  end.

End ChatCompletion.

(** ** Vocabulary of the statements *)

(** A model record whose ["id"] is a string. *)
Definition has_str_id (d : gmap string value) : Prop :=
  ∃ s, d !! "id" = Some (VStr s).

(** ["gpt" in model["id"]] for such a record. *)
Definition gpt_in_id (d : gmap string value) : bool :=
  match d !! "id" with
  | Some (VStr s) => PyStr.contains "gpt" s
  | _ => false
  end.

(** What one backend's list is to [merge_models_lists]: [None], or a list
    of model records. *)
Definition model_list (l : option (list (gmap string value))) : value :=
  match l with
  | None => VNone
  | Some ds => VList (VDict <$> ds)
  end.

Definition well_formed_list (l : option (list (gmap string value))) : Prop :=
  match l with
  | None => True
  | Some ds => Forall has_str_id ds
  end.

(** The entries the backend [idx] adds to the merged list. *)
Definition contribution (urls : list string) (idx : nat)
    (l : option (list (gmap string value))) : list value :=
  match l, urls !! idx with
  | Some ds, Some url =>
      (λ d, merged_entry idx d (Py.get d "id"))
        <$> List.filter (λ d, negb (is_openai_url url) || gpt_in_id d) ds
  | _, _ => []
  end.

Fixpoint merged_from (urls : list string) (idx : nat)
    (listed : list (option (list (gmap string value)))) : list value :=
  match listed with
  | [] => []
  | l :: rest => contribution urls idx l ++ merged_from urls (S idx) rest
  end.

(** The backend [idx] lists a model with id [mid] that the merge keeps. *)
Definition contributes (urls : list string)
    (listed : list (option (list (gmap string value)))) (idx : nat) (mid : string) : Prop :=
  ∃ url ds d,
    urls !! idx = Some url ∧ listed !! idx = Some (Some ds) ∧ d ∈ ds
    ∧ d !! "id" = Some (VStr mid)
    ∧ (is_openai_url url = false ∨ PyStr.contains "gpt" mid = true).

(** The backend [idx] lists a model with id [mid], kept or not. *)
Definition lists_id (listed : list (option (list (gmap string value))))
    (idx : nat) (mid : string) : Prop :=
  ∃ ds d, listed !! idx = Some (Some ds) ∧ d ∈ ds ∧ d !! "id" = Some (VStr mid).

(** The string id of a catalog entry. *)
Definition entry_id (e : value) : option string :=
  match e with
  | VDict d => match d !! "id" with Some (VStr s) => Some s | _ => None end
  | _ => None
  end.

(** The last entry of [data] with id [mid]. *)
Fixpoint last_with_id (mid : string) (data : list value) : option value :=
  match data with
  | [] => None
  | e :: rest =>
      match last_with_id mid rest with
      | Some x => Some x
      | None => if bool_decide (entry_id e = Some mid) then Some e else None
      end
  end.

(** The ["urlIdx"] of a catalog entry. *)
Definition urlIdx_of (e : value) : option value :=
  match e with
  | VDict d => d !! "urlIdx"
  | _ => None
  end.

(** The responses [asyncio.gather] returns for the URLs and reconciled keys. *)
Definition fetched (env : environment) (urls keys : list string) : list value :=
  zip_with (λ url key, fetch_url env (url +:+ "/models") key) urls keys.

(** The data [get_all_models] returns for the model lists [listed]. *)
Definition catalog_data (env : environment) (urls : list string)
    (listed : list (option (list (gmap string value)))) : list value :=
  merged_from urls 0 listed
    ++ moonshot_models (clock env 0) ++ qianfan_models (clock env 1).

(** A profile value of zero: the integer or the float. *)
Definition zero (v : value) : Prop := v = VInt 0 ∨ v = VFloat 0%float.

(** A message that is a dictionary. *)
Definition is_record (m : value) : Prop := ∃ d, m = VDict d.

(** [message.get("role") == "system"] *)
Definition is_system (m : value) : bool :=
  match m with
  | VDict d => eq_str (Py.get d "role") "system"
  | _ => false
  end.

(** The model id looked up in the catalog: the alias of the profile when it
    has one, the requested id otherwise. *)
Definition resolved_model_id (info : option ModelModel) (model_id : string) : string :=
  match info with
  | Some i =>
      match base_model_id i with
      | Some b => if (b =? EmptyString)%string then model_id else b
      | None => model_id
      end
  | None => model_id
  end.

(** ** Concrete inputs *)

Definition model_record (mid : string) : gmap string value :=
  {["id" := VStr mid]}.

Definition catalog_body (ids : list string) : gmap string value :=
  {["data" := VList (VDict <$> (model_record <$> ids))]}.

(** An environment in which no backend answers and no model has a row. *)
Definition silent_env : environment := {|
  models_endpoint := λ _ _, Unreachable;
  http_request := λ _ _ _ _, None;
  session_opens := true;
  get_model_by_id := λ _, None;
  prompt_template := λ template _,
    match template with VStr s => Ok s | _ => Raise AttributeError end;
  unicode_escape := λ v, Ok v;
  float_of_str := λ _, Raise ValueError;
  int_of_str := λ _, Raise ValueError;
  clock := λ _, 1700000000
|}.

Definition with_models_endpoint (f : string → string → backend_reply)
    (env : environment) : environment := {|
  models_endpoint := f;
  http_request := http_request env;
  session_opens := session_opens env;
  get_model_by_id := get_model_by_id env;
  prompt_template := prompt_template env;
  unicode_escape := unicode_escape env;
  float_of_str := float_of_str env;
  int_of_str := int_of_str env;
  clock := clock env
|}.

Definition with_http_request
    (f : string → string → list (string * string) → value → option http_response)
    (env : environment) : environment := {|
  models_endpoint := models_endpoint env;
  http_request := f;
  session_opens := session_opens env;
  get_model_by_id := get_model_by_id env;
  prompt_template := prompt_template env;
  unicode_escape := unicode_escape env;
  float_of_str := float_of_str env;
  int_of_str := int_of_str env;
  clock := clock env
|}.

Definition with_model_info (f : value → option ModelModel)
    (env : environment) : environment := {|
  models_endpoint := models_endpoint env;
  http_request := http_request env;
  session_opens := session_opens env;
  get_model_by_id := f;
  prompt_template := prompt_template env;
  unicode_escape := unicode_escape env;
  float_of_str := float_of_str env;
  int_of_str := int_of_str env;
  clock := clock env
|}.

(** The state of a configured gateway with an empty catalog. *)
Definition configured (urls keys : list string) : app_state := {|
  config := {| ENABLE_MODEL_FILTER := false;
               MODEL_FILTER_LIST := [];
               ENABLE_OPENAI_API := Some true;
               OPENAI_API_BASE_URLS := urls;
               OPENAI_API_KEYS := keys |};
  MODELS := ∅
|}.

(** Three backends: a local server, OpenAI and Moonshot. *)
Definition three_urls : list string :=
  ["http://localhost:11434/v1"; "https://api.openai.com/v1"; "https://api.moonshot.cn/v1"].

Definition three_listed : list (option (list (gmap string value))) :=
  [ Some (model_record <$> ["llama3"; "whisper-1"]);
    Some (model_record <$> ["gpt-4o"; "whisper-1"; "dall-e-3"]);
    Some (model_record <$> ["moonshot-v1-8k"]) ].

Definition three_env : environment :=
  with_models_endpoint
    (λ url _,
       if (url =? "http://localhost:11434/v1/models")%string
       then Body (VDict (catalog_body ["llama3"; "whisper-1"]))
       else if (url =? "https://api.openai.com/v1/models")%string
       then Body (VDict (catalog_body ["gpt-4o"; "whisper-1"; "dall-e-3"]))
       else if (url =? "https://api.moonshot.cn/v1/models")%string
       then Body (VDict (catalog_body ["moonshot-v1-8k"]))
       else Unreachable)
    silent_env.

Definition three_state : app_state := configured three_urls ["k0"; "k1"; "k2"].

(** The replies of the backends to the pass over [urls] and [keys]. *)
Definition replies (env : environment) (urls keys : list string) : list backend_reply :=
  zip_with (λ url key, models_endpoint env (url +:+ "/models") key) urls keys.

(** A request that ends in an exception inside [fetch_url]. *)
Definition failed (reply : backend_reply) : Prop :=
  reply = TimedOut ∨ reply = Unreachable ∨ reply = NotJSON.

(** The replies the aggregation takes in its stride, each with the model
    list it stands for: a failure; a body that is falsy and no list
    ([null], [false], [0], the empty string or object); a string without
    ["data"]; a JSON object without ["data"]; an object whose ["data"] is a
    list of model records, or such a list itself. *)
Inductive tolerated : backend_reply → option (list (gmap string value)) → Prop :=
  | tolerated_timeout : tolerated TimedOut None
  | tolerated_unreachable : tolerated Unreachable None
  | tolerated_not_json : tolerated NotJSON None
  | tolerated_falsy (v : value) :
      Py.truthy v = false → (∀ l, v ≠ VList l) → tolerated (Body v) None
  | tolerated_text (s : string) :
      PyStr.contains "data" s = false → tolerated (Body (VStr s)) None
  | tolerated_no_data (d : gmap string value) :
      d !! "data" = None → tolerated (Body (VDict d)) None
  | tolerated_catalog (d : gmap string value) (ds : list (gmap string value)) :
      d !! "data" = Some (VList (VDict <$> ds)) → Forall has_str_id ds →
      tolerated (Body (VDict d)) (Some ds)
  | tolerated_list (ds : list (gmap string value)) :
      Forall has_str_id ds → tolerated (Body (VList (VDict <$> ds))) (Some ds).

(** Three backends of which the second times out and the third answers
    with an error object. *)
Definition flaky_urls : list string :=
  ["http://10.0.0.1/v1"; "http://10.0.0.2/v1"; "http://10.0.0.3/v1"].

Definition flaky_listed : list (option (list (gmap string value))) :=
  [Some (model_record <$> ["mistral"; "llama3"]); None; None].

Definition flaky_env : environment :=
  with_models_endpoint
    (λ url _,
       if (url =? "http://10.0.0.1/v1/models")%string
       then Body (VDict (catalog_body ["mistral"; "llama3"]))
       else if (url =? "http://10.0.0.2/v1/models")%string
       then TimedOut
       else Body (VDict {["detail" := VStr "Not Found"]}))
    silent_env.

Definition flaky_state : app_state := configured flaky_urls ["k"].

(** One backend before the URL update and another one after it. *)
Definition swap_env : environment :=
  with_models_endpoint
    (λ url _,
       if (url =? "http://old.example/v1/models")%string
       then Body (VDict (catalog_body ["old-model"]))
       else if (url =? "http://new.example/v1/models")%string
       then Body (VDict (catalog_body ["new-model"]))
       else Unreachable)
    silent_env.

Definition swap_state : app_state := configured ["http://old.example/v1"] ["k"].

Definition alice : UserModel := {|
  user_name := "Alice";
  user_id := "u-1";
  user_email := "alice@example.org";
  user_role := "user";
  user_info := Some {["location" := VStr "Paris"]}
|}.

(** OpenAI's answer to the listing by explicit index. *)
Definition openai_models : list (gmap string value) :=
  model_record <$> ["gpt-4o"; "whisper-1"; "dall-e-3"].

Definition openai_listing : http_response := {|
  status := 200;
  headers := [("Content-Type", "application/json")];
  content := [];
  json := Ok (VDict (catalog_body ["gpt-4o"; "whisper-1"; "dall-e-3"]))
|}.

Definition listing_env : environment :=
  with_http_request
    (λ method url _ _,
       if ((method =? "GET") && (url =? "https://api.openai.com/v1/models"))%string
       then Some openai_listing else None)
    three_env.

(** A backend of another host whose URL holds the text [api.openai.com]. *)
Definition mirror_url : string := "https://api.openai.com.proxy.local/v1".

Definition mirror_models : list (gmap string value) :=
  model_record <$> ["llama3"; "gpt-4o"].

Definition mirror_listing : http_response := {|
  status := 200;
  headers := [("Content-Type", "application/json")];
  content := [];
  json := Ok (VDict (catalog_body ["llama3"; "gpt-4o"]))
|}.

Definition mirror_env : environment :=
  with_http_request
    (λ method url _ _,
       if ((method =? "GET")
           && (url =? "https://api.openai.com.proxy.local/v1/models"))%string
       then Some mirror_listing else None)
    silent_env.

Definition mirror_state : app_state := configured [mirror_url] ["k"].

(** A gateway whose catalog was refreshed over the flaky backends, a
    backend that answers a chat completion with JSON, and profiles. *)
Definition chat_state : app_state :=
  state_after (get_all_models flaky_env false flaky_state).

Definition completion : http_response := {|
  status := 200;
  headers := [("Content-Type", "application/json")];
  content := ["{}"];
  json := Ok (VDict {["object" := VStr "chat.completion"]})
|}.

Definition chat_env (profile : option ModelModel) (answer : option http_response)
    : environment :=
  with_model_info (λ _, profile) (with_http_request (λ _ _ _ _, answer) flaky_env).

Definition user_message (text : string) : value :=
  VDict (<["role" := VStr "user"]> (<["content" := VStr text]> ∅)).

Definition zero_profile : ModelModel := {|
  base_model_id := None;
  params := <["temperature" := VInt 0]> (<["top_p" := VInt 0]>
            (<["max_tokens" := VInt 0]> (<["frequency_penalty" := VInt 0]>
            (<["seed" := VInt 0]> (<["stop" := VList []]> ∅)))))
|}.

Definition full_request : gmap string value :=
  <["model" := VStr "mistral"]> (<["messages" := VList [user_message "Hello"]]>
  (<["temperature" := VFloat 0.5%float]> (<["top_p" := VInt 1]>
  (<["max_tokens" := VInt 256]> (<["frequency_penalty" := VInt 1]>
  (<["seed" := VInt 42]> (<["stop" := VList [VStr "END"]]> ∅))))))).

Definition brief_profile : ModelModel := {|
  base_model_id := None;
  params := {["system" := VStr "Be brief. "]}
|}.

Definition no_messages_request : gmap string value :=
  <["model" := VStr "mistral"]> (<["messages" := VList []]> ∅).

Definition system_then_user : list value :=
  [ VDict (<["role" := VStr "system"]> (<["content" := VStr "You are a bot."]> ∅));
    user_message "Hello" ].

(** The chunks a trace sends to the caller, in order. *)
Definition chunks_sent (t : list event) : list string :=
  omap (λ e, match e with ChunkSent c => Some c | _ => None end) t.

(** A backend that answers a chat completion with an event stream, and one
    that answers with an error status and the same content type. *)
Definition event_stream : http_response := {|
  status := 200;
  headers := [("content-type", "text/event-stream; charset=utf-8");
              ("Cache-Control", "no-cache")];
  content := ["data: {}"; "data: [DONE]"];
  json := Raise DecodeError
|}.


(** ** The configuration handlers *)

Definition set_ENABLE_OPENAI_API (flag : option bool) (st : app_state) : app_state :=
  {| config := {| ENABLE_MODEL_FILTER := ENABLE_MODEL_FILTER (config st);
                  MODEL_FILTER_LIST := MODEL_FILTER_LIST (config st);
                  ENABLE_OPENAI_API := flag;
                  OPENAI_API_BASE_URLS := OPENAI_API_BASE_URLS (config st);
                  OPENAI_API_KEYS := OPENAI_API_KEYS (config st) |};
     MODELS := MODELS st |}.

(** GET /config *)
Definition get_config (st : app_state) : value :=
  VDict {["ENABLE_OPENAI_API" :=
            match ENABLE_OPENAI_API (config st) with
            | Some b => VBool b
            | None => VNone
            end]}.

(** POST /config/update.  The field of the form is optional: a form
    without it carries [None]. *)
Definition update_config (enable_openai_api : option bool) (st : app_state) : run value :=
  let st' := set_ENABLE_OPENAI_API enable_openai_api st in
  {| returned := Ok (get_config st'); state_after := st'; trace := [] |}.

(** GET /urls *)
Definition get_openai_urls (st : app_state) : value :=
  VDict {["OPENAI_API_BASE_URLS" := VList (VStr <$> OPENAI_API_BASE_URLS (config st))]}.

(** GET /keys *)
Definition get_openai_keys (st : app_state) : value :=
  VDict {["OPENAI_API_KEYS" := VList (VStr <$> OPENAI_API_KEYS (config st))]}.

(** ** The catch-all route: [proxy] *)

Section Proxy.
Variable env : environment.

(** The [try] block of [proxy].  The body is the raw body of the incoming
    request, passed on as it is. *)
Definition proxy_try_block (method target key : string) (body : string)
    : locals * list event * result response :=
  if session_opens env then
    let sent := [SessionOpen; Request method target (chat_headers key) (VStr body)] in
    match http_request env method target (chat_headers key) (VStr body) with
    | None =>
        ({| r := None; session := Some client_session; streaming := false |},
         sent, Raise ClientError)
    | Some resp =>
        let here := {| r := Some resp; session := Some client_session; streaming := false |} in
        if 400 <=? status resp then (here, sent, Raise (ResponseError (status resp)))
        else if is_event_stream resp then
          ({| r := Some resp; session := Some client_session; streaming := true |},
           sent,
           Ok (StreamingResponse (content resp) (status resp) (headers_dict (headers resp))
                 (Some resp, Some client_session)))
        else (here, sent ++ [ReadJSON], JSONResponse <$> json resp)
    end
  else ({| r := None; session := None; streaming := false |}, [], Raise ClientError).

(** Any method on any other path: the request goes to the first backend,
    with the first key.  The [except] and [finally] clauses are those of
    [generate_chat_completion]. *)
Definition proxy (path method : string) (body : string) (st : app_state)
    : result response * list event :=
  match (url ← Py.index (OPENAI_API_BASE_URLS (config st)) 0;
         key ← Py.index (OPENAI_API_KEYS (config st)) 0;
         Ok (url, key)) with
  | Raise e => (Raise e, [])
  | Ok (url, key) =>
      let '(l, did, outcome) := proxy_try_block method (url +:+ "/" +:+ path) key body in
      match outcome with
      | Ok resp => (Ok resp, did ++ finally_clause l)
      | Raise e =>
          let '(did', e') := except_clause l e in
          (Raise e', did ++ did' ++ finally_clause l)
      end
  end.

End Proxy.

(** ** Text to speech: [speech] *)

(** [l.index(x)]: the first position of [x], [ValueError] when there is
    none. *)
Fixpoint index_of (x : string) (l : list string) : result nat :=
  match l with
  | [] => Raise ValueError
  | y :: l' => if (y =? x)%string then Ok 0%nat else S <$> index_of x l'
  end.

(** The speech cache directory, by the [name] of its files: [{name}.mp3]
    holds the chunks written to it, [{name}.json] the request body that was
    dumped to it ([None] for a file that was opened and not written). *)
Record speech_cache : Type := {
  audio_files : gmap string (list string);
  body_files : gmap string (option value)
}.

Definition write_audio (name : string) (chunks : list string) (c : speech_cache)
    : speech_cache :=
  {| audio_files := <[name := chunks]> (audio_files c); body_files := body_files c |}.

Definition write_body (name : string) (v : option value) (c : speech_cache)
    : speech_cache :=
  {| audio_files := audio_files c; body_files := <[name := v]> (body_files c) |}.

(** What [speech] ends in: [FileResponse(file_path)] for the file
    [{name}.mp3], the [HTTPException] with status 401 and the message
    [ERROR_MESSAGES.OPENAI_NOT_FOUND], or another exception. *)
Inductive speech_outcome : Type :=
  | FileResponse (name : string)
  | OpenAINotFound
  | SpeechRaise (e : exn).

(** The headers of the speech request. *)
Definition speech_headers (url key : string) : list (string * string) :=
  [("Authorization", "Bearer " +:+ key); ("Content-Type", "application/json")]
  ++ (if PyStr.contains "openrouter.ai" url
      then [("HTTP-Referer", "https://openwebui.com/"); ("X-Title", "Open WebUI")]
      else []).

(** The detail the [except] clauses of [speech] and [get_models] compute
    from a response whose body can still be read. *)
Definition requests_error_detail (resp : http_response) (e : exn) : error_detail :=
  match (res ← json resp;
         has_error ← Py.contains "error" res;
         if has_error : bool
         then ExternalValue <$> Py.getitem res "error"
         else Ok ServerConnectionError) with
  | Ok d => d
  | Raise _ => ExternalException e
  end.

Section Speech.
Variable env : environment.
(** [hashlib.sha256(body).hexdigest()] *)
Variable sha256_hexdigest : string → string.
(** [json.loads(body.decode("utf-8"))] *)
Variable json_loads : string → result value.

(** The inner [try] statement, once the file is known not to be cached.
    Errors of the file system are not modelled: [open] and [write]
    succeed, and the body of an answer that was accepted arrives whole.
    The second [open] creates [{name}.json] before the body is parsed.  When the body does not parse, the response has been read as a
    stream, and [requests] raises on [r.json()] for a streamed response
    whose content was consumed: the detail is that of the bare [except]. *)
Definition speech_request (name url key body : string) (cache : speech_cache)
    : result string * speech_cache * list event :=
  let target := url +:+ "/audio/speech" in
  let hdrs := speech_headers url key in
  let sent := [Request "POST" target hdrs (VStr body)] in
  match http_request env "POST" target hdrs (VStr body) with
  | None => (Raise (HTTPException 500 ServerConnectionError), cache, sent)
  | Some resp =>
      if requests_ok resp then
        let cache1 := write_audio name (content resp) cache in
        match json_loads body with
        | Ok v => (Ok name, write_body name (Some v) cache1, sent)
        | Raise e =>
            (Raise (HTTPException (status resp) (ExternalException e)),
             write_body name None cache1, sent)
        end
      else
        (Raise (HTTPException 500
                  (requests_error_detail resp (ResponseError (status resp)))),
         cache, sent)
  end.

(** The body of the outer [try]. *)
Definition speech_body (body : string) (st : app_state) (cache : speech_cache)
    : result string * speech_cache * list event :=
  match index_of OPENAI_URL (OPENAI_API_BASE_URLS (config st)) with
  | Raise e => (Raise e, cache, [])
  | Ok idx =>
      let name := sha256_hexdigest body in
      if bool_decide (is_Some (audio_files cache !! name)) then (Ok name, cache, [])
      else
        match (key ← Py.index (OPENAI_API_KEYS (config st)) (Z.of_nat idx);
               url ← Py.index (OPENAI_API_BASE_URLS (config st)) (Z.of_nat idx);
               Ok (key, url)) with
        | Raise e => (Raise e, cache, [])
        | Ok (key, url) => speech_request name url key body cache
        end
  end.

(** POST /audio/speech: the outer [try] with its [except ValueError]. *)
Definition speech (body : string) (st : app_state) (cache : speech_cache)
    : speech_outcome * speech_cache * list event :=
  let '(outcome, cache', did) := speech_body body st cache in
  (match outcome with
   | Ok name => FileResponse name
   | Raise ValueError => OpenAINotFound
   | Raise e => SpeechRaise e
   end, cache', did).

End Speech.

(** ** The adapters behind the reserved prefixes *)

(** A frame [f"data: {json.dumps(v)}\n\n"] of the event stream, by the
    value that is serialised. *)
Inductive frame : Type := Data (v : value).

(** [{'choices': [{'delta': {'content': content}}]}] *)
Definition delta_frame (content : string) : frame :=
  Data (VDict {["choices" :=
          VList [VDict {["delta" := VDict {["content" := VStr content]}]}]]}).

(** [{'choices': [{'message': {'role': 'assistant', 'content': 'TASK_DONE'}}]}] *)
Definition done_frame : frame :=
  Data (VDict {["choices" :=
          VList [VDict {["message" :=
                   VDict (<["role" := VStr "assistant"]>
                          (<["content" := VStr "TASK_DONE"]> ∅))]}]]}).

(** What a generator does when it is run to its end: the items it yields,
    in order, and the exception that ends it, if one does. *)
Definition generated (A : Type) : Type := list A * option exn.

(** The [StreamingResponse] of an adapter: its media type, its headers and
    the generator it iterates when it is served. *)
Record adapter_response : Type := {
  media_type : string;
  adapter_headers : list (string * string);
  event_generator : generated frame
}.

(** A chunk of the stream of the OpenAI client, by [delta.content] of each
    of its [choices]. *)
Definition chunk : Type := list (option string).

(** The arguments of [OpenAI(...)] and of [client.chat.completions.create]. *)
Record completion_call : Type := {
  call_api_key : string;
  call_base_url : string;
  call_model : value;
  call_messages : value;
  call_temperature : float;
  call_stream : bool
}.

(** The loop of [event_generator] in [handle_moonshot_request] and
    [handle_qianfan_request], over the chunks of the stream and the
    exception that ends the stream, if one does. *)
Fixpoint relay_chunks (chunks : list chunk) (tail : option exn) : generated frame :=
  match chunks with
  | [] => ([], tail)
  | c :: rest =>
      match c with
      | [] => ([], Some IndexError)
      | Some content :: _ =>
          let '(frames, e) := relay_chunks rest tail in
          (delta_frame content :: frames, e)
      | None :: _ => relay_chunks rest tail
      end
  end.

(** The loop of [event_generator] in [handle_leagent_request], over the
    messages [leagent_processing] yields. *)
Fixpoint leagent_frames (messages : list string) (tail : option exn) : generated frame :=
  match messages with
  | [] => ([], tail)
  | message :: rest =>
      if (message =? "TASK_DONE")%string then ([done_frame], None)
      else let '(frames, e) := leagent_frames rest tail in
           (delta_frame message :: frames, e)
  end.

(** The line feed, ["\n"] in Python. *)
Definition newline : string := String (ascii_of_nat 10) EmptyString.

(** [v[-1]] on the value of ["messages"]. *)
Definition last_item (v : value) : result value :=
  match v with
  | VList l => Py.index l (-1)
  | VStr s => Py.index (VStr <$> PyStr.chars s) (-1)
  | VDict _ => Raise (KeyError (VInt (-1)))
  | _ => Raise TypeError
  end.

Section Adapters.
(** [os.getenv(name)] *)
Variable getenv : string → option string.
(** The stream [client.chat.completions.create(...)] returns, iterated to
    its end. *)
Variable create : completion_call → generated chunk.
(** [line.decode("utf-8").strip()] *)
Variable decode_strip : string → result string.
(** [user.dict()] *)
Variable user_dict : UserModel → value.
(** The POST to the leagent server with the given JSON body: the lines of
    the response body, [None] when no response arrives. *)
Variable leagent_post : string → value → option (list string).

Definition sse_headers : list (string * string) :=
  [("Cache-Type", "text/event-stream")].

Definition moonshot_call (payload : gmap string value) : completion_call := {|
  call_api_key := default EmptyString (getenv "MOONSHOT_API_KEY");
  call_base_url := "https://api.moonshot.cn/v1";
  call_model := Py.get payload "model";
  call_messages := default (VList []) (payload !! "messages");
  call_temperature := 0x1.3333333333333p-2%float;
  call_stream := true
|}.

Definition handle_moonshot_request (payload : gmap string value)
    (user : option UserModel) : adapter_response := {|
  media_type := "text/event-stream";
  adapter_headers := sse_headers;
  event_generator :=
    let '(chunks, e) := create (moonshot_call payload) in relay_chunks chunks e
|}.

Definition qianfan_call (payload : gmap string value) : completion_call := {|
  call_api_key := default EmptyString (getenv "QIANFAN_API_KEY");
  call_base_url := "https://api.moonshot.cn/v1";
  call_model := Py.get payload "model";
  call_messages := default (VList []) (payload !! "messages");
  call_temperature := 0x1.3333333333333p-2%float;
  call_stream := true
|}.

Definition handle_qianfan_request (payload : gmap string value)
    (user : option UserModel) : adapter_response := {|
  media_type := "text/event-stream";
  adapter_headers := sse_headers;
  event_generator :=
    let '(chunks, e) := create (qianfan_call payload) in relay_chunks chunks e
|}.

(** The loop of [leagent_processing] over the lines of the response; each
    message is yielded with a line feed after it. *)
Fixpoint leagent_lines (lines : list string) : generated string :=
  match lines with
  | [] => ([], None)
  | line :: rest =>
      if (line =? EmptyString)%string then leagent_lines rest
      else
        match decode_strip line with
        | Raise e => ([], Some e)
        | Ok message =>
            if (message =? "TASK_DONE")%string then ([message +:+ newline], None)
            else let '(messages, e) := leagent_lines rest in
                 ((message +:+ newline) :: messages, e)
        end
  end.

Definition leagent_processing (model_id content messages : value)
    (user : option UserModel) : generated string :=
  match user with
  | None => ([], Some AttributeError)
  | Some u =>
      match leagent_post "http://localhost:8101/process"
              (VDict (<["model" := model_id]> (<["content" := content]>
                     (<["messages" := messages]> (<["user" := user_dict u]> ∅))))) with
      | None => ([], Some ClientError)
      | Some lines => leagent_lines lines
      end
  end.

Definition handle_leagent_request (payload : gmap string value)
    (user : option UserModel) : result adapter_response :=
  let model_id := Py.get payload "model" in
  messages ← Py.getitem (VDict payload) "messages";
  user_message ← (if Py.truthy messages
                  then last ← last_item messages; Py.getitem last "content"
                  else Ok (VStr EmptyString));
  Ok {| media_type := "text/event-stream";
        adapter_headers := sse_headers;
        event_generator :=
          let '(yielded, e) := leagent_processing model_id user_message messages user in
          leagent_frames yielded e |}.

(** The adapter a reserved prefix selects, applied to the payload. *)
Definition run_adapter (a : adapter) (payload : gmap string value)
    (user : option UserModel) : result adapter_response :=
  match a with
  | Leagent => handle_leagent_request payload user
  | Moonshot => Ok (handle_moonshot_request payload user)
  | Qianfan => Ok (handle_qianfan_request payload user)
  end.

End Adapters.
(** ** Vocabulary of the statements on the other handlers *)

(** An entry the merge builds for a backend of the URL list. *)
Definition merged_for (urls : list string) (e : value) : Prop :=
  ∃ n url d mid, urls !! n = Some url ∧ d !! "id" = Some mid ∧ e = merged_entry n d mid.

(** Whether the listing shows an entry to a user under the filter list
    [allowed]. *)
Definition visible_to (allowed : list string) (e : value) : bool :=
  match entry_id e with
  | Some s => bool_decide (s ∈ allowed)
  | None => false
  end.

(** The headers of the listing by explicit index. *)
Definition listing_headers (key : string) : list (string * string) :=
  [("Authorization", "Bearer " +:+ key); ("Content-Type", "application/json")].

(** The position the subscript [l[i]] reads in a list of [len] elements,
    when there is one: an index below zero counts from the end. *)
Definition position (len : nat) (i : Z) : option nat :=
  if (0 <=? i) && (i <? Z.of_nat len) then Some (Z.to_nat i)
  else if (- Z.of_nat len <=? i) && (i <? 0) then Some (Z.to_nat (i + Z.of_nat len))
  else None.

(** Counting the events of a trace that open or release a resource. *)
Definition is_session_open (e : event) : bool :=
  match e with SessionOpen => true | _ => false end.

Definition is_session_close (e : event) : bool :=
  match e with SessionClose => true | _ => false end.

Definition is_response_close (e : event) : bool :=
  match e with ResponseClose => true | _ => false end.

Definition count (p : event → bool) (t : list event) : nat :=
  length (List.filter p t).

(** Everything a call does to the outside: what the handler does, then what
    serving its response does. *)
Definition whole_trace (handled : result response * list event) (how : relay_end)
    : list event :=
  snd handled ++ match fst handled with
                 | Ok resp => serve resp how
                 | Raise _ => []
                 end.

(** The handler returned a relay, and the serving of it ended without the
    background task being run. *)
Definition relay_cut_short (handled : result response * list event) (how : relay_end)
    : bool :=
  match fst handled with
  | Ok (StreamingResponse _ _ _ _) => negb (background_runs_after how)
  | _ => false
  end.

(** The traces in which what was opened is released, once and at the end. *)
Definition balanced (t : list event) : Prop :=
  count is_session_close t = count is_session_open t
  ∧ (count is_session_open t ≤ 1)%nat
  ∧ (count is_response_close t ≤ count is_session_open t)%nat
  ∧ (t = [] ∨ last t = Some SessionClose).

(** The traces that open a session and close neither it nor a response. *)
Definition unreleased (t : list event) : Prop :=
  count is_session_open t = 1%nat
  ∧ count is_session_close t = 0%nat
  ∧ count is_response_close t = 0%nat.

(** [chunk.choices[0].delta.content], when the chunk has a first choice
    and that choice a content. *)
Definition first_content (c : chunk) : option string :=
  match c with
  | Some content :: _ => Some content
  | _ => None
  end.

(** The envelope a pipeline model gets under ["user"]. *)
Definition envelope (u : UserModel) : value :=
  VDict (<["name" := VStr (user_name u)]> (<["id" := VStr (user_id u)]>
        (<["email" := VStr (user_email u)]> (<["role" := VStr (user_role u)]> ∅)))).

(** ** Concrete inputs of the other handlers *)

(** A gateway with the model filter on. *)
Definition filtered_state : app_state := {|
  config := {| ENABLE_MODEL_FILTER := true;
               MODEL_FILTER_LIST := ["llama3"; "ERNIE-3.5-8K"];
               ENABLE_OPENAI_API := Some true;
               OPENAI_API_BASE_URLS := three_urls;
               OPENAI_API_KEYS := ["k0"; "k1"; "k2"] |};
  MODELS := ∅
|}.

(** A backend that refuses the key. *)
Definition unauthorized : http_response := {|
  status := 401;
  headers := [("Content-Type", "application/json")];
  content := [];
  json := Ok (VDict {["error" := VDict {["message" := VStr "Incorrect API key"]}]})
|}.

Definition refusing_env : environment :=
  with_http_request (λ _ _ _ _, Some unauthorized) flaky_env.

(** A profile whose base model is a static entry without ["urlIdx"]. *)
Definition alias_profile : ModelModel := {|
  base_model_id := Some "moonshot-v1-32k";
  params := ∅
|}.

(** A backend that lists the vision model as a pipeline. *)
Definition vision_env : environment :=
  with_models_endpoint
    (λ _ _, Body (VDict {["data" :=
               VList [VDict (<["id" := VStr "gpt-4-vision-preview"]>
                            (<["pipeline" := VDict {["type" := VStr "filter"]}]> ∅))]]}))
    (chat_env None (Some completion)).

Definition vision_state : app_state :=
  state_after (get_all_models vision_env false (configured ["http://10.0.0.1/v1"] ["k"])).

Definition vision_request : gmap string value :=
  <["model" := VStr "gpt-4-vision-preview"]>
  (<["messages" := VList [user_message "Hello"]]> (<["user" := VStr "someone"]> ∅)).

(** A gateway whose second backend is OpenAI, a speech backend that
    answers with two chunks of audio, and stand-ins for the digest and the
    JSON parser of the request body. *)
Definition audio : http_response := {|
  status := 200;
  headers := [("Content-Type", "audio/mpeg")];
  content := ["ID3"; "frames"];
  json := Raise DecodeError
|}.

Definition speech_env (answer : option http_response) : environment :=
  with_http_request (λ _ _ _ _, answer) three_env.

Definition body_digest (body : string) : string := "sha-of-" +:+ body.

Definition parsed_body (body : string) : result value :=
  if PyStr.startswith "{" body then Ok (VDict {["input" := VStr body]})
  else Raise ValueError.

Definition empty_cache : speech_cache := {| audio_files := ∅; body_files := ∅ |}.

(** A leagent server that answers with three lines and then the closing
    line, and stand-ins for the environment of the adapters. *)
Definition no_variables (name : string) : option string := None.

Definition two_chunks (call : completion_call) : generated chunk :=
  ([[Some "Hel"]; [None]; [Some "lo"; Some "other"]], None).

Definition as_written (line : string) : result string := Ok line.

Definition user_record (u : UserModel) : value := envelope u.

Definition leagent_server (url : string) (body : value) : option (list string) :=
  Some ["Thinking"; EmptyString; "Done thinking"; "TASK_DONE"; "never relayed"].

Definition leagent_request : gmap string value :=
  <["model" := VStr "leagent-qa"]> (<["messages" := VList [user_message "Hello"]]> ∅).

Definition leagent_stream : adapter_response := {|
  media_type := "text/event-stream";
  adapter_headers := [("Cache-Type", "text/event-stream")];
  event_generator :=
    ([ delta_frame ("Thinking" +:+ newline);
       delta_frame ("Done thinking" +:+ newline);
       delta_frame ("TASK_DONE" +:+ newline) ], None)
|}.

(** A profile with a [top_p] of 0.9 and a [frequency_penalty] of 0.5. *)
Definition fraction_profile : ModelModel := {|
  base_model_id := None;
  params := <["top_p" := VFloat 0x1.ccccccccccccdp-1%float]>
            (<["frequency_penalty" := VFloat 0.5%float]> ∅)
|}.

(** * Properties *)

(** ** Python operations on concrete inputs *)

Example int_of_float_half : Py.int_of_float 0.5%float = Ok 0.
Proof. reflexivity. Qed.

Example int_of_float_neg : Py.int_of_float (-2.5)%float = Ok (-2).
Proof. reflexivity. Qed.

Example float_of_int_big : Py.float_of_int (2 ^ 2000) = Raise OverflowError.
Proof. vm_compute. reflexivity. Qed.

Example index_last : Py.index ["a"; "b"; "c"] (-1) = Ok "c".
Proof. reflexivity. Qed.

Example contains_gpt : PyStr.contains "gpt" "chatgpt-4o" = true.
Proof. reflexivity. Qed.

Example lower_reserved : reserved_adapter "ERNIE-4.0-8K" = Some Qianfan.
Proof. reflexivity. Qed.

(** ** Results and list indexing *)

Lemma bind_Ok {A B} (m : result A) (f : A → result B) (b : B) :
  m ≫= f = Ok b → ∃ a, m = Ok a ∧ f a = Ok b.
Proof. destruct m as [a|e]; simpl; [eauto | discriminate]. Qed.

Lemma fmap_Ok {A B} (m : result A) (f : A → B) (b : B) :
  f <$> m = Ok b → ∃ a, m = Ok a ∧ b = f a.
Proof. destruct m as [a|e]; simpl; [intros [= <-]; eauto | discriminate]. Qed.

Lemma get_Some (d : gmap string value) (k : string) (v : value) :
  d !! k = Some v → Py.get d k = v.
Proof. unfold Py.get. by intros ->. Qed.

Lemma index_lookup {A} (l : list A) (i : nat) (x : A) :
  l !! i = Some x → Py.index l (Z.of_nat i) = Ok x.
Proof.
  intros Hl. pose proof (lookup_lt_Some _ _ _ Hl) as Hlt.
  unfold Py.index.
  destruct (Z.ltb_spec (Z.of_nat i) 0) as [?|_]; [lia|].
  destruct (Z.ltb_spec (Z.of_nat i) 0) as [?|_]; [lia|].
  destruct (Z.leb_spec (Z.of_nat (length l)) (Z.of_nat i)) as [?|_]; [lia|].
  simpl. by rewrite Nat2Z.id, Hl.
Qed.

(** ** Key reconciliation *)

Lemma reconcile_keys_length (urls keys : list string) :
  length (reconcile_keys urls keys) = length urls.
Proof.
  unfold reconcile_keys.
  destruct (Nat.eqb_spec (length keys) (length urls)) as [|Hne]; [done|].
  destruct (Nat.ltb_spec (length urls) (length keys)).
  - rewrite length_take. lia.
  - rewrite length_app, length_replicate. lia.
Qed.

Lemma fetch_tasks_from (keys_before : list string) (urls keys : list string) :
  length keys = length urls →
  mapM (λ '(idx, url), key ← Py.index (keys_before ++ keys) (Z.of_nat idx);
                        Ok (url +:+ "/models", key))
       (enumerate_from (length keys_before) urls)
  = Ok (zip_with (λ url key, (url +:+ "/models", key)) urls keys).
Proof.
  revert keys_before keys.
  induction urls as [|url urls IH]; intros before keys Hlen.
  - by destruct keys.
  - destruct keys as [|key keys]; [done|]. simpl in Hlen.
    cbn [enumerate_from mapM zip_with].
    rewrite (index_lookup _ _ key); [|by rewrite lookup_app_r, Nat.sub_diag].
    simpl.
    specialize (IH (before ++ [key]) keys ltac:(lia)).
    rewrite <- app_assoc, length_app in IH. simpl in IH.
    rewrite Nat.add_1_r in IH. by rewrite IH.
Qed.

Lemma fetch_tasks_reconciled (urls keys : list string) :
  length keys = length urls →
  fetch_tasks urls keys = Ok (zip_with (λ url key, (url +:+ "/models", key)) urls keys).
Proof. intros Hlen. apply (fetch_tasks_from [] urls keys Hlen). Qed.

Example reconcile_truncates :
  reconcile_keys ["http://a"; "http://b"] ["k1"; "k2"; "k3"] = ["k1"; "k2"].
Proof. reflexivity. Qed.

Example reconcile_pads :
  reconcile_keys ["http://a"; "http://b"; "http://c"] ["k1"] = ["k1"; EmptyString; EmptyString].
Proof. reflexivity. Qed.

(** One empty key is the mark of a gateway that is not configured: the pass
    sends nothing and leaves the keys as they are, whatever the URLs. *)
Example single_empty_key_skips_pass :
  trace (get_all_models silent_env false
           (configured ["http://a"; "http://b"] [EmptyString])) = []
  ∧ OPENAI_API_KEYS
      (config (state_after (get_all_models silent_env false
                              (configured ["http://a"; "http://b"] [EmptyString]))))
    = [EmptyString].
Proof. split; reflexivity. Qed.

Lemma aggregation_pass (env : environment) (raw : bool) (st : app_state) :
  let urls := OPENAI_API_BASE_URLS (config st) in
  let keys' := reconcile_keys urls (OPENAI_API_KEYS (config st)) in
  let pass := get_all_models env raw st in
  not_configured (config st) = false →
  OPENAI_API_BASE_URLS (config (state_after pass)) = urls
  ∧ OPENAI_API_KEYS (config (state_after pass)) = keys'
  ∧ trace pass = zip_with (λ url key, Fetch (url +:+ "/models") key) urls keys'.
Proof.
  intros urls keys' pass Hconf. subst pass. unfold get_all_models. rewrite Hconf.
  cbn [set_OPENAI_API_KEYS config OPENAI_API_KEYS].
  fold urls keys'.
  rewrite fetch_tasks_reconciled by apply reconcile_keys_length.
  assert (Hlog : ((λ '(url, key), Fetch url key) <$>
                  zip_with (λ url key, (url +:+ "/models", key)) urls keys')
                 = zip_with (λ url key, Fetch (url +:+ "/models") key) urls keys').
  { generalize keys'. induction urls as [|u us IH]; intros [|k ks]; simpl; try done.
    by rewrite IH. }
  destruct raw; [by rewrite <- Hlog|].
  destruct (aggregate _ _ _) as [[data catalog]|e]; by rewrite <- Hlog.
Qed.




(** ** The merge step on well-formed model lists *)

Lemma gpt_in_id_str (d : gmap string value) (s : string) :
  d !! "id" = Some (VStr s) → gpt_in_id d = PyStr.contains "gpt" s.
Proof. intros Hid. unfold gpt_in_id. by rewrite Hid. Qed.

Lemma merge_model_dict (urls : list string) (idx : nat) (url : string)
    (d : gmap string value) (s : string) :
  urls !! idx = Some url → d !! "id" = Some (VStr s) →
  merge_model urls idx (VDict d)
  = Ok (if negb (is_openai_url url) || PyStr.contains "gpt" s
        then Some (merged_entry idx d (VStr s)) else None).
Proof.
  intros Hurl Hid. unfold merge_model.
  rewrite (index_lookup _ _ _ Hurl). simpl.
  destruct (is_openai_url url); simpl; rewrite Hid; simpl; [|done].
  by destruct (PyStr.contains "gpt" s).
Qed.

Lemma no_marker_in_records (k : string) (ds : list (gmap string value)) :
  Py.contains k (VList (VDict <$> ds)) = Ok false.
Proof. simpl. f_equal. induction ds as [|d ds IH]; simpl; done. Qed.

Lemma merge_model_list (urls : list string) (idx : nat) (url : string)
    (ds : list (gmap string value)) :
  urls !! idx = Some url → Forall has_str_id ds →
  ∃ entries, mapM (merge_model urls idx) (VDict <$> ds) = Ok entries
             ∧ kept entries = contribution urls idx (Some ds).
Proof.
  intros Hurl Hds. unfold contribution. rewrite Hurl.
  induction Hds as [|d ds [s Hid] _ (entries & Hm & Hk)]; simpl.
  - by exists [].
  - rewrite (merge_model_dict _ _ _ _ _ Hurl Hid). simpl.
    change (list_fmap _ _ VDict ds) with (VDict <$> ds). rewrite Hm. simpl.
    eexists. split; [done|].
    rewrite (gpt_in_id_str _ _ Hid).
    destruct (negb (is_openai_url url) || PyStr.contains "gpt" s); simpl.
    + unfold kept in *. simpl. rewrite Hk. unfold Py.get. by rewrite Hid.
    + done.
Qed.

Lemma merge_models_list (urls : list string) (idx : nat) (url : string)
    (ds : list (gmap string value)) :
  urls !! idx = Some url → Forall has_str_id ds →
  merge_models urls idx (VList (VDict <$> ds)) = Ok (contribution urls idx (Some ds)).
Proof.
  intros Hurl Hds.
  destruct (merge_model_list urls idx url ds Hurl Hds) as (entries & Hm & Hk).
  unfold merge_models. rewrite no_marker_in_records.
  cbn [mbind result_bind Py.iter]. rewrite Hm. simpl. by rewrite Hk.
Qed.

Lemma merge_from_listed (urls : list string) (idx : nat)
    (listed : list (option (list (gmap string value)))) :
  (idx + length listed ≤ length urls)%nat →
  Forall well_formed_list listed →
  merge_from urls idx (model_list <$> listed) = Ok (merged_from urls idx listed).
Proof.
  intros Hlen Hwf. revert idx Hlen.
  induction Hwf as [|l listed Hl _ IH]; intros idx Hlen; [done|].
  rewrite fmap_cons. cbn [merge_from merged_from length] in *.
  rewrite IH by lia.
  destruct l as [ds|]; cbn [model_list].
  - destruct (lookup_lt_is_Some_2 urls idx ltac:(lia)) as [url Hurl].
    by rewrite (merge_models_list _ _ _ _ Hurl Hl).
  - done.
Qed.

Lemma kept_cons {A} (o : option A) (l : list (option A)) :
  kept (o :: l) = match o with Some x => x :: kept l | None => kept l end.
Proof. by destruct o. Qed.

Lemma gpt_filter_list (ds : list (gmap string value)) :
  Forall has_str_id ds →
  ∃ flags,
    mapM (λ model, mid ← Py.getitem model "id";
                   b ← Py.contains "gpt" mid;
                   Ok (if b : bool then Some model else None)) (VDict <$> ds)
    = Ok flags
    ∧ kept flags = VDict <$> List.filter gpt_in_id ds.
Proof.
  induction 1 as [|d ds [s Hid] _ (flags & Hm & Hk)].
  - by exists [].
  - rewrite fmap_cons. cbn [mapM]. rewrite Hm.
    cbn [Py.getitem]. rewrite Hid. cbn [mbind result_bind Py.contains].
    eexists. split; [done|].
    cbn [List.filter]. rewrite (gpt_in_id_str _ _ Hid).
    destruct (PyStr.contains "gpt" s); rewrite kept_cons, Hk; done.
Qed.

(** C9 (amended).  For a backend whose base URL holds ["api.openai.com"], as
    the canonical URL [https://api.openai.com/v1] does, the merge step keeps of
    that backend's models exactly those whose id holds ["gpt"], and the
    listing by explicit index returns the backend's answer with its data
    cut down in the same way; for every other backend the merge step keeps
    every model and the listing returns the answer unchanged. *)
Theorem canonical_openai_filter
    (env : environment) (user : UserModel) (st : app_state)
    (urls : list string) (idx : nat) (i : Z) (url key : string)
    (resp : http_response) (body : gmap string value)
    (ds : list (gmap string value)) :
  Forall has_str_id ds →
  urls !! idx = Some url →
  Py.index (OPENAI_API_BASE_URLS (config st)) i = Ok url →
  Py.index (OPENAI_API_KEYS (config st)) i = Ok key →
  http_request env "GET" (url +:+ "/models")
    [("Authorization", "Bearer " +:+ key); ("Content-Type", "application/json")]
    VNone = Some resp →
  requests_ok resp = true →
  json resp = Ok (VDict body) →
  body !! "data" = Some (VList (VDict <$> ds)) →
  merge_models urls idx (VList (VDict <$> ds))
  = Ok ((λ d, merged_entry idx d (Py.get d "id"))
          <$> List.filter (λ d, negb (is_openai_url url) || gpt_in_id d) ds)
  ∧ returned (get_models env (Some i) user st)
    = Ok (VDict (if is_openai_url url
                 then <["data" := VList (VDict <$> List.filter gpt_in_id ds)]> body
                 else body))
  ∧ is_openai_url OPENAI_URL = true.
Proof.
  intros Hds Hurl Hu Hk Hreq Hok Hjson Hdata. split; [|split; [|reflexivity]].
  - rewrite (merge_models_list _ _ _ _ Hurl Hds). unfold contribution. by rewrite Hurl.
  - unfold get_models. rewrite Hu, Hk. cbn [mbind result_bind returned].
    rewrite Hreq. unfold try_except. rewrite Hok, Hjson. cbn [mbind result_bind].
    destruct (is_openai_url url); [|done].
    cbn [Py.getitem]. rewrite Hdata. cbn [mbind result_bind Py.iter].
    destruct (gpt_filter_list ds Hds) as (flags & Hm & Hkept).
    rewrite Hm. cbn [mbind result_bind]. by rewrite Hkept.
Qed.

(** The filter on OpenAI's answer, as the second of three backends. *)
Lemma canonical_openai_filter_witness :
  merge_models three_urls 1 (VList (VDict <$> openai_models))
  = Ok ((λ d, merged_entry 1 d (Py.get d "id"))
          <$> List.filter (λ d, negb (is_openai_url "https://api.openai.com/v1")
                                || gpt_in_id d) openai_models)
  ∧ returned (get_models listing_env (Some 1) alice three_state)
    = Ok (VDict (if is_openai_url "https://api.openai.com/v1"
                 then <["data" := VList (VDict <$> List.filter gpt_in_id openai_models)]>
                        (catalog_body ["gpt-4o"; "whisper-1"; "dall-e-3"])
                 else catalog_body ["gpt-4o"; "whisper-1"; "dall-e-3"]))
  ∧ is_openai_url OPENAI_URL = true.
Proof.
  apply (canonical_openai_filter listing_env alice three_state three_urls 1 1
           "https://api.openai.com/v1" "k1" openai_listing
           (catalog_body ["gpt-4o"; "whisper-1"; "dall-e-3"]) openai_models).
  - repeat (constructor; [by eexists|]). constructor.
  - reflexivity.
  - reflexivity.
  - reflexivity.
  - reflexivity.
  - reflexivity.
  - reflexivity.
  - reflexivity.
Defined.

(** The listing keeps [gpt-4o] of OpenAI's three models. *)
Example openai_listing_kept :
  List.filter gpt_in_id openai_models = [model_record "gpt-4o"].
Proof. reflexivity. Qed.

(** C9 as stated fails.  The base URL of the backend is not the canonical
    OpenAI URL, it only holds the text [api.openai.com]; the merge step and
    the listing by index both drop its model [llama3]. *)
Lemma non_canonical_url_filtered :
  mirror_url ≠ OPENAI_URL
  ∧ merge_models [mirror_url] 0 (VList (VDict <$> mirror_models))
    = Ok [merged_entry 0 (model_record "gpt-4o") (VStr "gpt-4o")]
  ∧ get_models mirror_env (Some 0) alice mirror_state
    = {| returned := Ok (VDict (catalog_body ["gpt-4o"]));
         state_after := mirror_state;
         trace := [Request "GET" "https://api.openai.com.proxy.local/v1/models"
                     [("Authorization", "Bearer k");
                      ("Content-Type", "application/json")] VNone] |}.
Proof. split_and!; [done|vm_compute; reflexivity..]. Qed.

(** ** The catalog as the last entry per id *)

Lemma last_with_id_app (mid : string) (a b : list value) :
  last_with_id mid (a ++ b)
  = match last_with_id mid b with
    | Some x => Some x
    | None => last_with_id mid a
    end.
Proof.
  induction a as [|e a IH]; simpl.
  - by destruct (last_with_id mid b).
  - rewrite IH. by destruct (last_with_id mid b).
Qed.

Lemma last_with_id_Some (mid : string) (data : list value) (e : value) :
  last_with_id mid data = Some e → e ∈ data ∧ entry_id e = Some mid.
Proof.
  induction data as [|x data IH]; simpl; [done|].
  destruct (last_with_id mid data) as [y|].
  - intros [= ->]. destruct (IH eq_refl). split; [by right|done].
  - case_bool_decide as Hx; [|done]. intros [= <-]. split; [by left|done].
Qed.

Lemma last_with_id_None (mid : string) (data : list value) :
  last_with_id mid data = None ↔ ∀ e, e ∈ data → entry_id e ≠ Some mid.
Proof.
  induction data as [|x data IH]; simpl.
  - split; [|done]. intros _ e He. by apply elem_of_nil in He.
  - destruct (last_with_id mid data) as [y|] eqn:Hlast.
    + split; [done|]. intros Hall.
      destruct (last_with_id_Some _ _ _ Hlast) as [Hy Hid].
      exfalso. apply (Hall y); [by right|done].
    + case_bool_decide as Hx.
      * split; [done|]. intros Hall. exfalso. apply (Hall x); [by left|done].
      * split; [|done]. intros _ e He.
        apply elem_of_cons in He as [->|He]; [done|].
        by apply IH.
Qed.

Lemma index_by_id_lookup (data : list value) (acc : gmap string value) :
  Forall (λ e, is_Some (entry_id e)) data →
  ∃ catalog, index_by_id acc data = Ok catalog
    ∧ ∀ mid, catalog !! mid = match last_with_id mid data with
                              | Some e => Some e
                              | None => acc !! mid
                              end.
Proof.
  intros Hdata. revert acc.
  induction Hdata as [|e data [s Hs] _ IH]; intros acc.
  - by exists acc.
  - destruct e as [| | | | | |d]; try done.
    simpl in Hs. destruct (d !! "id") as [[| | | |s'| |]|] eqn:Hid; try done.
    injection Hs as ->.
    destruct (IH (<[s := VDict d]> acc)) as (catalog & Hcat & Hlook).
    exists catalog. split.
    + cbn [index_by_id Py.getitem]. rewrite Hid. cbn [mbind result_bind]. done.
    + intros mid. rewrite Hlook. cbn [last_with_id].
      destruct (last_with_id mid data); [done|].
      cbn [entry_id]. rewrite Hid.
      case_bool_decide as Heq.
      * injection Heq as ->. by rewrite lookup_insert_eq.
      * rewrite lookup_insert_ne; [done|]. by intros ->.
Qed.

Lemma entry_id_merged_entry (idx : nat) (d : gmap string value) (v : value) :
  entry_id (merged_entry idx d v) = entry_id (VDict d).
Proof.
  unfold merged_entry, entry_id.
  by rewrite !lookup_insert_ne.
Qed.

Lemma urlIdx_of_merged_entry (idx : nat) (d : gmap string value) (v : value) :
  urlIdx_of (merged_entry idx d v) = Some (VInt (Z.of_nat idx)).
Proof. unfold merged_entry, urlIdx_of. by rewrite lookup_insert_eq. Qed.

Lemma entry_id_static_model (t : Z) (s : string) (b : bool) :
  entry_id (static_model t s b) = Some s.
Proof.
  unfold static_model, entry_id.
  destruct b; [rewrite lookup_insert_ne by done|]; by rewrite lookup_insert_eq.
Qed.

Lemma static_models_ids (t1 t2 : Z) :
  omap entry_id (moonshot_models t1 ++ qianfan_models t2) = static_ids.
Proof.
  unfold moonshot_models, qianfan_models. cbn [app omap list_omap].
  by rewrite !entry_id_static_model.
Qed.

Lemma static_models_have_ids (t1 t2 : Z) :
  Forall (λ e, is_Some (entry_id e)) (moonshot_models t1 ++ qianfan_models t2).
Proof.
  unfold moonshot_models, qianfan_models. cbn [app].
  repeat (constructor; [rewrite entry_id_static_model; by eexists|]).
  constructor.
Qed.

Lemma last_with_id_static (t1 t2 : Z) (mid : string) :
  is_Some (last_with_id mid (moonshot_models t1 ++ qianfan_models t2))
  ↔ mid ∈ static_ids.
Proof.
  rewrite <- (static_models_ids t1 t2), list_elem_of_omap.
  split.
  - intros [e He]. apply last_with_id_Some in He as [? ?]. eauto.
  - intros (e & He & Hid).
    destruct (last_with_id mid _) as [x|] eqn:Hlast; [by eexists|].
    exfalso. by eapply last_with_id_None.
Qed.

(** ** Which backend an id of the merged list comes from *)

Lemma entry_id_VDict (d : gmap string value) (mid : string) :
  entry_id (VDict d) = Some mid ↔ d !! "id" = Some (VStr mid).
Proof.
  unfold entry_id. destruct (d !! "id") as [[| | | |s| |]|]; split; try done.
  - by intros [= ->].
  - by intros [= ->].
Qed.

Lemma keeps_id (url : string) (d : gmap string value) (mid : string) :
  d !! "id" = Some (VStr mid) →
  negb (is_openai_url url) || gpt_in_id d = true
  ↔ is_openai_url url = false ∨ PyStr.contains "gpt" mid = true.
Proof.
  intros Hid. rewrite (gpt_in_id_str _ _ Hid).
  destruct (is_openai_url url), (PyStr.contains "gpt" mid); simpl; intuition congruence.
Qed.

Lemma last_contribution (urls : list string) (n : nat)
    (l : option (list (gmap string value))) (mid : string) :
  match last_with_id mid (contribution urls n l) with
  | Some e =>
      ∃ url ds d, urls !! n = Some url ∧ l = Some ds ∧ d ∈ ds
        ∧ d !! "id" = Some (VStr mid)
        ∧ (is_openai_url url = false ∨ PyStr.contains "gpt" mid = true)
        ∧ e = merged_entry n d (VStr mid)
  | None =>
      ∀ url ds d, urls !! n = Some url → l = Some ds → d ∈ ds →
        d !! "id" = Some (VStr mid) →
        ¬ (is_openai_url url = false ∨ PyStr.contains "gpt" mid = true)
  end.
Proof.
  unfold contribution.
  destruct l as [ds|]; [|simpl; congruence].
  destruct (urls !! n) as [url|] eqn:Hurl; [|simpl; congruence].
  induction ds as [|d0 ds IH].
  - simpl. intros ? ? d _ [= <-] Hd. by apply elem_of_nil in Hd.
  - cbn [List.filter].
    destruct (negb (is_openai_url url) || gpt_in_id d0) eqn:Hkeep.
    + rewrite fmap_cons. cbn [last_with_id].
      destruct (last_with_id mid _) as [e|].
      * destruct IH as (url' & ds' & d & Hu & [= <-] & Hd & Hid & Hk & He).
        exists url', (d0 :: ds), d. repeat split; try done. by right.
      * rewrite entry_id_merged_entry. case_bool_decide as Hid0.
        -- apply entry_id_VDict in Hid0.
           exists url, (d0 :: ds), d0. repeat split; try done.
           ++ by left.
           ++ by apply (keeps_id url d0 mid Hid0).
           ++ unfold Py.get. by rewrite Hid0.
        -- intros url' ds' d [= <-] [= <-] Hd Hid.
           apply elem_of_cons in Hd as [->|Hd].
           ++ by apply entry_id_VDict in Hid.
           ++ by apply (IH url ds d).
    + destruct (last_with_id mid _) as [e|].
      * destruct IH as (url' & ds' & d & Hu & [= <-] & Hd & Hid & Hk & He).
        exists url', (d0 :: ds), d. repeat split; try done. by right.
      * intros url' ds' d [= <-] [= <-] Hd Hid.
        apply elem_of_cons in Hd as [->|Hd].
        -- rewrite <- (keeps_id url d0 mid Hid). by rewrite Hkeep.
        -- by apply (IH url ds d).
Qed.

Lemma last_merged (urls : list string) (mid : string)
    (rest before : list (option (list (gmap string value)))) :
  match last_with_id mid (merged_from urls (length before) rest) with
  | Some e =>
      ∃ j d, e = merged_entry j d (VStr mid) ∧ d !! "id" = Some (VStr mid)
        ∧ (length before ≤ j)%nat
        ∧ contributes urls (before ++ rest) j mid
        ∧ ∀ j', (j < j')%nat → ¬ contributes urls (before ++ rest) j' mid
  | None =>
      ∀ j, (length before ≤ j)%nat → ¬ contributes urls (before ++ rest) j mid
  end.
Proof.
  revert before. induction rest as [|l rest IH]; intros before.
  - simpl. intros j Hj (url & ds & d & _ & Hl & _).
    rewrite app_nil_r in Hl. apply lookup_lt_Some in Hl. lia.
  - cbn [merged_from]. rewrite last_with_id_app.
    specialize (IH (before ++ [l])).
    rewrite length_app, Nat.add_1_r, <- app_assoc in IH. cbn [app] in IH.
    destruct (last_with_id mid (merged_from urls (S (length before)) rest)) as [e|].
    + destruct IH as (j & d & He & Hid & Hj & Hc & Hlast).
      exists j, d. repeat split; try done. lia.
    + pose proof (last_contribution urls (length before) l mid) as Hhere.
      assert (Hl : (before ++ l :: rest) !! length before = Some l).
      { by rewrite lookup_app_r, Nat.sub_diag. }
      destruct (last_with_id mid (contribution urls (length before) l)) as [e|].
      * destruct Hhere as (url & ds & d & Hu & -> & Hd & Hid & Hk & He).
        exists (length before), d.
        split_and!; [done|done|done|by exists url, ds, d|].
        intros j' Hj'. apply IH. lia.
      * intros j Hj (url & ds & d & Hu & Hlj & Hd & Hid & Hk).
        destruct (decide (j = length before)) as [->|Hne].
        -- rewrite Hl in Hlj. injection Hlj as ->.
           by apply (Hhere url ds d).
        -- apply (IH j ltac:(lia)). by exists url, ds, d.
Qed.

Lemma merged_from_have_ids (urls : list string) (idx : nat)
    (listed : list (option (list (gmap string value)))) :
  Forall well_formed_list listed →
  Forall (λ e, is_Some (entry_id e)) (merged_from urls idx listed).
Proof.
  intros Hwf. revert idx.
  induction Hwf as [|l listed Hl _ IH]; intros idx; cbn [merged_from]; [done|].
  apply Forall_app. split; [|apply IH].
  unfold contribution. destruct l as [ds|]; [|done].
  destruct (urls !! idx) as [url|]; [|done].
  apply Forall_fmap, Forall_forall. intros d Hd.
  apply list_elem_of_In, filter_In in Hd as [Hd _].
  apply list_elem_of_In in Hd.
  simpl in Hl. rewrite Forall_forall in Hl. destruct (Hl d Hd) as [s Hs].
  unfold compose. rewrite entry_id_merged_entry. exists s. by apply entry_id_VDict.
Qed.

(** ** The catalog a refresh stores *)

Lemma mapM_length {A B} (f : A → result B) (l : list A) (l' : list B) :
  mapM f l = Ok l' → length l' = length l.
Proof.
  revert l'. induction l as [|x l IH]; intros l'; simpl.
  - by intros [= <-].
  - intros H. apply bind_Ok in H as (y & _ & H).
    apply bind_Ok in H as (ys & Hys & [= <-]). simpl. by rewrite (IH ys).
Qed.

Lemma fetched_length (env : environment) (urls keys : list string) :
  length keys = length urls → length (fetched env urls keys) = length urls.
Proof. intros H. unfold fetched. rewrite length_zip_with. lia. Qed.

Lemma catalog_of_lists_listed (env : environment) (urls : list string)
    (listed : list (option (list (gmap string value)))) :
  (length listed ≤ length urls)%nat →
  Forall well_formed_list listed →
  ∃ catalog,
    catalog_of_lists env urls (model_list <$> listed)
    = Ok (catalog_data env urls listed, catalog)
    ∧ ∀ mid, catalog !! mid = last_with_id mid (catalog_data env urls listed).
Proof.
  intros Hlen Hwf. unfold catalog_of_lists, merge_models_lists.
  rewrite merge_from_listed by (done || lia). cbn [mbind result_bind].
  fold (catalog_data env urls listed).
  destruct (index_by_id_lookup (catalog_data env urls listed) ∅) as (catalog & Hc & Hl).
  { apply Forall_app. split; [by apply merged_from_have_ids|].
    apply static_models_have_ids. }
  exists catalog. rewrite Hc. split; [done|].
  intros mid. rewrite Hl. by destruct (last_with_id mid _).
Qed.

Lemma get_all_models_refresh (env : environment) (st : app_state) :
  not_configured (config st) = false →
  let urls := OPENAI_API_BASE_URLS (config st) in
  let keys := reconcile_keys urls (OPENAI_API_KEYS (config st)) in
  let pass := get_all_models env false st in
  match aggregate env urls (fetched env urls keys) with
  | Ok (data, catalog) =>
      returned pass = Ok (models_payload data)
      ∧ state_after pass = set_MODELS catalog (set_OPENAI_API_KEYS keys st)
  | Raise e =>
      returned pass = Raise e ∧ state_after pass = set_OPENAI_API_KEYS keys st
  end.
Proof.
  intros Hconf urls keys pass. subst pass. unfold get_all_models. rewrite Hconf.
  cbn [set_OPENAI_API_KEYS config OPENAI_API_KEYS]. fold urls keys.
  rewrite fetch_tasks_reconciled by apply reconcile_keys_length.
  assert (Hresp : ((λ '(url, key), fetch_url env url key) <$>
                   zip_with (λ url key, (url +:+ "/models", key)) urls keys)
                  = fetched env urls keys).
  { unfold fetched. generalize keys.
    induction urls as [|u us IH]; intros [|k ks]; simpl; try done. by rewrite IH. }
  rewrite Hresp.
  by destruct (aggregate env urls (fetched env urls keys)) as [[data catalog]|e].
Qed.

Lemma refresh_stores (env : environment) (st : app_state)
    (listed : list (option (list (gmap string value)))) :
  let urls := OPENAI_API_BASE_URLS (config st) in
  let keys := reconcile_keys urls (OPENAI_API_KEYS (config st)) in
  not_configured (config st) = false →
  mapM response_models (fetched env urls keys) = Ok (model_list <$> listed) →
  Forall well_formed_list listed →
  returned (get_all_models env false st)
    = Ok (models_payload (catalog_data env urls listed))
  ∧ ∀ mid, MODELS (state_after (get_all_models env false st)) !! mid
           = match last_with_id mid (moonshot_models (clock env 0)
                                     ++ qianfan_models (clock env 1)) with
             | Some x => Some x
             | None => last_with_id mid (merged_from urls 0 listed)
             end.
Proof.
  intros urls keys Hconf Hlists Hwf.
  assert (Hlen : length listed = length urls).
  { apply mapM_length in Hlists. rewrite length_fmap in Hlists.
    rewrite Hlists. apply fetched_length, reconcile_keys_length. }
  pose proof (get_all_models_refresh env st Hconf) as Hrefresh.
  cbn zeta in Hrefresh. fold urls keys in Hrefresh.
  unfold aggregate in Hrefresh. rewrite Hlists in Hrefresh.
  cbn [mbind result_bind] in Hrefresh.
  destruct (catalog_of_lists_listed env urls listed) as (cat & Hcat & Hlook);
    [lia|done|].
  rewrite Hcat in Hrefresh. destruct Hrefresh as [Hret Hstate].
  split; [done|]. intros mid. rewrite Hstate. cbn [set_MODELS MODELS].
  rewrite Hlook. unfold catalog_data. apply last_with_id_app.
Qed.

(** C2 (amended).  After a refresh over model lists of records with string
    ids, the stored catalog holds one entry per id among the static ids and
    the ids the merge keeps, each entry filed under its own id; for an id
    that is not static, the entry's [urlIdx] is the index of the last
    backend whose kept models hold that id; a static id is mapped to a
    static entry. *)
Theorem stored_catalog_last_contributor (env : environment) (st : app_state)
    (listed : list (option (list (gmap string value)))) :
  let urls := OPENAI_API_BASE_URLS (config st) in
  let keys := reconcile_keys urls (OPENAI_API_KEYS (config st)) in
  let catalog := MODELS (state_after (get_all_models env false st)) in
  not_configured (config st) = false →
  mapM response_models (fetched env urls keys) = Ok (model_list <$> listed) →
  Forall well_formed_list listed →
  returned (get_all_models env false st)
    = Ok (models_payload (catalog_data env urls listed))
  ∧ (∀ mid, is_Some (catalog !! mid)
            ↔ mid ∈ static_ids ∨ ∃ idx, contributes urls listed idx mid)
  ∧ (∀ mid e, catalog !! mid = Some e → entry_id e = Some mid)
  ∧ (∀ mid idx,
       mid ∉ static_ids →
       contributes urls listed idx mid →
       (∀ j, (idx < j)%nat → ¬ contributes urls listed j mid) →
       ∃ e, catalog !! mid = Some e ∧ urlIdx_of e = Some (VInt (Z.of_nat idx)))
  ∧ (∀ mid, mid ∈ static_ids →
       ∃ e, catalog !! mid = Some e
            ∧ e ∈ moonshot_models (clock env 0) ++ qianfan_models (clock env 1)).
Proof.
  intros urls keys catalog Hconf Hlists Hwf.
  destruct (refresh_stores env st listed Hconf Hlists Hwf) as [Hret Hdata].
  fold urls catalog in Hret, Hdata.
  generalize dependent catalog. intros cat Hdata.
  set (statics := moonshot_models (clock env 0) ++ qianfan_models (clock env 1)) in *.
  pose proof (λ mid, last_merged urls mid listed []) as Hmerged.
  cbn [app length] in Hmerged.
  split_and!; [done| | | |].
  - intros mid. rewrite Hdata. specialize (Hmerged mid).
    pose proof (last_with_id_static (clock env 0) (clock env 1) mid) as Hstatic.
    fold statics in Hstatic.
    destruct (last_with_id mid statics) as [x|].
    + split; [|by eexists]. intros _. left. apply Hstatic. by eexists.
    + destruct (last_with_id mid (merged_from urls 0 listed)) as [e|].
      * split; [|by eexists]. intros _. right.
        destruct Hmerged as (j & d & _ & _ & _ & Hc & _). by exists j.
      * split; [by intros [? ?]|].
        intros [Hin|[idx Hc]].
        -- apply Hstatic in Hin as [? ?]. done.
        -- exfalso. apply (Hmerged idx); [lia|done].
  - intros mid e. rewrite Hdata.
    destruct (last_with_id mid statics) as [x|] eqn:Hs.
    + intros [= <-]. by apply last_with_id_Some in Hs as [_ ?].
    + intros He. by apply last_with_id_Some in He as [_ ?].
  - intros mid idx Hnot Hc Hlast. rewrite Hdata. specialize (Hmerged mid).
    pose proof (last_with_id_static (clock env 0) (clock env 1) mid) as Hstatic.
    fold statics in Hstatic.
    destruct (last_with_id mid statics) as [x|].
    { exfalso. apply Hnot, Hstatic. by eexists. }
    destruct (last_with_id mid (merged_from urls 0 listed)) as [e|].
    + destruct Hmerged as (j & d & -> & _ & _ & Hj & Hjlast).
      eexists. split; [done|]. rewrite urlIdx_of_merged_entry.
      destruct (Nat.lt_trichotomy j idx) as [Hlt|[->|Hgt]]; [|done|].
      * exfalso. by apply (Hjlast idx).
      * exfalso. by apply (Hlast j).
    + exfalso. apply (Hmerged idx); [lia|done].
  - intros mid Hin. rewrite Hdata.
    apply (last_with_id_static (clock env 0) (clock env 1)) in Hin as [e He].
    fold statics in He. rewrite He. exists e. split; [done|].
    by apply last_with_id_Some in He as [? _].
Qed.

Lemma three_backends_responses :
  mapM response_models
    (fetched three_env three_urls (reconcile_keys three_urls ["k0"; "k1"; "k2"]))
  = Ok (model_list <$> three_listed).
Proof. vm_compute. reflexivity. Qed.

Lemma three_backends_well_formed : Forall well_formed_list three_listed.
Proof.
  repeat (constructor; [repeat (constructor; [by eexists|]); constructor|]).
  constructor.
Qed.

(** The catalog stored for a local server, OpenAI and Moonshot. *)
Lemma stored_catalog_last_contributor_witness :
  returned (get_all_models three_env false three_state)
    = Ok (models_payload (catalog_data three_env three_urls three_listed))
  ∧ (∀ mid, is_Some (MODELS (state_after (get_all_models three_env false three_state)) !! mid)
            ↔ mid ∈ static_ids ∨ ∃ idx, contributes three_urls three_listed idx mid)
  ∧ (∀ mid e,
       MODELS (state_after (get_all_models three_env false three_state)) !! mid = Some e →
       entry_id e = Some mid)
  ∧ (∀ mid idx,
       mid ∉ static_ids →
       contributes three_urls three_listed idx mid →
       (∀ j, (idx < j)%nat → ¬ contributes three_urls three_listed j mid) →
       ∃ e, MODELS (state_after (get_all_models three_env false three_state)) !! mid = Some e
            ∧ urlIdx_of e = Some (VInt (Z.of_nat idx)))
  ∧ (∀ mid, mid ∈ static_ids →
       ∃ e, MODELS (state_after (get_all_models three_env false three_state)) !! mid = Some e
            ∧ e ∈ moonshot_models (clock three_env 0) ++ qianfan_models (clock three_env 1)).
Proof.
  apply (stored_catalog_last_contributor three_env three_state three_listed).
  - reflexivity.
  - exact three_backends_responses.
  - exact three_backends_well_formed.
Defined.

(** C2 as stated fails.  OpenAI (index 1) is the last backend that lists
    [whisper-1] and Moonshot (index 2) the last that lists
    [moonshot-v1-8k], yet the stored entries carry [urlIdx] 0: the first is
    filtered out of OpenAI's list and comes from the local server, the
    second is the static entry. *)
Lemma stored_catalog_not_last_lister :
  (lists_id three_listed 1 "whisper-1"
   ∧ (∀ j, (1 < j)%nat → ¬ lists_id three_listed j "whisper-1")
   ∧ MODELS (state_after (get_all_models three_env false three_state)) !! "whisper-1"
       ≫= urlIdx_of = Some (VInt 0))
  ∧ (lists_id three_listed 2 "moonshot-v1-8k"
     ∧ (∀ j, (2 < j)%nat → ¬ lists_id three_listed j "moonshot-v1-8k")
     ∧ MODELS (state_after (get_all_models three_env false three_state)) !! "moonshot-v1-8k"
         ≫= urlIdx_of = Some (VInt 0)).
Proof.
  split; split_and!.
  - exists (model_record <$> ["gpt-4o"; "whisper-1"; "dall-e-3"]), (model_record "whisper-1").
    split_and!; [done| |done]. apply list_elem_of_fmap. eexists; split; [done|].
    set_solver.
  - intros j Hj (ds & d & Hl & Hd & Hid).
    destruct j as [|[|[|j]]]; [lia|lia| |done].
    injection Hl as <-. apply list_elem_of_singleton in Hd as ->.
    vm_compute in Hid. discriminate.
  - vm_compute. reflexivity.
  - exists (model_record <$> ["moonshot-v1-8k"]), (model_record "moonshot-v1-8k").
    split_and!; [done| |done]. apply list_elem_of_fmap. eexists; split; [done|].
    set_solver.
  - intros j Hj (ds & d & Hl & Hd & Hid).
    destruct j as [|[|[|j]]]; [lia|lia|lia|done].
  - vm_compute. reflexivity.
Qed.

(** ** Partial failure of the fan-out *)

Lemma tolerated_response (reply : backend_reply)
    (l : option (list (gmap string value))) :
  tolerated reply l →
  response_models (match reply with Body v => v | _ => VNone end) = Ok (model_list l)
  ∧ well_formed_list l.
Proof.
  destruct 1 as [| | |v Hv Hl|s Hs|d Hd|d ds Hd Hds|ds Hds]; try done.
  - split; [|done]. unfold response_models. rewrite Hv. cbn [mbind result_bind].
    destruct v; try done. by destruct (Hl l).
  - split; [|done]. unfold response_models.
    destruct (Py.truthy (VStr s)); cbn [Py.contains mbind result_bind]; [|done].
    by rewrite Hs.
  - split; [|done]. unfold response_models. cbn [Py.truthy].
    case_bool_decide as Hempty; cbn [negb]; [done|].
    cbn [Py.contains]. rewrite Hd.
    rewrite bool_decide_eq_false_2 by (by intros [? ?]). done.
  - split; [|done]. unfold response_models. cbn [Py.truthy].
    rewrite bool_decide_eq_false_2 by (intros ->; by rewrite lookup_empty in Hd).
    cbn [negb Py.contains]. rewrite Hd.
    rewrite bool_decide_eq_true_2 by (by eexists).
    cbn [mbind result_bind Py.getitem]. by rewrite Hd.
  - split; [|done]. unfold response_models.
    destruct ds as [|d ds]; [done|].
    assert (Py.truthy (VList (VDict <$> d :: ds)) = true) as -> by done.
    by rewrite no_marker_in_records.
Qed.

Lemma tolerated_responses (rs : list backend_reply)
    (listed : list (option (list (gmap string value)))) :
  Forall2 tolerated rs listed →
  mapM response_models ((λ reply, match reply with Body v => v | _ => VNone end) <$> rs)
  = Ok (model_list <$> listed)
  ∧ Forall well_formed_list listed.
Proof.
  induction 1 as [|reply l rs listed Hrl _ [IHm IHwf]]; [done|].
  destruct (tolerated_response reply l Hrl) as [Hr Hwf].
  split; [|by constructor].
  rewrite !fmap_cons. cbn [mapM]. rewrite Hr, IHm. done.
Qed.

Lemma fetched_replies (env : environment) (urls keys : list string) :
  fetched env urls keys
  = (λ reply, match reply with Body v => v | _ => VNone end) <$> replies env urls keys.
Proof.
  unfold fetched, replies, fetch_url. revert keys.
  induction urls as [|u us IH]; intros [|k ks]; try done.
  cbn [zip_with]. by rewrite fmap_cons, IH.
Qed.

(** C3 (amended).  When every backend either fails (timeout, connection
    error, a body that is not JSON) or answers with [null] or another falsy
    value, a text or an object without ["data"], or a catalog of model
    records, the pass asks every backend, takes [None] for each backend
    that failed or sent no catalog, does not raise, and stores a catalog
    that holds every model of the answering backends that the merge keeps
    (every model, but for a backend with ["api.openai.com"] in its URL
    those with ["gpt"] in the id). *)
Theorem aggregation_tolerates_failures (env : environment) (st : app_state)
    (listed : list (option (list (gmap string value)))) :
  let urls := OPENAI_API_BASE_URLS (config st) in
  let keys := reconcile_keys urls (OPENAI_API_KEYS (config st)) in
  let pass := get_all_models env false st in
  not_configured (config st) = false →
  Forall2 tolerated (replies env urls keys) listed →
  trace pass = zip_with (λ url key, Fetch (url +:+ "/models") key) urls keys
  ∧ (∀ idx reply, replies env urls keys !! idx = Some reply → failed reply →
       fetched env urls keys !! idx = Some VNone ∧ listed !! idx = Some None)
  ∧ (∀ idx d, replies env urls keys !! idx = Some (Body (VDict d)) →
       d !! "data" = None → listed !! idx = Some None)
  ∧ mapM response_models (fetched env urls keys) = Ok (model_list <$> listed)
  ∧ returned pass = Ok (models_payload (catalog_data env urls listed))
  ∧ (∀ idx mid, contributes urls listed idx mid →
       is_Some (MODELS (state_after pass) !! mid)).
Proof.
  intros urls keys pass Hconf Hreplies.
  destruct (tolerated_responses _ _ Hreplies) as [Hlists Hwf].
  rewrite <- fetched_replies in Hlists.
  destruct (refresh_stores env st listed Hconf Hlists Hwf) as [Hret Hdata].
  fold urls pass in Hret, Hdata.
  split_and!; [ | | | done | done | ].
  - by apply (aggregation_pass env false st).
  - intros idx reply Hidx Hfail.
    rewrite fetched_replies, list_lookup_fmap, Hidx. split.
    + by destruct Hfail as [->|[->| ->]].
    + destruct (Forall2_lookup_l _ _ _ _ _ Hreplies Hidx) as (l & Hl & Htol).
      rewrite Hl. by destruct Hfail as [->|[->| ->]]; inversion Htol.
  - intros idx d Hidx Hd.
    destruct (Forall2_lookup_l _ _ _ _ _ Hreplies Hidx) as (l & Hl & Htol).
    rewrite Hl. inversion Htol; subst; try done. congruence.
  - intros idx mid Hc. rewrite Hdata.
    destruct (last_with_id mid (moonshot_models _ ++ qianfan_models _)); [by eexists|].
    pose proof (last_merged urls mid listed []) as Hmerged. cbn [app length] in Hmerged.
    destruct (last_with_id mid (merged_from urls 0 listed)); [by eexists|].
    exfalso. apply (Hmerged idx); [lia|done].
Qed.

Lemma flaky_replies :
  replies flaky_env flaky_urls (reconcile_keys flaky_urls ["k"])
  = [ Body (VDict (catalog_body ["mistral"; "llama3"])); TimedOut;
      Body (VDict {["detail" := VStr "Not Found"]}) ].
Proof. reflexivity. Qed.

Lemma flaky_tolerated :
  Forall2 tolerated
    (replies flaky_env flaky_urls (reconcile_keys flaky_urls ["k"])) flaky_listed.
Proof.
  rewrite flaky_replies. unfold flaky_listed.
  constructor; [|constructor; [|constructor; [|constructor]]].
  - apply tolerated_catalog; [reflexivity|].
    repeat (constructor; [by eexists|]). constructor.
  - apply tolerated_timeout.
  - apply tolerated_no_data. reflexivity.
Qed.

(** A pass over three backends of which one times out and one answers
    with an error object. *)
Lemma aggregation_tolerates_failures_witness :
  trace (get_all_models flaky_env false flaky_state)
  = zip_with (λ url key, Fetch (url +:+ "/models") key)
      flaky_urls (reconcile_keys flaky_urls ["k"])
  ∧ (∀ idx reply,
       replies flaky_env flaky_urls (reconcile_keys flaky_urls ["k"]) !! idx = Some reply →
       failed reply →
       fetched flaky_env flaky_urls (reconcile_keys flaky_urls ["k"]) !! idx = Some VNone
       ∧ flaky_listed !! idx = Some None)
  ∧ (∀ idx d,
       replies flaky_env flaky_urls (reconcile_keys flaky_urls ["k"]) !! idx
       = Some (Body (VDict d)) →
       d !! "data" = None → flaky_listed !! idx = Some None)
  ∧ mapM response_models (fetched flaky_env flaky_urls (reconcile_keys flaky_urls ["k"]))
    = Ok (model_list <$> flaky_listed)
  ∧ returned (get_all_models flaky_env false flaky_state)
    = Ok (models_payload (catalog_data flaky_env flaky_urls flaky_listed))
  ∧ (∀ idx mid, contributes flaky_urls flaky_listed idx mid →
       is_Some (MODELS (state_after (get_all_models flaky_env false flaky_state)) !! mid)).
Proof.
  apply (aggregation_tolerates_failures flaky_env flaky_state flaky_listed).
  - reflexivity.
  - exact flaky_tolerated.
Defined.

(** C3 as stated fails.  All three backends answer with a catalog, OpenAI
    (index 1) lists [dall-e-3], and the stored catalog has no entry for it. *)
Lemma answered_model_not_in_catalog :
  Forall2 tolerated
    (replies three_env three_urls (reconcile_keys three_urls ["k0"; "k1"; "k2"]))
    three_listed
  ∧ lists_id three_listed 1 "dall-e-3"
  ∧ is_Ok (returned (get_all_models three_env false three_state)) = true
  ∧ MODELS (state_after (get_all_models three_env false three_state)) !! "dall-e-3" = None.
Proof.
  split_and!.
  - change (replies three_env three_urls (reconcile_keys three_urls ["k0"; "k1"; "k2"]))
      with [ Body (VDict (catalog_body ["llama3"; "whisper-1"]));
             Body (VDict (catalog_body ["gpt-4o"; "whisper-1"; "dall-e-3"]));
             Body (VDict (catalog_body ["moonshot-v1-8k"])) ].
    unfold three_listed.
    repeat (constructor;
            [apply tolerated_catalog;
             [reflexivity|repeat (constructor; [by eexists|]); constructor]|]).
    constructor.
  - exists (model_record <$> ["gpt-4o"; "whisper-1"; "dall-e-3"]), (model_record "dall-e-3").
    split_and!; [done| |done]. apply list_elem_of_fmap. eexists; split; [done|].
    set_solver.
  - vm_compute. reflexivity.
  - vm_compute. reflexivity.
Qed.

(** A body that is a JSON number is not taken in stride: the pass raises. *)
Example number_body_raises :
  returned (get_all_models
              (with_models_endpoint (λ _ _, Body (VInt 5)) silent_env) false
              (configured ["http://10.0.0.1/v1"] ["k"]))
  = Raise TypeError.
Proof. reflexivity. Qed.

(** ** The URL update *)

Lemma update_openai_urls_catalog (env : environment) (form_urls : list string)
    (st : app_state) :
  MODELS (state_after (update_openai_urls env form_urls st))
  = MODELS (state_after (get_all_models env false st))
  ∧ trace (update_openai_urls env form_urls st) = trace (get_all_models env false st).
Proof.
  unfold update_openai_urls.
  by destruct (returned (get_all_models env false st)).
Qed.

(** C4 fails on the code.  [update_openai_urls] refreshes the catalog and
    then assigns the new list: with one backend configured and another one
    submitted, the update asks the old backend only and leaves a catalog
    that holds the old backend's model and not the new one's, while a pass
    over the state it leaves would hold the new one's. *)
Theorem update_urls_keeps_old_catalog :
  OPENAI_API_BASE_URLS
    (config (state_after (update_openai_urls swap_env ["http://new.example/v1"] swap_state)))
  = ["http://new.example/v1"]
  ∧ trace (update_openai_urls swap_env ["http://new.example/v1"] swap_state)
    = [Fetch "http://old.example/v1/models" "k"]
  ∧ MODELS (state_after (update_openai_urls swap_env ["http://new.example/v1"] swap_state))
      !! "old-model" ≫= urlIdx_of = Some (VInt 0)
  ∧ MODELS (state_after (update_openai_urls swap_env ["http://new.example/v1"] swap_state))
      !! "new-model" = None
  ∧ MODELS (state_after
              (get_all_models swap_env false
                 (state_after (update_openai_urls swap_env ["http://new.example/v1"]
                                 swap_state))))
      !! "new-model" ≫= urlIdx_of = Some (VInt 0).
Proof.
  split_and!.
  - reflexivity.
  - reflexivity.
  - vm_compute. reflexivity.
  - vm_compute. reflexivity.
  - vm_compute. reflexivity.
Qed.

(** ** The override pipeline *)

(** Closes [k1 ≠ k2] from [Hk : k ∉ keys] when one side is [k] and the
    other a literal of [keys]. *)
Ltac other_key Hk :=
  let E := fresh in
  intros E; apply Hk; clear -E; subst; repeat constructor.

Lemma override_lookup (c : bool) (k : string) (v : result value)
    (p p' : gmap string value) (k' : string) :
  override c k v p = Ok p' → c = false ∨ k ≠ k' → p' !! k' = p !! k'.
Proof.
  unfold override. destruct c.
  - intros H [?|Hne]; [done|].
    apply bind_Ok in H as (x & _ & [= <-]). by rewrite lookup_insert_ne.
  - by intros [= <-] _.
Qed.

Lemma override_set (k : string) (v : result value) (p p' : gmap string value) :
  override true k v p = Ok p' → ∃ x, v = Ok x ∧ p' = <[k := x]> p.
Proof.
  unfold override. intros H. apply bind_Ok in H as (x & Hx & [= <-]). eauto.
Qed.

Lemma apply_params_steps (env : environment) (params p p' : gmap string value) :
  params ≠ ∅ →
  apply_params env params p = Ok p' →
  ∃ p1 p2 p3 p4 p5,
    override (negb (is_None (Py.get params "temperature"))) "temperature"
      (VFloat <$> Py.to_float (float_of_str env) (Py.get params "temperature")) p = Ok p1
    ∧ override (Py.truthy (Py.get params "top_p")) "top_p"
        (VInt <$> Py.to_int (int_of_str env) (Py.get params "top_p")) p1 = Ok p2
    ∧ override (Py.truthy (Py.get params "max_tokens")) "max_tokens"
        (VInt <$> Py.to_int (int_of_str env) (Py.get params "max_tokens")) p2 = Ok p3
    ∧ override (Py.truthy (Py.get params "frequency_penalty")) "frequency_penalty"
        (VInt <$> Py.to_int (int_of_str env) (Py.get params "frequency_penalty")) p3 = Ok p4
    ∧ override (Py.truthy (Py.get params "seed")) "seed" (Ok (Py.get params "seed")) p4 = Ok p5
    ∧ override (Py.truthy (Py.get params "stop")) "stop"
        (if Py.truthy (Py.get params "stop")
         then stops ← Py.iter (Py.get params "stop");
              VList <$> mapM (unicode_escape env) stops
         else Ok VNone) p5 = Ok p'.
Proof.
  intros Hne. unfold apply_params. rewrite bool_decide_eq_false_2 by done.
  cbn zeta. intros H.
  apply bind_Ok in H as (p1 & H1 & H).
  apply bind_Ok in H as (p2 & H2 & H).
  apply bind_Ok in H as (p3 & H3 & H).
  apply bind_Ok in H as (p4 & H4 & H).
  apply bind_Ok in H as (p5 & H5 & H).
  by exists p1, p2, p3, p4, p5.
Qed.

Lemma apply_params_frame (env : environment) (params p p' : gmap string value)
    (k : string) :
  apply_params env params p = Ok p' →
  k ∉ ["temperature"; "top_p"; "max_tokens"; "frequency_penalty"; "seed"; "stop"] →
  p' !! k = p !! k.
Proof.
  intros H Hk.
  destruct (decide (params = ∅)) as [->|Hne].
  { unfold apply_params in H. rewrite bool_decide_eq_true_2 in H by done.
    by injection H as <-. }
  destruct (apply_params_steps env params p p' Hne H)
    as (p1 & p2 & p3 & p4 & p5 & H1 & H2 & H3 & H4 & H5 & H6).
  rewrite (override_lookup _ _ _ _ _ k H6) by (right; other_key Hk).
  rewrite (override_lookup _ _ _ _ _ k H5) by (right; other_key Hk).
  rewrite (override_lookup _ _ _ _ _ k H4) by (right; other_key Hk).
  rewrite (override_lookup _ _ _ _ _ k H3) by (right; other_key Hk).
  rewrite (override_lookup _ _ _ _ _ k H2) by (right; other_key Hk).
  by rewrite (override_lookup _ _ _ _ _ k H1) by (right; other_key Hk).
Qed.

Lemma apply_system_frame (env : environment) (user : option UserModel)
    (params p p' : gmap string value) (k : string) :
  apply_system env user params p = Ok p' → k ≠ "messages" → p' !! k = p !! k.
Proof.
  unfold apply_system. intros H Hk.
  destruct (Py.truthy (Py.get params "system")); [|by injection H as <-].
  apply bind_Ok in H as (rendered & _ & H).
  destruct (Py.truthy (Py.get p "messages")); [|by injection H as <-].
  apply bind_Ok in H as (ms & _ & H).
  apply bind_Ok in H as (found & _ & H).
  destruct found as [ms'|].
  - injection H as <-. by rewrite lookup_insert_ne.
  - destruct (Py.get p "messages"); try done.
    injection H as <-. by rewrite lookup_insert_ne.
Qed.

Lemma normalize_frame (env : environment) (info : ModelModel)
    (user : option UserModel) (p p' : gmap string value) (k : string) :
  normalize env (Some info) user p = Ok p' →
  k ∉ ["model"; "temperature"; "top_p"; "max_tokens"; "frequency_penalty";
       "seed"; "stop"; "messages"] →
  p' !! k = p !! k.
Proof.
  unfold normalize. intros H Hk.
  apply bind_Ok in H as (p1 & H1 & H2).
  rewrite (apply_system_frame _ _ _ _ _ k H2); [|other_key Hk].
  rewrite (apply_params_frame _ _ _ _ k H1)
    by (intros Hin; apply Hk; rewrite !elem_of_cons in Hin; rewrite !elem_of_cons; tauto).
  destruct (base_model_id info) as [b|]; [|done].
  destruct (b =? EmptyString)%string; [done|].
  rewrite lookup_insert_ne; [done|]. other_key Hk.
Qed.

Lemma route_frame (st : app_state) (user : option UserModel)
    (p p' : gmap string value) (idx : value) (k : string) :
  route st user p = Ok (idx, p') → k ∉ ["user"; "max_tokens"] → p' !! k = p !! k.
Proof.
  unfold route. intros H Hk.
  apply bind_Ok in H as (model & _ & H).
  apply bind_Ok in H as (i & _ & H).
  apply bind_Ok in H as (has & _ & H).
  apply bind_Ok in H as (pipeline & _ & H).
  apply bind_Ok in H as (p1 & H1 & [= _ <-]).
  assert (Hp1 : p1 !! k = p !! k).
  { destruct (Py.truthy pipeline); [|by injection H1 as <-].
    apply bind_Ok in H1 as (u & _ & [= <-]).
    rewrite lookup_insert_ne; [done|]. other_key Hk. }
  rewrite <- Hp1.
  destruct (eq_str (Py.get p1 "model") "gpt-4-vision-preview"); [|done].
  destruct (p1 !! "max_tokens"); [done|].
  rewrite lookup_insert_ne; [done|]. other_key Hk.
Qed.

Lemma zero_lookup (params : gmap string value) (key : string) :
  zero (Py.get params key) →
  (params !! key = Some (VInt 0) ∨ params !! key = Some (VFloat 0%float))
  ∧ params ≠ ∅.
Proof.
  unfold zero, Py.get. intros H.
  destruct (params !! key) as [v|] eqn:E; simpl in H.
  - split; [by destruct H as [-> | ->]; [left|right]|].
    intros ->. by rewrite lookup_empty in E.
  - by destruct H.
Qed.

Lemma zero_not_truthy (v : value) : zero v → Py.truthy v = false.
Proof. by intros [-> | ->]. Qed.

(** A value that is not truthy under [key] is as good as [None] there, for
    the keys whose test is the truth value. *)
Lemma falsy_as_absent (env : environment) (params payload : gmap string value)
    (key : string) :
  key ∈ ["top_p"; "max_tokens"; "frequency_penalty"; "seed"; "stop"] →
  is_Some (params !! key) →
  Py.truthy (Py.get params key) = false →
  apply_params env params payload
  = apply_params env (<[key := VNone]> params) payload.
Proof.
  intros Hkey [v Hv] Hfalsy. unfold apply_params.
  rewrite bool_decide_eq_false_2 by (intros ->; by rewrite lookup_empty in Hv).
  rewrite bool_decide_eq_false_2 by apply insert_non_empty.
  cbn zeta.
  rewrite !elem_of_cons, elem_of_nil in Hkey.
  destruct Hkey as [->|[->|[->|[->|[->|[]]]]]];
    rewrite Hfalsy; unfold Py.get;
    rewrite lookup_insert_eq, !lookup_insert_ne by done; reflexivity.
Qed.

Lemma falsy_keeps_field (env : environment) (params payload p' : gmap string value)
    (key : string) :
  key ∈ ["top_p"; "max_tokens"; "frequency_penalty"; "seed"; "stop"] →
  params ≠ ∅ →
  Py.truthy (Py.get params key) = false →
  apply_params env params payload = Ok p' →
  p' !! key = payload !! key.
Proof.
  intros Hkey Hne Hfalsy H.
  destruct (apply_params_steps env params payload p' Hne H)
    as (p1 & p2 & p3 & p4 & p5 & H1 & H2 & H3 & H4 & H5 & H6).
  rewrite !elem_of_cons, elem_of_nil in Hkey.
  destruct Hkey as [->|[->|[->|[->|[->|[]]]]]];
    rewrite Hfalsy in *;
    rewrite (override_lookup _ _ _ _ _ _ H6) by (by (left + right));
    rewrite (override_lookup _ _ _ _ _ _ H5) by (by (left + right));
    rewrite (override_lookup _ _ _ _ _ _ H4) by (by (left + right));
    rewrite (override_lookup _ _ _ _ _ _ H3) by (by (left + right));
    rewrite (override_lookup _ _ _ _ _ _ H2) by (by (left + right));
    by rewrite (override_lookup _ _ _ _ _ _ H1) by (by (left + right)).
Qed.

(** A zero temperature is written into the request as [0.0], and the rest
    of the block goes on as it does without a temperature. *)
Lemma zero_temperature_written (env : environment)
    (params payload : gmap string value) :
  zero (Py.get params "temperature") →
  apply_params env params payload
  = apply_params env (<["temperature" := VNone]> params)
      (<["temperature" := VFloat 0%float]> payload).
Proof.
  intros Hzero. destruct (zero_lookup params "temperature" Hzero) as [Hlook Hne].
  unfold apply_params.
  rewrite bool_decide_eq_false_2 by done.
  rewrite bool_decide_eq_false_2 by apply insert_non_empty.
  cbn zeta. unfold Py.get.
  rewrite lookup_insert_eq. do 5 (rewrite lookup_insert_ne by done).
  by destruct Hlook as [-> | ->].
Qed.

(** The block on a profile none of whose other five values is truthy: only
    the temperature is looked at. *)
Lemma apply_params_quiet (env : environment) (params payload : gmap string value) :
  (∀ key, key ∈ ["top_p"; "max_tokens"; "frequency_penalty"; "seed"; "stop"] →
     Py.truthy (Py.get params key) = false) →
  apply_params env params payload
  = if bool_decide (params = ∅) then Ok payload
    else override (negb (is_None (Py.get params "temperature"))) "temperature"
           (VFloat <$> Py.to_float (float_of_str env) (Py.get params "temperature"))
           payload.
Proof.
  intros Hquiet. unfold apply_params.
  destruct (bool_decide (params = ∅)); [done|]. cbn zeta.
  rewrite (Hquiet "top_p"), (Hquiet "max_tokens"), (Hquiet "frequency_penalty"),
    (Hquiet "seed"), (Hquiet "stop") by (rewrite !elem_of_cons; tauto).
  by destruct (override _ "temperature" _ payload).
Qed.

(** C10.  In the override block, a profile value of zero under [top_p],
    [max_tokens], [frequency_penalty] or [seed], or an empty [stop] list,
    does what [None] does there and leaves the request's field as it was,
    while a zero [temperature] sets the field to [0.0] whatever the request
    held: the block then goes on as it does without a temperature from the
    request with temperature [0.0].  On a profile none of whose other five
    values is truthy the block returns: the request with temperature [0.0]
    for a zero temperature, the request as it was for no temperature. *)
Theorem zero_overrides_only_temperature
    (env : environment) (params payload : gmap string value) :
  (∀ key, key ∈ ["top_p"; "max_tokens"; "frequency_penalty"; "seed"] →
     zero (Py.get params key) →
     apply_params env params payload
     = apply_params env (<[key := VNone]> params) payload
     ∧ ∀ p', apply_params env params payload = Ok p' → p' !! key = payload !! key)
  ∧ (Py.get params "stop" = VList [] →
     apply_params env params payload
     = apply_params env (<["stop" := VNone]> params) payload
     ∧ ∀ p', apply_params env params payload = Ok p' →
             p' !! "stop" = payload !! "stop")
  ∧ (zero (Py.get params "temperature") →
     apply_params env params payload
     = apply_params env (<["temperature" := VNone]> params)
         (<["temperature" := VFloat 0%float]> payload)
     ∧ ∀ p', apply_params env params payload = Ok p' →
             p' !! "temperature" = Some (VFloat 0%float))
  ∧ ((∀ key, key ∈ ["top_p"; "max_tokens"; "frequency_penalty"; "seed"; "stop"] →
        Py.truthy (Py.get params key) = false) →
     (zero (Py.get params "temperature") →
        apply_params env params payload
        = Ok (<["temperature" := VFloat 0%float]> payload))
     ∧ (Py.get params "temperature" = VNone →
        apply_params env params payload = Ok payload)).
Proof.
  assert (Hquiet_block :
    (∀ key, key ∈ ["top_p"; "max_tokens"; "frequency_penalty"; "seed"; "stop"] →
       Py.truthy (Py.get params key) = false) →
    (zero (Py.get params "temperature") →
       apply_params env params payload
       = Ok (<["temperature" := VFloat 0%float]> payload))
    ∧ (Py.get params "temperature" = VNone →
       apply_params env params payload = Ok payload)).
  { intros Hquiet. rewrite (apply_params_quiet env params payload Hquiet). split.
    - intros Hzero. destruct (zero_lookup params "temperature" Hzero) as [_ Hne].
      rewrite bool_decide_eq_false_2 by done.
      by destruct Hzero as [-> | ->].
    - intros ->. by destruct (bool_decide (params = ∅)). }
  split; [|split; [|split; [|exact Hquiet_block]]]; clear Hquiet_block.
  - intros key Hkey Hzero.
    destruct (zero_lookup params key Hzero) as [Hlook Hne].
    assert (Hkey' : key ∈ ["top_p"; "max_tokens"; "frequency_penalty"; "seed"; "stop"]).
    { rewrite !elem_of_cons in Hkey. rewrite !elem_of_cons. tauto. }
    split.
    + apply falsy_as_absent; [done| |by apply zero_not_truthy].
      destruct Hlook as [-> | ->]; by eexists.
    + intros p'. apply falsy_keeps_field; [done|done|by apply zero_not_truthy].
  - intros Hstop.
    assert (Hlook : params !! "stop" = Some (VList [])).
    { unfold Py.get in Hstop. by destruct (params !! "stop") as [v|]; simplify_eq/=. }
    assert (Hne : params ≠ ∅) by (intros ->; by rewrite lookup_empty in Hlook).
    split.
    + apply falsy_as_absent; [repeat constructor|by eexists|by rewrite Hstop].
    + intros p'. apply falsy_keeps_field; [repeat constructor|done|by rewrite Hstop].
  - intros Hzero. split; [by apply zero_temperature_written|]. intros p' H.
    destruct (zero_lookup params "temperature" Hzero) as [_ Hne].
    destruct (apply_params_steps env params payload p' Hne H)
      as (p1 & p2 & p3 & p4 & p5 & H1 & H2 & H3 & H4 & H5 & H6).
    rewrite (override_lookup _ _ _ _ _ _ H6) by (by right).
    rewrite (override_lookup _ _ _ _ _ _ H5) by (by right).
    rewrite (override_lookup _ _ _ _ _ _ H4) by (by right).
    rewrite (override_lookup _ _ _ _ _ _ H3) by (by right).
    rewrite (override_lookup _ _ _ _ _ _ H2) by (by right).
    destruct Hzero as [Hz|Hz]; rewrite Hz in H1;
      apply override_set in H1 as (x & [= <-] & ->); by rewrite lookup_insert_eq.
Qed.

(** What the block does with the values it takes: a temperature that is not
    [None] is written as a float, a truthy [top_p], [max_tokens] or
    [frequency_penalty] as an int, a truthy [seed] as it is, each over
    whatever the request held. *)
Lemma profile_overrides_request (env : environment)
    (params payload p' : gmap string value) :
  apply_params env params payload = Ok p' →
  (is_None (Py.get params "temperature") = false →
     ∃ f, Py.to_float (float_of_str env) (Py.get params "temperature") = Ok f
          ∧ p' !! "temperature" = Some (VFloat f))
  ∧ (∀ key, key ∈ ["top_p"; "max_tokens"; "frequency_penalty"] →
       Py.truthy (Py.get params key) = true →
       ∃ z, Py.to_int (int_of_str env) (Py.get params key) = Ok z
            ∧ p' !! key = Some (VInt z))
  ∧ (Py.truthy (Py.get params "seed") = true →
       p' !! "seed" = Some (Py.get params "seed")).
Proof.
  intros H.
  assert (Hne : Py.truthy (Py.get params "seed") = true
                ∨ (∃ key, Py.truthy (Py.get params key) = true)
                ∨ is_None (Py.get params "temperature") = false → params ≠ ∅).
  { intros Hsome ->. unfold Py.get in Hsome. rewrite lookup_empty in Hsome.
    destruct Hsome as [?|[[key Hkey]|?]]; try done;
      by rewrite lookup_empty in Hkey. }
  split_and!.
  - intros Ht.
    destruct (apply_params_steps env params payload p' (Hne (or_intror (or_intror Ht))) H)
      as (p1 & p2 & p3 & p4 & p5 & H1 & H2 & H3 & H4 & H5 & H6).
    rewrite Ht in H1. apply override_set in H1 as (x & Hx & ->).
    apply fmap_Ok in Hx as (f & Hf & ->). exists f. split; [done|].
    rewrite (override_lookup _ _ _ _ _ _ H6) by (by right).
    rewrite (override_lookup _ _ _ _ _ _ H5) by (by right).
    rewrite (override_lookup _ _ _ _ _ _ H4) by (by right).
    rewrite (override_lookup _ _ _ _ _ _ H3) by (by right).
    rewrite (override_lookup _ _ _ _ _ _ H2) by (by right).
    by rewrite lookup_insert_eq.
  - intros key Hkey Htruthy.
    destruct (apply_params_steps env params payload p'
                (Hne (or_intror (or_introl (ex_intro _ key Htruthy)))) H)
      as (p1 & p2 & p3 & p4 & p5 & H1 & H2 & H3 & H4 & H5 & H6).
    rewrite !elem_of_cons, elem_of_nil in Hkey.
    rewrite (override_lookup _ _ _ _ _ key H6)
      by (right; by destruct Hkey as [->|[->|[->|[]]]]).
    rewrite (override_lookup _ _ _ _ _ key H5)
      by (right; by destruct Hkey as [->|[->|[->|[]]]]).
    destruct Hkey as [->|[->|[->|[]]]].
    + rewrite Htruthy in H2. apply override_set in H2 as (x & Hx & ->).
      apply fmap_Ok in Hx as (z & Hz & ->). exists z. split; [done|].
      rewrite (override_lookup _ _ _ _ _ _ H4) by (by right).
      rewrite (override_lookup _ _ _ _ _ _ H3) by (by right).
      by rewrite lookup_insert_eq.
    + rewrite Htruthy in H3. apply override_set in H3 as (x & Hx & ->).
      apply fmap_Ok in Hx as (z & Hz & ->). exists z. split; [done|].
      rewrite (override_lookup _ _ _ _ _ _ H4) by (by right).
      by rewrite lookup_insert_eq.
    + rewrite Htruthy in H4. apply override_set in H4 as (x & Hx & ->).
      apply fmap_Ok in Hx as (z & Hz & ->). exists z. split; [done|].
      by rewrite lookup_insert_eq.
  - intros Htruthy.
    destruct (apply_params_steps env params payload p' (Hne (or_introl Htruthy)) H)
      as (p1 & p2 & p3 & p4 & p5 & H1 & H2 & H3 & H4 & H5 & H6).
    rewrite Htruthy in H5. apply override_set in H5 as (x & [= <-] & ->).
    rewrite (override_lookup _ _ _ _ _ _ H6) by (by right).
    by rewrite lookup_insert_eq.
Qed.

(** The whole block on a profile of zeros and an empty [stop] list: it
    returns the request with the temperature set to [0.0], and with the
    other five fields as the request had them. *)
Lemma zero_overrides_only_temperature_witness :
  apply_params silent_env (params zero_profile) full_request
  = Ok (<["temperature" := VFloat 0%float]> full_request)
  ∧ (<["temperature" := VFloat 0%float]> full_request : gmap string value)
      !! "temperature" = Some (VFloat 0%float)
  ∧ ∀ key, key ∈ ["top_p"; "max_tokens"; "frequency_penalty"; "seed"; "stop"] →
      (<["temperature" := VFloat 0%float]> full_request : gmap string value) !! key
      = full_request !! key.
Proof.
  split_and!.
  - apply (zero_overrides_only_temperature silent_env (params zero_profile)
             full_request).
    + intros key Hkey. rewrite !elem_of_cons, elem_of_nil in Hkey.
      destruct Hkey as [->|[->|[->|[->|[->|[]]]]]]; reflexivity.
    + left. reflexivity.
  - reflexivity.
  - intros key Hkey. rewrite !elem_of_cons, elem_of_nil in Hkey.
    destruct Hkey as [->|[->|[->|[->|[->|[]]]]]]; reflexivity.
Defined.

Example zero_profile_applied :
  apply_params silent_env (params zero_profile) full_request
  = Ok (<["temperature" := VFloat 0%float]> full_request).
Proof. vm_compute. reflexivity. Qed.

(** C6 fails on the code.  The profile defines [seed], [top_p],
    [max_tokens] and [frequency_penalty] with the value 0, which is not
    null, and the payload sent to the backend still carries the request's
    values; the temperature, tested with [is not None], is overwritten. *)
Theorem zero_seed_not_forwarded :
  ∃ payload,
    generate_chat_completion (chat_env (Some zero_profile) (Some completion))
      full_request None (Some alice) chat_state
    = (Ok (JSONResponse (VDict {["object" := VStr "chat.completion"]})),
       [ SessionOpen;
         Request "POST" "http://10.0.0.1/v1/chat/completions" (chat_headers "k")
           (VDict payload);
         ReadJSON; ResponseClose; SessionClose ])
    ∧ params zero_profile !! "seed" = Some (VInt 0)
    ∧ payload !! "seed" = Some (VInt 42)
    ∧ payload !! "top_p" = Some (VInt 1)
    ∧ payload !! "max_tokens" = Some (VInt 256)
    ∧ payload !! "frequency_penalty" = Some (VInt 1)
    ∧ payload !! "temperature" = Some (VFloat 0%float).
Proof.
  exists (<["temperature" := VFloat 0%float]> full_request).
  split_and!; vm_compute; reflexivity.
Qed.

(** ** The catalog lookup of a chat completion *)

Lemma normalize_model (env : environment) (info : option ModelModel)
    (user : option UserModel) (p p' : gmap string value) (model_id : string) :
  p !! "model" = Some (VStr model_id) →
  normalize env info user p = Ok p' →
  p' !! "model" = Some (VStr (resolved_model_id info model_id)).
Proof.
  intros Hmodel H. destruct info as [info|]; [|by injection H as <-].
  unfold normalize in H. apply bind_Ok in H as (p1 & H1 & H2).
  rewrite (apply_system_frame _ _ _ _ _ "model" H2) by done.
  rewrite (apply_params_frame _ _ _ _ "model" H1).
  - unfold resolved_model_id. destruct (base_model_id info) as [b|]; [|done].
    destruct (b =? EmptyString)%string; [done|]. by rewrite lookup_insert_eq.
  - intros Hin. rewrite !elem_of_cons, elem_of_nil in Hin.
    by destruct Hin as [?|[?|[?|[?|[?|[?|[]]]]]]].
Qed.

(** C5 (amended).  For a request whose model id has no reserved prefix and
    whose payload passes the override block, when the id looked up (the
    profile's alias, or else the requested id) is not in the catalog, the
    handler raises the [KeyError] of the lookup, carrying that id, and has
    sent nothing to any backend. *)
Theorem unknown_model_raises_KeyError (env : environment)
    (form_data : gmap string value) (url_idx : option Z)
    (user : option UserModel) (st : app_state)
    (model_id : string) (p : gmap string value) :
  let info := get_model_by_id env (VStr model_id) in
  form_data !! "model" = Some (VStr model_id) →
  reserved_adapter model_id = None →
  normalize env info user form_data = Ok p →
  MODELS st !! resolved_model_id info model_id = None →
  generate_chat_completion env form_data url_idx user st
  = (Raise (KeyError (VStr (resolved_model_id info model_id))), []).
Proof.
  intros info Hmodel Hreserved Hnorm Hmissing.
  unfold generate_chat_completion. rewrite (get_Some _ _ _ Hmodel), Hreserved.
  unfold prepare. rewrite (get_Some _ _ _ Hmodel). fold info.
  rewrite Hnorm. cbn [mbind result_bind]. unfold route.
  rewrite (get_Some _ _ _ (normalize_model env info user form_data p model_id Hmodel Hnorm)).
  cbn [lookup_model]. by rewrite Hmissing.
Qed.

(** A request for a model that no backend lists, with a profile. *)
Lemma unknown_model_raises_KeyError_witness :
  generate_chat_completion (chat_env (Some zero_profile) (Some completion))
    (<["model" := VStr "no-such-model"]> full_request) None (Some alice) chat_state
  = (Raise (KeyError (VStr (resolved_model_id
                              (get_model_by_id
                                 (chat_env (Some zero_profile) (Some completion))
                                 (VStr "no-such-model"))
                              "no-such-model"))), []).
Proof.
  apply (unknown_model_raises_KeyError
           (chat_env (Some zero_profile) (Some completion))
           (<["model" := VStr "no-such-model"]> full_request) None (Some alice)
           chat_state "no-such-model"
           (<["temperature" := VFloat 0%float]>
              (<["model" := VStr "no-such-model"]> full_request))).
  - reflexivity.
  - reflexivity.
  - vm_compute. reflexivity.
  - vm_compute. reflexivity.
Defined.

(** C5 as stated fails.  A request for a model that no backend lists ends
    in the [KeyError] of the dictionary lookup, not in an [HTTPException]
    with a status and a fixed message. *)
Lemma unknown_model_no_HTTPException :
  MODELS chat_state !! "no-such-model" = None
  ∧ reserved_adapter "no-such-model" = None
  ∧ generate_chat_completion (chat_env None (Some completion))
      (<["model" := VStr "no-such-model"]> full_request) None (Some alice) chat_state
    = (Raise (KeyError (VStr "no-such-model")), [])
  ∧ ¬ ∃ status_code detail,
        fst (generate_chat_completion (chat_env None (Some completion))
               (<["model" := VStr "no-such-model"]> full_request) None (Some alice)
               chat_state)
        = Raise (HTTPException status_code detail).
Proof.
  assert (H : generate_chat_completion (chat_env None (Some completion))
                (<["model" := VStr "no-such-model"]> full_request) None (Some alice)
                chat_state
              = (Raise (KeyError (VStr "no-such-model")), []))
    by (vm_compute; reflexivity).
  split_and!; [vm_compute; reflexivity|reflexivity|done|].
  rewrite H. by intros (status_code & detail & ?).
Qed.

(** ** The system prompt *)

Lemma prepend_system_none (system : string) (ms : list value) :
  Forall is_record ms → Forall (λ m, is_system m = false) ms →
  prepend_system system ms = Ok None.
Proof.
  induction 1 as [|m ms [d ->] _ IH]; intros Hsys; [done|].
  apply Forall_cons in Hsys as [Hm Hms]. cbn [prepend_system].
  cbn [is_system] in Hm. rewrite Hm, (IH Hms). done.
Qed.

Lemma prepend_system_first (system : string) (before after : list value)
    (m : gmap string value) (content : string) :
  Forall is_record before → Forall (λ x, is_system x = false) before →
  is_system (VDict m) = true → m !! "content" = Some (VStr content) →
  prepend_system system (before ++ VDict m :: after)
  = Ok (Some (before ++ VDict (<["content" := VStr (system +:+ content)]> m) :: after)).
Proof.
  intros Hrec Hsys Hm Hcontent.
  induction Hrec as [|x before [d ->] _ IH].
  - cbn [app prepend_system]. cbn [is_system] in Hm. rewrite Hm.
    cbn [Py.getitem]. by rewrite Hcontent.
  - apply Forall_cons in Hsys as [Hx Hbefore].
    cbn [app prepend_system]. cbn [is_system] in Hx. rewrite Hx, (IH Hbefore). done.
Qed.

Lemma apply_system_messages (env : environment) (user : option UserModel)
    (params p : gmap string value) (rendered : string) (ms : list value)
    (found : option (list value)) :
  Py.truthy (Py.get params "system") = true →
  prompt_template env (Py.get params "system") (user_kwargs user) = Ok rendered →
  p !! "messages" = Some (VList ms) → ms ≠ [] →
  prepend_system rendered ms = Ok found →
  apply_system env user params p
  = Ok (<["messages" := VList (default (system_message rendered :: ms) found)]> p).
Proof.
  intros Hsys Hrender Hms Hne Hfound. unfold apply_system.
  rewrite Hsys, Hrender. cbn [mbind result_bind].
  rewrite (get_Some _ _ _ Hms).
  assert (Py.truthy (VList ms) = true) as -> by (by destruct ms).
  cbn [Py.iter mbind result_bind]. rewrite Hfound. cbn [mbind result_bind].
  by destruct found.
Qed.

(** C7 (amended).  For a profile with a system template and a request
    whose [messages] is a non-empty list of dictionaries: if no message
    has the role [system], the override block puts one new system message
    with the rendered template at position 0; if one has, and the content
    of the first such message is a string, the block prepends the rendered
    template to that content and adds no message; and the payload that is
    then sent to the backend carries exactly these messages. *)
Theorem system_prompt_injection (env : environment)
    (form_data : gmap string value) (user : option UserModel) (st : app_state)
    (info : ModelModel) (rendered : string) (ms : list value) :
  get_model_by_id env (Py.get form_data "model") = Some info →
  Py.truthy (Py.get (params info) "system") = true →
  prompt_template env (Py.get (params info) "system") (user_kwargs user) = Ok rendered →
  form_data !! "messages" = Some (VList ms) →
  ms ≠ [] →
  Forall is_record ms →
  (Forall (λ m, is_system m = false) ms →
     (∀ p, p !! "messages" = Some (VList ms) →
        apply_system env user (params info) p
        = Ok (<["messages" := VList (system_message rendered :: ms)]> p))
     ∧ (∀ url key sent, prepare env form_data user st = Ok (url, key, sent) →
          sent !! "messages" = Some (VList (system_message rendered :: ms))))
  ∧ (∀ before m content after,
       ms = before ++ VDict m :: after →
       Forall (λ x, is_system x = false) before →
       is_system (VDict m) = true →
       m !! "content" = Some (VStr content) →
       let ms' := before ++ VDict (<["content" := VStr (rendered +:+ content)]> m) :: after in
       length ms' = length ms
       ∧ (∀ p, p !! "messages" = Some (VList ms) →
            apply_system env user (params info) p = Ok (<["messages" := VList ms']> p))
       ∧ (∀ url key sent, prepare env form_data user st = Ok (url, key, sent) →
            sent !! "messages" = Some (VList ms'))).
Proof.
  intros Hinfo Hsys Hrender Hms Hne Hrec.
  assert (Hsent : ∀ found url key sent,
            prepend_system rendered ms = Ok found →
            prepare env form_data user st = Ok (url, key, sent) →
            sent !! "messages"
            = Some (VList (default (system_message rendered :: ms) found))).
  { intros found url key sent Hfound Hprep. unfold prepare in Hprep.
    rewrite Hinfo in Hprep.
    apply bind_Ok in Hprep as (p & Hnorm & Hprep).
    apply bind_Ok in Hprep as ([idx p'] & Hroute & Hprep).
    apply bind_Ok in Hprep as (u & _ & Hprep).
    apply bind_Ok in Hprep as (k & _ & [= _ _ <-]). cbn [snd].
    rewrite (route_frame _ _ _ _ _ "messages" Hroute)
      by (rewrite !elem_of_cons, elem_of_nil; by intros [?|[?|[]]]).
    unfold normalize in Hnorm. apply bind_Ok in Hnorm as (p1 & H1 & H2).
    assert (Hp1 : p1 !! "messages" = Some (VList ms)).
    { rewrite (apply_params_frame _ _ _ _ "messages" H1).
      - destruct (base_model_id info) as [b|]; [|done].
        destruct (b =? EmptyString)%string; [done|]. by rewrite lookup_insert_ne.
      - rewrite !elem_of_cons, elem_of_nil. by intros [?|[?|[?|[?|[?|[?|[]]]]]]]. }
    rewrite (apply_system_messages env user (params info) p1 rendered ms found
               Hsys Hrender Hp1 Hne Hfound) in H2.
    injection H2 as <-. by rewrite lookup_insert_eq. }
  split.
  - intros Hnone. pose proof (prepend_system_none rendered ms Hrec Hnone) as Hfound.
    split.
    + intros p Hp.
      by rewrite (apply_system_messages env user (params info) p rendered ms None).
    + intros url key sent Hprep. by rewrite (Hsent None url key sent).
  - intros before m content after -> Hbefore Hm Hcontent ms'.
    apply Forall_app in Hrec as [Hrec _].
    pose proof (prepend_system_first rendered before after m content
                  Hrec Hbefore Hm Hcontent) as Hfound.
    split_and!.
    + subst ms'. rewrite !length_app. done.
    + intros p Hp.
      by rewrite (apply_system_messages env user (params info) p rendered
                    (before ++ VDict m :: after) (Some ms')).
    + intros url key sent Hprep. by rewrite (Hsent (Some ms') url key sent).
Qed.

(** A request with one user message under a profile with a template. *)
Lemma system_prompt_injection_witness :
  (Forall (λ m, is_system m = false) [user_message "Hello"] →
     (∀ p, p !! "messages" = Some (VList [user_message "Hello"]) →
        apply_system (chat_env (Some brief_profile) (Some completion)) (Some alice)
          (params brief_profile) p
        = Ok (<["messages" := VList (system_message "Be brief. " :: [user_message "Hello"])]> p))
     ∧ (∀ url key sent,
          prepare (chat_env (Some brief_profile) (Some completion)) full_request
            (Some alice) chat_state = Ok (url, key, sent) →
          sent !! "messages"
          = Some (VList (system_message "Be brief. " :: [user_message "Hello"]))))
  ∧ (∀ before m content after,
       [user_message "Hello"] = before ++ VDict m :: after →
       Forall (λ x, is_system x = false) before →
       is_system (VDict m) = true →
       m !! "content" = Some (VStr content) →
       let ms' := before ++ VDict (<["content" := VStr ("Be brief. " +:+ content)]> m)
                           :: after in
       length ms' = length [user_message "Hello"]
       ∧ (∀ p, p !! "messages" = Some (VList [user_message "Hello"]) →
            apply_system (chat_env (Some brief_profile) (Some completion)) (Some alice)
              (params brief_profile) p
            = Ok (<["messages" := VList ms']> p))
       ∧ (∀ url key sent,
            prepare (chat_env (Some brief_profile) (Some completion)) full_request
              (Some alice) chat_state = Ok (url, key, sent) →
            sent !! "messages" = Some (VList ms'))).
Proof.
  apply (system_prompt_injection (chat_env (Some brief_profile) (Some completion))
           full_request (Some alice) chat_state brief_profile "Be brief. "
           [user_message "Hello"]).
  - reflexivity.
  - reflexivity.
  - reflexivity.
  - reflexivity.
  - discriminate.
  - repeat constructor. by eexists.
Defined.

(** The two cases on the payload that is sent: a system message is put in
    front of a request without one, and the template is put in front of the
    content of an existing one. *)
Example system_message_inserted :
  (λ sent, snd sent !! "messages")
    <$> prepare (chat_env (Some brief_profile) (Some completion)) full_request
          (Some alice) chat_state
  = Ok (Some (VList [system_message "Be brief. "; user_message "Hello"])).
Proof. vm_compute. reflexivity. Qed.

Example system_message_extended :
  (λ sent, snd sent !! "messages")
    <$> prepare (chat_env (Some brief_profile) (Some completion))
          (<["messages" := VList system_then_user]> full_request)
          (Some alice) chat_state
  = Ok (Some (VList
          [ VDict (<["role" := VStr "system"]>
                  (<["content" := VStr "Be brief. You are a bot."]> ∅));
            user_message "Hello" ])).
Proof. vm_compute. reflexivity. Qed.

(** A system message whose content is a list of parts is not extended: the
    concatenation raises and nothing is sent. *)
Example system_message_with_parts :
  generate_chat_completion (chat_env (Some brief_profile) (Some completion))
    (<["messages" :=
         VList [VDict (<["role" := VStr "system"]>
                      (<["content" := VList [VStr "You are a bot."]]> ∅))]]>
       full_request)
    None (Some alice) chat_state
  = (Raise TypeError, []).
Proof. vm_compute. reflexivity. Qed.

(** C7 as stated fails.  The profile defines a system template and the
    request has no system message, its [messages] being the empty list;
    the payload sent to the backend gains no system message. *)
Lemma no_system_message_for_empty_messages :
  Py.truthy (Py.get (params brief_profile) "system") = true
  ∧ no_messages_request !! "messages" = Some (VList [])
  ∧ generate_chat_completion (chat_env (Some brief_profile) (Some completion))
      no_messages_request None (Some alice) chat_state
    = (Ok (JSONResponse (VDict {["object" := VStr "chat.completion"]})),
       [ SessionOpen;
         Request "POST" "http://10.0.0.1/v1/chat/completions" (chat_headers "k")
           (VDict no_messages_request);
         ReadJSON; ResponseClose; SessionClose ]).
Proof. split_and!; vm_compute; reflexivity. Qed.

(** ** Relay or buffer *)

Lemma generate_chat_completion_forward (env : environment)
    (form_data : gmap string value) (url_idx : option Z)
    (user : option UserModel) (st : app_state)
    (model_id url key : string) (payload : gmap string value) :
  form_data !! "model" = Some (VStr model_id) →
  reserved_adapter model_id = None →
  prepare env form_data user st = Ok (url, key, payload) →
  generate_chat_completion env form_data url_idx user st = forward env url key payload.
Proof.
  intros Hmodel Hreserved Hprep. unfold generate_chat_completion.
  by rewrite (get_Some _ _ _ Hmodel), Hreserved, Hprep.
Qed.

Lemma chunks_sent_relay (body : list string) (rest : list event) :
  chunks_sent (flat_map (λ c, [ChunkRead c; ChunkSent c]) body ++ rest)
  = body ++ chunks_sent rest.
Proof.
  unfold chunks_sent. induction body as [|c body IH]; [done|].
  cbn [flat_map app]. cbn [omap list_omap]. by rewrite <- IH.
Qed.

(** What the serving of a relay does, however it ends. *)
Lemma serve_relay (resp : http_response) (how : relay_end) :
  let relay := StreamingResponse (content resp) (status resp)
                 (headers_dict (headers resp)) (Some resp, Some client_session) in
  serve relay how
  = ResponseStart (status resp) (headers_dict (headers resp))
      :: flat_map (λ c, [ChunkRead c; ChunkSent c]) (forwarded (content resp) how)
      ++ (if background_runs_after how then [ResponseClose; SessionClose] else [])
  ∧ chunks_sent (serve relay how) = forwarded (content resp) how
  ∧ forwarded (content resp) how `prefix_of` content resp.
Proof.
  intros relay. split_and!.
  - done.
  - cbn [serve relay]. unfold chunks_sent at 1. cbn [omap list_omap].
    fold (chunks_sent
            (flat_map (λ c, [ChunkRead c; ChunkSent c]) (forwarded (content resp) how)
             ++ (if background_runs_after how
                 then cleanup_response (Some resp) (Some client_session) else []))).
    rewrite chunks_sent_relay.
    destruct (background_runs_after how); cbn; by rewrite app_nil_r.
  - destruct how as [|n e|n b]; cbn [forwarded]; [done| |];
      exists (drop n (content resp)); by rewrite take_drop.
Qed.

(** The outcome of the [except] clause for a response with a status of 400
    or more: the body is not read, whatever it holds. *)
Lemma except_clause_error_status (resp : http_response)
    (session : option ClientSession) (streaming : bool) (e : exn) :
  400 ≤ status resp →
  except_clause {| r := Some resp; session := session; streaming := streaming |} e
  = ([ReadJSON], HTTPException (status resp) (ExternalException e)).
Proof.
  intros Hstatus. unfold except_clause, json_after_status_check. cbn [r].
  by destruct (Z.leb_spec 400 (status resp)) as [_|?]; [|lia].
Qed.



(** The relay and the buffered answer on concrete backends. *)
Example event_stream_relayed :
  snd (generate_chat_completion (chat_env None (Some event_stream)) full_request None
         (Some alice) chat_state)
    ++ match fst (generate_chat_completion (chat_env None (Some event_stream))
                    full_request None (Some alice) chat_state) with
       | Ok resp => serve resp Completed
       | Raise _ => []
       end
  = [ SessionOpen;
      Request "POST" "http://10.0.0.1/v1/chat/completions" (chat_headers "k")
        (VDict full_request);
      ResponseStart 200 (headers_dict (headers event_stream));
      ChunkRead "data: {}"; ChunkSent "data: {}";
      ChunkRead "data: [DONE]"; ChunkSent "data: [DONE]";
      ResponseClose; SessionClose ].
Proof. vm_compute. reflexivity. Qed.

(** The same relay when the backend breaks off after the first chunk:
    nothing closes the response and the session. *)
Example event_stream_broken_off :
  snd (generate_chat_completion (chat_env None (Some event_stream)) full_request None
         (Some alice) chat_state)
    ++ match fst (generate_chat_completion (chat_env None (Some event_stream))
                    full_request None (Some alice) chat_state) with
       | Ok resp => serve resp (BodyRaises 1 ClientError)
       | Raise _ => []
       end
  = [ SessionOpen;
      Request "POST" "http://10.0.0.1/v1/chat/completions" (chat_headers "k")
        (VDict full_request);
      ResponseStart 200 (headers_dict (headers event_stream));
      ChunkRead "data: {}"; ChunkSent "data: {}" ].
Proof. vm_compute. reflexivity. Qed.

Example completion_buffered :
  generate_chat_completion (chat_env None (Some completion)) full_request None
    (Some alice) chat_state
  = (Ok (JSONResponse (VDict {["object" := VStr "chat.completion"]})),
     [ SessionOpen;
       Request "POST" "http://10.0.0.1/v1/chat/completions" (chat_headers "k")
         (VDict full_request);
       ReadJSON; ResponseClose; SessionClose ]).
Proof. vm_compute. reflexivity. Qed.


(** ** The configuration across passes *)

Lemma reconcile_keys_idempotent (urls keys : list string) :
  reconcile_keys urls (reconcile_keys urls keys) = reconcile_keys urls keys.
Proof.
  unfold reconcile_keys at 1. by rewrite reconcile_keys_length, Nat.eqb_refl.
Qed.

Lemma config_eq (c c' : AppConfig) :
  ENABLE_MODEL_FILTER c = ENABLE_MODEL_FILTER c' →
  MODEL_FILTER_LIST c = MODEL_FILTER_LIST c' →
  ENABLE_OPENAI_API c = ENABLE_OPENAI_API c' →
  OPENAI_API_BASE_URLS c = OPENAI_API_BASE_URLS c' →
  OPENAI_API_KEYS c = OPENAI_API_KEYS c' →
  c = c'.
Proof. destruct c, c'; simpl; congruence. Qed.

Lemma pass_not_configured (env : environment) (raw : bool) (st : app_state) :
  not_configured (config st) = true →
  get_all_models env raw st
  = {| returned := Ok (models_payload []); state_after := st; trace := [] |}.
Proof. intros H. unfold get_all_models. by rewrite H. Qed.

Lemma pass_config (env : environment) (raw : bool) (st : app_state) :
  let st' := state_after (get_all_models env raw st) in
  ENABLE_MODEL_FILTER (config st') = ENABLE_MODEL_FILTER (config st)
  ∧ MODEL_FILTER_LIST (config st') = MODEL_FILTER_LIST (config st)
  ∧ ENABLE_OPENAI_API (config st') = ENABLE_OPENAI_API (config st)
  ∧ OPENAI_API_BASE_URLS (config st') = OPENAI_API_BASE_URLS (config st)
  ∧ OPENAI_API_KEYS (config st')
    = if not_configured (config st) then OPENAI_API_KEYS (config st)
      else reconcile_keys (OPENAI_API_BASE_URLS (config st)) (OPENAI_API_KEYS (config st)).
Proof.
  unfold get_all_models.
  destruct (not_configured (config st)); [done|].
  destruct (fetch_tasks _ _) as [tasks|e]; [|done].
  destruct raw; [done|].
  by destruct (aggregate _ _ _) as [[data catalog]|e].
Qed.

(** X1.  A pass of [get_all_models], raw or not, leaves the model filter,
    the switch and the URL list of the configuration as they were, and a
    second pass, whatever the backends answer by then, leaves the whole
    configuration as the first pass left it: the keys are rewritten at most
    once. *)
Theorem second_pass_keeps_configuration
    (env env' : environment) (raw raw' : bool) (st : app_state) :
  let st1 := state_after (get_all_models env raw st) in
  let st2 := state_after (get_all_models env' raw' st1) in
  ENABLE_MODEL_FILTER (config st1) = ENABLE_MODEL_FILTER (config st)
  ∧ MODEL_FILTER_LIST (config st1) = MODEL_FILTER_LIST (config st)
  ∧ ENABLE_OPENAI_API (config st1) = ENABLE_OPENAI_API (config st)
  ∧ OPENAI_API_BASE_URLS (config st1) = OPENAI_API_BASE_URLS (config st)
  ∧ config st2 = config st1.
Proof.
  intros st1 st2.
  destruct (pass_config env raw st) as (Hf & Hl & He & Hu & Hk).
  destruct (pass_config env' raw' st1) as (Hf' & Hl' & He' & Hu' & Hk').
  fold st1 in Hf, Hl, He, Hu, Hk. fold st2 in Hf', Hl', He', Hu', Hk'.
  split_and!; try done.
  apply config_eq; try done.
  rewrite Hk'.
  destruct (not_configured (config st)) eqn:Hconf.
  - assert (Hst1 : st1 = st).
    { subst st1. by rewrite (pass_not_configured env raw st Hconf). }
    by rewrite Hst1, Hconf.
  - destruct (not_configured (config st1)); [done|].
    rewrite Hk, Hu. apply reconcile_keys_idempotent.
Qed.
(** X2.  With the API switched on, a URL list of one URL and a key list
    that the reconciliation turns into one empty key (no key at all, or an
    empty key followed by others), the first pass asks the backend with the
    empty key and stores that key list; from then on the state is that of a
    gateway that is not configured: every later pass sends nothing, returns
    an empty list of models and leaves the state as it is. *)
Theorem lone_url_without_key_is_asked_once
    (env env' : environment) (raw : bool) (st : app_state) (url : string) :
  let first := get_all_models env false st in
  let second := get_all_models env' raw (state_after first) in
  not_configured (config st) = false →
  OPENAI_API_BASE_URLS (config st) = [url] →
  reconcile_keys [url] (OPENAI_API_KEYS (config st)) = [EmptyString] →
  trace first = [Fetch (url +:+ "/models") EmptyString]
  ∧ OPENAI_API_KEYS (config (state_after first)) = [EmptyString]
  ∧ second = {| returned := Ok (models_payload []);
                state_after := state_after first; trace := [] |}.
Proof.
  intros first second Hconf Hurls Hkeys.
  destruct (aggregation_pass env false st Hconf) as (_ & Hk & Ht).
  rewrite Hurls, Hkeys in Hk, Ht. fold first in Hk, Ht.
  split_and!; [done|done|].
  subst second. apply pass_not_configured.
  unfold not_configured. by rewrite Hk.
Qed.

(** A gateway with one backend and no key. *)
Lemma lone_url_without_key_is_asked_once_witness :
  trace (get_all_models flaky_env false (configured ["http://10.0.0.1/v1"] []))
  = [Fetch ("http://10.0.0.1/v1" +:+ "/models") EmptyString]
  ∧ OPENAI_API_KEYS
      (config (state_after (get_all_models flaky_env false
                              (configured ["http://10.0.0.1/v1"] []))))
    = [EmptyString]
  ∧ get_all_models three_env true
      (state_after (get_all_models flaky_env false (configured ["http://10.0.0.1/v1"] [])))
    = {| returned := Ok (models_payload []);
         state_after :=
           state_after (get_all_models flaky_env false
                          (configured ["http://10.0.0.1/v1"] []));
         trace := [] |}.
Proof.
  apply (lone_url_without_key_is_asked_once flaky_env three_env true
           (configured ["http://10.0.0.1/v1"] []) "http://10.0.0.1/v1").
  - reflexivity.
  - reflexivity.
  - reflexivity.
Defined.

Lemma fetched_tasks (env : environment) (urls keys : list string) :
  ((λ '(url, key), fetch_url env url key) <$>
     zip_with (λ url key, (url +:+ "/models", key)) urls keys)
  = fetched env urls keys.
Proof.
  unfold fetched. revert keys.
  induction urls as [|u us IH]; intros [|k ks]; simpl; try done. by rewrite IH.
Qed.

(** X3.  A raw pass over a configured gateway never raises: it returns the
    responses of the backends as they are, one per URL ([None] for a backend
    whose request failed), and leaves the catalog untouched, while it does
    store the reconciled keys.  When the gateway is not configured the raw
    pass returns the empty model object, not a list. *)
Theorem raw_pass_returns_responses (env : environment) (st : app_state) :
  let urls := OPENAI_API_BASE_URLS (config st) in
  let keys := reconcile_keys urls (OPENAI_API_KEYS (config st)) in
  let pass := get_all_models env true st in
  MODELS (state_after pass) = MODELS st
  ∧ (if not_configured (config st)
     then returned pass = Ok (models_payload [])
     else returned pass = Ok (VList (fetched env urls keys))
          ∧ length (fetched env urls keys) = length urls
          ∧ (∀ idx reply, replies env urls keys !! idx = Some reply →
               fetched env urls keys !! idx
               = Some (match reply with Body v => v | _ => VNone end))
          ∧ OPENAI_API_KEYS (config (state_after pass)) = keys).
Proof.
  intros urls keys pass. subst pass. unfold get_all_models.
  destruct (not_configured (config st)) eqn:Hconf; [done|].
  cbn [set_OPENAI_API_KEYS config OPENAI_API_KEYS]. fold urls keys.
  rewrite fetch_tasks_reconciled by apply reconcile_keys_length.
  cbn [returned state_after set_OPENAI_API_KEYS MODELS config OPENAI_API_KEYS].
  rewrite fetched_tasks.
  split_and!; [done|done| | |done].
  - apply fetched_length, reconcile_keys_length.
  - intros idx reply Hidx. by rewrite fetched_replies, list_lookup_fmap, Hidx.
Qed.

(** X4.  The URL update is all or nothing behind the refresh it starts
    with: when that refresh raises, the handler raises the same exception
    and the URL list stays the old one; when it returns, the new list is
    stored and returned, and the catalog is the one the refresh over the old
    list stored. *)
Theorem failed_refresh_blocks_url_update
    (env : environment) (form_urls : list string) (st : app_state) :
  let pass := get_all_models env false st in
  let update := update_openai_urls env form_urls st in
  trace update = trace pass
  ∧ MODELS (state_after update) = MODELS (state_after pass)
  ∧ match returned pass with
    | Raise e =>
        returned update = Raise e
        ∧ OPENAI_API_BASE_URLS (config (state_after update))
          = OPENAI_API_BASE_URLS (config st)
    | Ok _ =>
        returned update = Ok (VDict {["OPENAI_API_BASE_URLS" := VList (VStr <$> form_urls)]})
        ∧ OPENAI_API_BASE_URLS (config (state_after update)) = form_urls
    end.
Proof.
  intros pass update. subst update. unfold update_openai_urls. fold pass.
  destruct (pass_config env false st) as (_ & _ & _ & Hu & _). fold pass in Hu.
  by destruct (returned pass).
Qed.

(** ** The catalog after any refresh that returns *)

Lemma index_by_id_ids (data : list value) (acc catalog : gmap string value) :
  index_by_id acc data = Ok catalog → Forall (λ e, is_Some (entry_id e)) data.
Proof.
  revert acc. induction data as [|model data IH]; intros acc H; [done|].
  cbn [index_by_id] in H. apply bind_Ok in H as (mid & Hmid & H).
  destruct model as [| | | | | |d]; try done.
  cbn [Py.getitem] in Hmid. destruct (d !! "id") as [v|] eqn:Hid; [|done].
  injection Hmid as ->. destruct mid as [| | | |s| |]; try done.
  constructor; [|by eapply IH].
  cbn [entry_id]. rewrite Hid. by eexists.
Qed.

Lemma index_nat_inv {A} (l : list A) (i : nat) (x : A) :
  Py.index l (Z.of_nat i) = Ok x → l !! i = Some x.
Proof.
  unfold Py.index.
  destruct (Z.ltb_spec (Z.of_nat i) 0) as [?|_]; [lia|].
  destruct (Z.ltb_spec (Z.of_nat i) 0) as [?|_]; [lia|].
  destruct (Z.leb_spec (Z.of_nat (length l)) (Z.of_nat i)) as [?|_]; [done|].
  simpl. rewrite Nat2Z.id. destruct (l !! i); [by intros [= ->]|done].
Qed.

Lemma mapM_Forall2 {A B} (f : A → result B) (l : list A) (l' : list B) :
  mapM f l = Ok l' → Forall2 (λ x y, f x = Ok y) l l'.
Proof.
  revert l'. induction l as [|x l IH]; intros l'; simpl.
  - intros [= <-]. constructor.
  - intros H. apply bind_Ok in H as (y & Hy & H).
    apply bind_Ok in H as (ys & Hys & [= <-]). constructor; [done|by apply IH].
Qed.

Lemma merge_model_Some (urls : list string) (idx : nat) (model e : value) :
  merge_model urls idx model = Ok (Some e) →
  ∃ url d mid, urls !! idx = Some url ∧ model = VDict d
               ∧ d !! "id" = Some mid ∧ e = merged_entry idx d mid.
Proof.
  unfold merge_model. intros H.
  apply bind_Ok in H as (url & Hurl & H). apply index_nat_inv in Hurl.
  apply bind_Ok in H as (keep & _ & H).
  destruct keep; [|done].
  destruct model as [| | | | | |d]; try done.
  apply bind_Ok in H as (mid & Hmid & [= <-]).
  cbn [Py.getitem] in Hmid. destruct (d !! "id") as [v|] eqn:Hid; [|done].
  injection Hmid as ->. by exists url, d, mid.
Qed.

Lemma merge_models_entries (urls : list string) (idx : nat) (models : value)
    (out : list value) :
  merge_models urls idx models = Ok out → Forall (merged_for urls) out.
Proof.
  unfold merge_models. intros H.
  assert (Hgen : (has_error ← Py.contains "error" models;
                  if has_error : bool then Ok []
                  else ms ← Py.iter models;
                       entries ← mapM (merge_model urls idx) ms;
                       Ok (kept entries)) = Ok out ∨ out = []).
  { destruct models; try (by left); right; by injection H as <-. }
  clear H. destruct Hgen as [H| ->]; [|done].
  apply bind_Ok in H as (has_error & _ & H).
  destruct has_error; [by injection H as <-|].
  apply bind_Ok in H as (ms & _ & H).
  apply bind_Ok in H as (entries & Hm & [= <-]).
  apply mapM_Forall2 in Hm.
  induction Hm as [|m o ms entries Hmo _ IH]; [done|].
  rewrite kept_cons. destruct o as [e|]; [|done].
  constructor; [|done].
  destruct (merge_model_Some _ _ _ _ Hmo) as (url & d & mid & ? & ? & ? & ?).
  by exists idx, url, d, mid.
Qed.

Lemma merge_from_entries (urls : list string) (idx : nat) (model_lists : list value)
    (out : list value) :
  merge_from urls idx model_lists = Ok out → Forall (merged_for urls) out.
Proof.
  revert idx out. induction model_lists as [|models rest IH]; intros idx out H.
  - by injection H as <-.
  - cbn [merge_from] in H.
    apply bind_Ok in H as (here & Hhere & H).
    apply bind_Ok in H as (there & Hthere & [= <-]).
    apply Forall_app. split; [by eapply merge_models_entries|by eapply IH].
Qed.

(** What a refresh that returns has done: the data are the merged entries
    followed by the static ones, and the catalog files under each id the
    last entry of the data with that id. *)
Lemma refresh_returns (env : environment) (st : app_state) (v : value) :
  let urls := OPENAI_API_BASE_URLS (config st) in
  let pass := get_all_models env false st in
  not_configured (config st) = false →
  returned pass = Ok v →
  ∃ merged,
    let data := merged ++ moonshot_models (clock env 0) ++ qianfan_models (clock env 1) in
    v = models_payload data
    ∧ Forall (merged_for urls) merged
    ∧ Forall (λ e, is_Some (entry_id e)) data
    ∧ ∀ mid, MODELS (state_after pass) !! mid = last_with_id mid data.
Proof.
  intros urls pass Hconf Hret.
  pose proof (get_all_models_refresh env st Hconf) as Hrefresh.
  cbn zeta in Hrefresh. fold urls pass in Hrefresh.
  destruct (aggregate env urls _) as [[data catalog]|e] eqn:Hagg.
  - destruct Hrefresh as [Hv Hst]. rewrite Hv in Hret. injection Hret as <-.
    unfold aggregate in Hagg. apply bind_Ok in Hagg as (lists & _ & Hagg).
    unfold catalog_of_lists in Hagg. apply bind_Ok in Hagg as (merged & Hmerged & Hagg).
    apply bind_Ok in Hagg as (cat & Hcat & [= <- <-]).
    exists merged. cbn zeta.
    pose proof (index_by_id_ids _ _ _ Hcat) as Hids.
    split_and!; [done|by eapply merge_from_entries|done|].
    intros mid. rewrite Hst. cbn [set_MODELS MODELS].
    destruct (index_by_id_lookup _ ∅ Hids) as (cat' & Hcat' & Hlook).
    rewrite Hcat in Hcat'. injection Hcat' as <-.
    rewrite Hlook. by destruct (last_with_id mid _).
  - destruct Hrefresh as [Hv _]. by rewrite Hv in Hret.
Qed.

(** X5.  Whatever the backends answer, a refresh of a configured gateway
    that returns leaves a catalog that holds the twelve static ids, each
    mapped to its static entry; the catalog is then not empty, and the
    [check_url] middleware, which refreshes only an empty catalog, sends
    nothing from then on and leaves the state alone, whatever the backends
    would answer by then. *)
Theorem refresh_once_then_middleware_idle
    (env env' : environment) (st : app_state) :
  let st' := state_after (get_all_models env false st) in
  not_configured (config st) = false →
  is_Ok (returned (get_all_models env false st)) = true →
  (∀ mid, mid ∈ static_ids →
     ∃ e, MODELS st' !! mid = Some e
          ∧ e ∈ moonshot_models (clock env 0) ++ qianfan_models (clock env 1))
  ∧ MODELS st' ≠ ∅
  ∧ check_url env' st' = {| returned := Ok (); state_after := st'; trace := [] |}.
Proof.
  intros st' Hconf Hok.
  destruct (returned (get_all_models env false st)) as [v|] eqn:Hret; [|done].
  destruct (refresh_returns env st v Hconf Hret) as (merged & _ & _ & _ & Hlook).
  fold st' in Hlook.
  assert (Hstatic : ∀ mid, mid ∈ static_ids →
            ∃ e, MODELS st' !! mid = Some e
                 ∧ e ∈ moonshot_models (clock env 0) ++ qianfan_models (clock env 1)).
  { intros mid Hin. rewrite Hlook, last_with_id_app.
    apply (last_with_id_static (clock env 0) (clock env 1)) in Hin as [e He].
    rewrite He. exists e. split; [done|]. by apply last_with_id_Some in He as [? _]. }
  assert (Hne : MODELS st' ≠ ∅).
  { intros Hempty. destruct (Hstatic "moonshot-v1-8k") as (e & He & _).
    - repeat constructor.
    - by rewrite Hempty, lookup_empty in He. }
  split_and!; [done|done|].
  unfold check_url. by rewrite bool_decide_eq_false_2.
Qed.

(** A refresh over three backends of which two send no catalog. *)
Lemma refresh_once_then_middleware_idle_witness :
  (∀ mid, mid ∈ static_ids →
     ∃ e, MODELS (state_after (get_all_models flaky_env false flaky_state)) !! mid = Some e
          ∧ e ∈ moonshot_models (clock flaky_env 0) ++ qianfan_models (clock flaky_env 1))
  ∧ MODELS (state_after (get_all_models flaky_env false flaky_state)) ≠ ∅
  ∧ check_url three_env (state_after (get_all_models flaky_env false flaky_state))
    = {| returned := Ok ();
         state_after := state_after (get_all_models flaky_env false flaky_state);
         trace := [] |}.
Proof.
  apply (refresh_once_then_middleware_idle flaky_env three_env flaky_state).
  - reflexivity.
  - vm_compute. reflexivity.
Defined.

Lemma refresh_entry (env : environment) (st : app_state) (mid : string) (e : value) :
  not_configured (config st) = false →
  is_Ok (returned (get_all_models env false st)) = true →
  MODELS (state_after (get_all_models env false st)) !! mid = Some e →
  entry_id e = Some mid
  ∧ (mid ∈ static_ids ∨ merged_for (OPENAI_API_BASE_URLS (config st)) e).
Proof.
  intros Hconf Hok He.
  destruct (returned (get_all_models env false st)) as [v|] eqn:Hret; [|done].
  destruct (refresh_returns env st v Hconf Hret) as (merged & _ & Hmerged & _ & Hlook).
  rewrite Hlook in He.
  pose proof (last_with_id_Some _ _ _ He) as [Hin Hid]. split; [done|].
  rewrite last_with_id_app in He.
  pose proof (last_with_id_static (clock env 0) (clock env 1) mid) as Hstatic.
  destruct (last_with_id mid (moonshot_models _ ++ qianfan_models _)) as [x|].
  { left. apply Hstatic. by eexists. }
  right. apply last_with_id_Some in He as [Hm _].
  rewrite Forall_forall in Hmerged. by apply Hmerged.
Qed.

(** X6.  Whatever the backends answer, every entry of the catalog a
    returning refresh stores is filed under its own id and can be routed or
    is static: an entry under an id that is not static was built by the
    merge for a backend of the URL list, so that its [urlIdx] is a position
    at which both the URL list and the reconciled key list of the state
    hold an element. *)
Theorem catalog_entries_have_a_backend (env : environment) (st : app_state)
    (mid : string) (e : value) :
  let st' := state_after (get_all_models env false st) in
  not_configured (config st) = false →
  is_Ok (returned (get_all_models env false st)) = true →
  MODELS st' !! mid = Some e →
  entry_id e = Some mid
  ∧ (mid ∈ static_ids
     ∨ ∃ idx url key, urlIdx_of e = Some idx
         ∧ Py.index_value (OPENAI_API_BASE_URLS (config st')) idx = Ok url
         ∧ Py.index_value (OPENAI_API_KEYS (config st')) idx = Ok key).
Proof.
  intros st' Hconf Hok He.
  destruct (refresh_entry env st mid e Hconf Hok He) as [Hid [Hstatic|Hmerged]];
    (split; [done|]); [by left|right].
  destruct Hmerged as (n & url & d & v' & Hurl & _ & ->).
  destruct (aggregation_pass env false st Hconf) as (Hu & Hk & _).
  fold st' in Hu, Hk. rewrite Hu, Hk.
  destruct (lookup_lt_is_Some_2
              (reconcile_keys (OPENAI_API_BASE_URLS (config st)) (OPENAI_API_KEYS (config st)))
              n) as [key Hkey].
  { rewrite reconcile_keys_length. by eapply lookup_lt_Some. }
  exists (VInt (Z.of_nat n)), url, key.
  rewrite urlIdx_of_merged_entry. cbn [Py.index_value].
  by rewrite (index_lookup _ _ _ Hurl), (index_lookup _ _ _ Hkey).
Qed.

(** The entry of a model of the first of three backends. *)
Lemma catalog_entries_have_a_backend_witness :
  entry_id (merged_entry 0 (model_record "mistral") (VStr "mistral")) = Some "mistral"
  ∧ ("mistral" ∈ static_ids
     ∨ ∃ idx url key,
         urlIdx_of (merged_entry 0 (model_record "mistral") (VStr "mistral")) = Some idx
         ∧ Py.index_value
             (OPENAI_API_BASE_URLS
                (config (state_after (get_all_models flaky_env false flaky_state)))) idx
           = Ok url
         ∧ Py.index_value
             (OPENAI_API_KEYS
                (config (state_after (get_all_models flaky_env false flaky_state)))) idx
           = Ok key).
Proof.
  apply (catalog_entries_have_a_backend flaky_env flaky_state "mistral"
           (merged_entry 0 (model_record "mistral") (VStr "mistral"))).
  - reflexivity.
  - vm_compute. reflexivity.
  - vm_compute. reflexivity.
Defined.
(** X7.  The catalog keeps the record of the backend: the entry a
    returning refresh stores under an id that is not static holds, under
    ["openai"], the record as the backend listed it, with that id; it
    repeats every field of the record but four: ["owned_by"] is always
    [openai], ["urlIdx"] is the backend's index, ["openai"] is the record
    itself, and ["name"] is the record's name when it has one and its id
    otherwise. *)
Theorem catalog_keeps_backend_record (env : environment) (st : app_state)
    (mid : string) (e : value) :
  let st' := state_after (get_all_models env false st) in
  not_configured (config st) = false →
  is_Ok (returned (get_all_models env false st)) = true →
  MODELS st' !! mid = Some e →
  mid ∉ static_ids →
  ∃ (n : nat) (m d : gmap string value),
    e = VDict m
    ∧ m !! "openai" = Some (VDict d)
    ∧ d !! "id" = Some (VStr mid)
    ∧ m !! "urlIdx" = Some (VInt (Z.of_nat n))
    ∧ m !! "owned_by" = Some (VStr "openai")
    ∧ m !! "name" = Some (default (VStr mid) (d !! "name"))
    ∧ ∀ k, k ∉ ["name"; "owned_by"; "openai"; "urlIdx"] → m !! k = d !! k.
Proof.
  intros st' Hconf Hok He Hnot.
  destruct (refresh_entry env st mid e Hconf Hok He) as [Hid [?|Hmerged]]; [done|].
  destruct Hmerged as (n & url & d & v & _ & Hv & ->).
  rewrite entry_id_merged_entry in Hid. apply entry_id_VDict in Hid.
  rewrite Hid in Hv. injection Hv as <-.
  unfold merged_entry. eexists n, _, d. split; [done|].
  split_and!.
  - by rewrite lookup_insert_ne, lookup_insert_eq.
  - done.
  - by rewrite lookup_insert_eq.
  - do 2 (rewrite lookup_insert_ne by done). by rewrite lookup_insert_eq.
  - do 3 (rewrite lookup_insert_ne by done). by rewrite lookup_insert_eq.
  - intros k Hk. rewrite !lookup_insert_ne; [done|..]; intros <-; apply Hk;
      repeat constructor.
Qed.

(** The entry of the first of three backends for a model it lists. *)
Lemma catalog_keeps_backend_record_witness :
  ∃ (n : nat) (m d : gmap string value),
    merged_entry 0 (model_record "mistral") (VStr "mistral") = VDict m
    ∧ m !! "openai" = Some (VDict d)
    ∧ d !! "id" = Some (VStr "mistral")
    ∧ m !! "urlIdx" = Some (VInt (Z.of_nat n))
    ∧ m !! "owned_by" = Some (VStr "openai")
    ∧ m !! "name" = Some (default (VStr "mistral") (d !! "name"))
    ∧ ∀ k, k ∉ ["name"; "owned_by"; "openai"; "urlIdx"] → m !! k = d !! k.
Proof.
  apply (catalog_keeps_backend_record flaky_env flaky_state "mistral"
           (merged_entry 0 (model_record "mistral") (VStr "mistral"))).
  - reflexivity.
  - vm_compute. reflexivity.
  - vm_compute. reflexivity.
  - unfold static_ids. rewrite !elem_of_cons, elem_of_nil. intros H.
    repeat (destruct H as [H|H]; [discriminate H|]). done.
Defined.

(** ** The listing *)

Lemma Ok_inj {A} (a b : A) : Ok a = Ok b → a = b.
Proof. by intros [= ->]. Qed.

Lemma models_payload_inj (data data' : list value) :
  models_payload data = models_payload data' → data = data'.
Proof.
  intros H.
  apply (f_equal (λ v, match v with VDict d => d !! "data" | _ => None end)) in H.
  unfold models_payload in H. rewrite !lookup_singleton_eq in H. congruence.
Qed.

Lemma pass_data_have_ids (env : environment) (st : app_state) (data : list value) :
  returned (get_all_models env false st) = Ok (models_payload data) →
  Forall (λ e, is_Some (entry_id e)) data.
Proof.
  intros Hret. destruct (not_configured (config st)) eqn:Hconf.
  - rewrite (pass_not_configured env false st Hconf) in Hret.
    cbn [returned] in Hret. apply Ok_inj, models_payload_inj in Hret as <-.
    constructor.
  - destruct (refresh_returns env st _ Hconf Hret) as (merged & Hv & _ & Hids & _).
    apply models_payload_inj in Hv as ->. done.
Qed.

Lemma filter_visible (allowed : list string) (data : list value) :
  Forall (λ e, is_Some (entry_id e)) data →
  ∃ flags,
    mapM (λ model,
            b ← (mid ← Py.getitem model "id";
                 Ok (match mid with
                     | VStr s => bool_decide (s ∈ allowed)
                     | _ => false
                     end));
            Ok (if b : bool then Some model else None)) data
    = Ok flags
    ∧ kept flags = List.filter (visible_to allowed) data.
Proof.
  induction 1 as [|e data [s Hs] _ (flags & Hm & Hk)].
  - by exists [].
  - destruct e as [| | | | | |d]; try done.
    cbn [entry_id] in Hs.
    destruct (d !! "id") as [[| | | |s'| |]|] eqn:Hid; try done.
    injection Hs as ->.
    cbn [mapM]. rewrite Hm. cbn [Py.getitem]. rewrite Hid. cbn [mbind result_bind].
    eexists. split; [done|].
    cbn [List.filter]. unfold visible_to at 1. cbn [entry_id]. rewrite Hid.
    rewrite kept_cons. destruct (bool_decide (s ∈ allowed)); by rewrite Hk.
Qed.

(** X8.  The listing without an index runs one pass of [get_all_models]
    and leaves the state and the trace of that pass; when the pass returns
    the data [data], the listing returns them all, unless the model filter
    is on and the role of the user is exactly [user]: then it returns, in
    the same order, the entries whose id is in the filter list.  The
    catalog that is stored is that of the pass in both cases, hidden
    entries included. *)
Theorem listing_filtered_for_users (env : environment) (user : UserModel)
    (st : app_state) (data : list value) :
  let pass := get_all_models env false st in
  let listing := get_models env None user st in
  returned pass = Ok (models_payload data) →
  state_after listing = state_after pass
  ∧ trace listing = trace pass
  ∧ returned listing
    = Ok (models_payload
            (if ENABLE_MODEL_FILTER (config st) && (user_role user =? "user")%string
             then List.filter (visible_to (MODEL_FILTER_LIST (config st))) data
             else data)).
Proof.
  intros pass listing Hret.
  pose proof (pass_data_have_ids env st data Hret) as Hids.
  destruct (pass_config env false st) as (Hf & Hl & _). fold pass in Hf, Hl.
  subst listing. unfold get_models. fold pass. rewrite Hret, Hf, Hl.
  destruct (ENABLE_MODEL_FILTER (config st) && (user_role user =? "user")%string);
    [|done].
  cbn [state_after trace returned]. split_and!; [done|done|].
  unfold models_payload. cbn [Py.getitem]. rewrite lookup_singleton_eq.
  cbn [mbind result_bind Py.iter].
  destruct (filter_visible (MODEL_FILTER_LIST (config st)) data Hids) as (flags & Hm & Hk).
  rewrite Hm. cbn [mbind result_bind]. by rewrite Hk, insert_singleton_eq.
Qed.

(** A user under a filter list of two ids, after a pass over three
    backends. *)
Lemma listing_filtered_for_users_witness :
  state_after (get_models three_env None alice filtered_state)
  = state_after (get_all_models three_env false filtered_state)
  ∧ trace (get_models three_env None alice filtered_state)
    = trace (get_all_models three_env false filtered_state)
  ∧ returned (get_models three_env None alice filtered_state)
    = Ok (models_payload
            (if ENABLE_MODEL_FILTER (config filtered_state)
                && (user_role alice =? "user")%string
             then List.filter (visible_to (MODEL_FILTER_LIST (config filtered_state)))
                    (catalog_data three_env three_urls three_listed)
             else catalog_data three_env three_urls three_listed)).
Proof.
  apply (listing_filtered_for_users three_env alice filtered_state
           (catalog_data three_env three_urls three_listed)).
  vm_compute. reflexivity.
Defined.

(** What the user sees of the fifteen entries of the data. *)
Example listing_shows_two_entries :
  (λ v, match v with
        | VDict d => match d !! "data" with
                     | Some (VList l) => omap entry_id l
                     | _ => []
                     end
        | _ => []
        end) <$> returned (get_models three_env None alice filtered_state)
  = Ok ["llama3"; "ERNIE-3.5-8K"].
Proof. vm_compute. reflexivity. Qed.

(** ** The listing by explicit index *)

Lemma index_out_of_range {A} (l : list A) (i : Z) :
  i < - Z.of_nat (length l) ∨ Z.of_nat (length l) ≤ i → Py.index l i = Raise IndexError.
Proof.
  intros Hi. unfold Py.index.
  destruct (Z.ltb_spec i 0) as [Hneg|Hpos].
  - destruct (Z.ltb_spec (i + Z.of_nat (length l)) 0) as [?|?]; [done|lia].
  - destruct (Z.ltb_spec i 0) as [?|_]; [lia|].
    destruct (Z.leb_spec (Z.of_nat (length l)) i) as [?|?]; [done|lia].
Qed.

Lemma index_from_end {A} (l : list A) (n : nat) (x : A) :
  l !! n = Some x → Py.index l (Z.of_nat n - Z.of_nat (length l)) = Ok x.
Proof.
  intros Hl. pose proof (lookup_lt_Some _ _ _ Hl) as Hlt. unfold Py.index.
  destruct (Z.ltb_spec (Z.of_nat n - Z.of_nat (length l)) 0) as [_|?]; [|lia].
  replace (Z.of_nat n - Z.of_nat (length l) + Z.of_nat (length l)) with (Z.of_nat n) by lia.
  destruct (Z.ltb_spec (Z.of_nat n) 0) as [?|_]; [lia|].
  destruct (Z.leb_spec (Z.of_nat (length l)) (Z.of_nat n)) as [?|_]; [lia|].
  simpl. by rewrite Nat2Z.id, Hl.
Qed.

Lemma position_spec (len : nat) (i : Z) (n : nat) :
  position len i = Some n
  ↔ (n < len)%nat ∧ (i = Z.of_nat n ∨ i = Z.of_nat n - Z.of_nat len).
Proof.
  unfold position.
  destruct (Z.leb_spec 0 i), (Z.ltb_spec i (Z.of_nat len)); cbn [andb].
  - split; [intros [= <-]; lia|]. intros [? [?|?]]; f_equal; lia.
  - destruct (Z.leb_spec (- Z.of_nat len) i), (Z.ltb_spec i 0); cbn [andb];
      (split; [try done; intros [= <-]; lia|]); intros [? [?|?]]; lia.
  - destruct (Z.leb_spec (- Z.of_nat len) i), (Z.ltb_spec i 0); cbn [andb];
      (split; [try done; intros [= <-]; lia|]); intros [? [?|?]]; try lia.
    f_equal. lia.
  - lia.
Qed.

Lemma position_None (len : nat) (i : Z) :
  position len i = None ↔ i < - Z.of_nat len ∨ Z.of_nat len ≤ i.
Proof.
  unfold position.
  destruct (Z.leb_spec 0 i), (Z.ltb_spec i (Z.of_nat len)); cbn [andb];
    try (split; [done|lia]);
    destruct (Z.leb_spec (- Z.of_nat len) i), (Z.ltb_spec i 0); cbn [andb];
    split; (done || lia).
Qed.

(** The subscript by its position. *)
Lemma index_position {A} (l : list A) (i : Z) :
  Py.index l i
  = match position (length l) i with
    | Some n => match l !! n with Some x => Ok x | None => Raise IndexError end
    | None => Raise IndexError
    end.
Proof.
  destruct (position (length l) i) as [n|] eqn:Hpos.
  - apply position_spec in Hpos as [Hn Hi].
    destruct (lookup_lt_is_Some_2 l n Hn) as [x Hx]. rewrite Hx.
    destruct Hi as [-> | ->];
      [by apply index_lookup|by apply index_from_end].
  - apply index_out_of_range. by apply position_None.
Qed.

(** X9.  The listing by explicit index never changes the state: it neither
    reconciles the keys nor touches the catalog.  It reads the URL list
    and the key list with the same subscript, each list by itself, a
    subscript below zero counting from the end of the list it reads.  When
    the subscript has a position in both lists, one GET goes to [/models]
    of the URL at its position in the URL list, with the key at its
    position in the key list; when it is outside one of the lists, the
    listing ends in the [IndexError] of the lookup with nothing sent. *)
Theorem listing_by_index_bounds (env : environment) (i : Z) (user : UserModel)
    (st : app_state) :
  let urls := OPENAI_API_BASE_URLS (config st) in
  let keys := OPENAI_API_KEYS (config st) in
  let listing := get_models env (Some i) user st in
  state_after listing = st
  ∧ match position (length urls) i, position (length keys) i with
    | Some n, Some m =>
        ∃ url key,
          urls !! n = Some url ∧ keys !! m = Some key
          ∧ trace listing
            = [Request "GET" (url +:+ "/models") (listing_headers key) VNone]
    | _, _ => returned listing = Raise IndexError ∧ trace listing = []
    end
  ∧ (∀ len n,
       position len i = Some n
       ↔ (n < len)%nat ∧ (i = Z.of_nat n ∨ i = Z.of_nat n - Z.of_nat len))
  ∧ (∀ len, position len i = None ↔ i < - Z.of_nat len ∨ Z.of_nat len ≤ i).
Proof.
  intros urls keys listing. subst listing. unfold get_models. fold urls keys.
  split_and!.
  - by destruct (_ ≫= _) as [[url key]|e].
  - rewrite (index_position urls i), (index_position keys i).
    destruct (position (length urls) i) as [n|] eqn:Hn; [|done].
    apply position_spec in Hn as [Hn _].
    destruct (lookup_lt_is_Some_2 urls n Hn) as [url Hurl]. rewrite Hurl.
    destruct (position (length keys) i) as [m|] eqn:Hm; [|done].
    apply position_spec in Hm as [Hm _].
    destruct (lookup_lt_is_Some_2 keys m Hm) as [key Hkey]. rewrite Hkey.
    by exists url, key.
  - intros len n. apply position_spec.
  - intros len. apply position_None.
Qed.

(** With two URLs and three keys, the subscript [-1] reads the second URL
    and the third key. *)
Example listing_by_index_from_end :
  trace (get_models silent_env (Some (-1)) alice
           (configured ["http://a"; "http://b"] ["k1"; "k2"; "k3"]))
  = [Request "GET" "http://b/models" (listing_headers "k3") VNone].
Proof. reflexivity. Qed.

(** X10.  Once the listing by explicit index has its URL and key, every
    failure surfaces as an [HTTPException], and the status of a backend
    that answers with an error status is never passed on: no answer gives
    status 500 with the fixed message; an answer with a status from 400 to
    599 gives status 500, with the ["error"] of the body as detail when
    the body is a JSON object that has one; any other failure carries the
    status of the answer, which is then not an error status. *)
Theorem listing_by_index_error_is_500 (env : environment) (i : Z)
    (user : UserModel) (st : app_state) (url key : string) :
  let answer := http_request env "GET" (url +:+ "/models") (listing_headers key) VNone in
  let outcome := returned (get_models env (Some i) user st) in
  Py.index (OPENAI_API_BASE_URLS (config st)) i = Ok url →
  Py.index (OPENAI_API_KEYS (config st)) i = Ok key →
  (answer = None → outcome = Raise (HTTPException 500 ServerConnectionError))
  ∧ (∀ resp, answer = Some resp → 400 ≤ status resp < 600 →
       outcome = Raise (HTTPException 500
                          (requests_error_detail resp (ResponseError (status resp))))
       ∧ ∀ body v, json resp = Ok (VDict body) → body !! "error" = Some v →
                   outcome = Raise (HTTPException 500 (ExternalValue v)))
  ∧ (∀ e, outcome = Raise e →
       ∃ status_code detail,
         e = HTTPException status_code detail
         ∧ (status_code = 500
            ∨ ∃ resp, answer = Some resp ∧ status_code = status resp
                      ∧ ¬ 400 ≤ status resp < 600)).
Proof.
  intros answer outcome Hurl Hkey. subst outcome. unfold get_models.
  rewrite Hurl, Hkey. cbn [mbind result_bind returned].
  fold (listing_headers key). fold answer.
  assert (Hok : ∀ resp, requests_ok resp = false ↔ 400 ≤ status resp < 600).
  { intros resp. unfold requests_ok.
    destruct (Z.leb_spec 400 (status resp)), (Z.ltb_spec (status resp) 600);
      simpl; split; (done || lia). }
  split_and!.
  - by intros ->.
  - intros resp -> Hstatus. apply Hok in Hstatus.
    unfold try_except. rewrite Hstatus. cbn [mbind result_bind].
    split; [done|].
    intros body v Hjson Hv. rewrite Hjson. cbn [mbind result_bind Py.contains].
    rewrite bool_decide_eq_true_2 by (by eexists).
    cbn [Py.getitem]. by rewrite Hv.
  - intros e. destruct answer as [resp|] eqn:Hanswer.
    + unfold try_except.
      destruct (requests_ok resp) eqn:Hresp.
      * match goal with
        | |- context [match ?m with Ok a => Ok a | Raise x => _ end] => destruct m
        end; [done|].
        intros [= <-]. eexists _, _. split; [done|]. right. exists resp.
        split_and!; [done|done|]. intros Hs. apply Hok in Hs. congruence.
      * cbn [mbind result_bind]. intros [= <-]. eexists _, _. split; [done|by left].
    + intros [= <-]. eexists _, _. split; [done|by left].
Qed.
(** A backend that answers the listing with status 401. *)
Lemma listing_by_index_error_is_500_witness :
  (http_request refusing_env "GET" ("http://10.0.0.1/v1" +:+ "/models")
     (listing_headers "k") VNone = None →
   returned (get_models refusing_env (Some 0) alice flaky_state)
   = Raise (HTTPException 500 ServerConnectionError))
  ∧ (∀ resp,
       http_request refusing_env "GET" ("http://10.0.0.1/v1" +:+ "/models")
         (listing_headers "k") VNone = Some resp →
       400 ≤ status resp < 600 →
       returned (get_models refusing_env (Some 0) alice flaky_state)
       = Raise (HTTPException 500
                  (requests_error_detail resp (ResponseError (status resp))))
       ∧ ∀ body v, json resp = Ok (VDict body) → body !! "error" = Some v →
                   returned (get_models refusing_env (Some 0) alice flaky_state)
                   = Raise (HTTPException 500 (ExternalValue v)))
  ∧ (∀ e, returned (get_models refusing_env (Some 0) alice flaky_state) = Raise e →
       ∃ status_code detail,
         e = HTTPException status_code detail
         ∧ (status_code = 500
            ∨ ∃ resp,
                http_request refusing_env "GET" ("http://10.0.0.1/v1" +:+ "/models")
                  (listing_headers "k") VNone = Some resp
                ∧ status_code = status resp
                ∧ ¬ 400 ≤ status resp < 600)).
Proof.
  apply (listing_by_index_error_is_500 refusing_env 0 alice flaky_state
           "http://10.0.0.1/v1" "k").
  - reflexivity.
  - reflexivity.
Defined.

(** The status 401 of the backend reaches the caller as 500. *)
Example listing_by_index_unauthorized :
  returned (get_models refusing_env (Some 0) alice flaky_state)
  = Raise (HTTPException 500
             (ExternalValue (VDict {["message" := VStr "Incorrect API key"]}))).
Proof. vm_compute. reflexivity. Qed.

(** ** The switch *)

(** X11.  Posting a configuration form whose flag is absent or false
    switches the gateway off without clearing anything: the catalog stays
    as it was; every later pass, raw or not, sends nothing, returns the
    empty model object and leaves the state alone, and so the listing
    returns no model; a chat completion, which never looks at the switch,
    does exactly what it did before. *)
Theorem switched_off_keeps_stale_catalog
    (env : environment) (flag : option bool) (raw : bool) (user : UserModel)
    (form_data : gmap string value) (url_idx : option Z) (caller : option UserModel)
    (st : app_state) :
  let st' := state_after (update_config flag st) in
  flag ≠ Some true →
  returned (update_config flag st)
  = Ok (VDict {["ENABLE_OPENAI_API" := match flag with
                                        | Some b => VBool b
                                        | None => VNone
                                        end]})
  ∧ MODELS st' = MODELS st
  ∧ get_all_models env raw st'
    = {| returned := Ok (models_payload []); state_after := st'; trace := [] |}
  ∧ returned (get_models env None user st') = Ok (models_payload [])
  ∧ generate_chat_completion env form_data url_idx caller st'
    = generate_chat_completion env form_data url_idx caller st.
Proof.
  intros st' Hflag.
  assert (Hoff : not_configured (config st') = true).
  { unfold not_configured. cbn [st' update_config state_after set_ENABLE_OPENAI_API
                                config ENABLE_OPENAI_API].
    destruct flag as [[|]|]; [done| |]; by rewrite orb_true_r. }
  pose proof (pass_not_configured env false st' Hoff) as Hpass.
  split_and!; [done|done|by apply pass_not_configured| |done].
  unfold get_models. rewrite Hpass. cbn [returned state_after].
  destruct (ENABLE_MODEL_FILTER (config st') && (user_role user =? "user")%string);
    [|done].
  cbn [returned]. unfold models_payload. cbn [Py.getitem].
  rewrite lookup_singleton_eq. cbn. by rewrite insert_singleton_eq.
Qed.

(** A form without the flag, posted to a gateway with a catalog. *)
Lemma switched_off_keeps_stale_catalog_witness :
  returned (update_config None chat_state)
  = Ok (VDict {["ENABLE_OPENAI_API" := VNone]})
  ∧ MODELS (state_after (update_config None chat_state)) = MODELS chat_state
  ∧ get_all_models (chat_env None (Some completion)) false
      (state_after (update_config None chat_state))
    = {| returned := Ok (models_payload []);
         state_after := state_after (update_config None chat_state); trace := [] |}
  ∧ returned (get_models (chat_env None (Some completion)) None alice
                (state_after (update_config None chat_state)))
    = Ok (models_payload [])
  ∧ generate_chat_completion (chat_env None (Some completion)) full_request None
      (Some alice) (state_after (update_config None chat_state))
    = generate_chat_completion (chat_env None (Some completion)) full_request None
        (Some alice) chat_state.
Proof.
  apply (switched_off_keeps_stale_catalog (chat_env None (Some completion)) None false
           alice full_request None (Some alice) chat_state).
  discriminate.
Defined.

(** ** What routing does to the payload *)

Lemma prepare_steps (env : environment) (form_data : gmap string value)
    (user : option UserModel) (st : app_state) (url key : string)
    (sent : gmap string value) :
  prepare env form_data user st = Ok (url, key, sent) →
  ∃ p idx,
    normalize env (get_model_by_id env (Py.get form_data "model")) user form_data = Ok p
    ∧ route st user p = Ok (idx, sent)
    ∧ Py.index_value (OPENAI_API_BASE_URLS (config st)) idx = Ok url
    ∧ Py.index_value (OPENAI_API_KEYS (config st)) idx = Ok key.
Proof.
  unfold prepare. intros H.
  apply bind_Ok in H as (p & Hnorm & H).
  apply bind_Ok in H as ([idx p'] & Hroute & H).
  apply bind_Ok in H as (u & Hu & H).
  apply bind_Ok in H as (k & Hk & [= <- <- <-]).
  by exists p, idx.
Qed.

(** X12.  Between the override block and the request, the handler changes
    two fields of the payload and no other; the model the backend is asked
    for is the base model of the profile when it names one, the requested
    model otherwise.  When the catalog entry of the
    model has a truthy ["pipeline"], the field ["user"] is set to the name,
    id, email and role of the caller, over whatever the request held there.
    When the model looked up is [gpt-4-vision-preview] and the payload has
    no ["max_tokens"] key, that field is set to 4000; a key that is there,
    were it null, is left as it is.  The backend is the one the ["urlIdx"]
    of the entry names. *)
Theorem routing_sets_user_and_max_tokens (env : environment)
    (form_data : gmap string value) (user : option UserModel) (st : app_state)
    (url key : string) (sent : gmap string value) :
  prepare env form_data user st = Ok (url, key, sent) →
  ∃ p model idx,
    normalize env (get_model_by_id env (Py.get form_data "model")) user form_data = Ok p
    ∧ lookup_model (MODELS st) (Py.get p "model") = Ok (VDict model)
    ∧ model !! "urlIdx" = Some idx
    ∧ Py.index_value (OPENAI_API_BASE_URLS (config st)) idx = Ok url
    ∧ Py.index_value (OPENAI_API_KEYS (config st)) idx = Ok key
    ∧ (∀ k, k ∉ ["user"; "max_tokens"] → sent !! k = p !! k)
    ∧ (∀ model_id, form_data !! "model" = Some (VStr model_id) →
         sent !! "model"
         = Some (VStr (resolved_model_id
                         (get_model_by_id env (Py.get form_data "model")) model_id)))
    ∧ (if Py.truthy (Py.get model "pipeline")
       then ∃ u, user = Some u ∧ sent !! "user" = Some (envelope u)
       else sent !! "user" = p !! "user")
    ∧ sent !! "max_tokens"
      = match p !! "max_tokens" with
        | Some v => Some v
        | None => if eq_str (Py.get p "model") "gpt-4-vision-preview"
                  then Some (VInt 4000) else None
        end.
Proof.
  intros Hprep.
  destruct (prepare_steps _ _ _ _ _ _ _ Hprep) as (p & idx & Hnorm & Hroute & Hurl & Hkey).
  pose proof (λ k, route_frame st user p sent idx k Hroute) as Hframe.
  unfold route in Hroute.
  apply bind_Ok in Hroute as (model & Hmodel & H).
  apply bind_Ok in H as (i & Hi & H).
  destruct model as [| | | | | |d]; try done.
  cbn [Py.getitem] in Hi. destruct (d !! "urlIdx") as [x|] eqn:Hidx; [|done].
  injection Hi as ->.
  apply bind_Ok in H as (has & Hhas & H). cbn [Py.contains] in Hhas.
  injection Hhas as <-.
  apply bind_Ok in H as (pipeline & Hpipe & H).
  assert (Hp : pipeline = Py.get d "pipeline").
  { unfold Py.get. case_bool_decide as Hd.
    - destruct Hd as [v Hv]. cbn [Py.getitem] in Hpipe. rewrite Hv in *.
      by injection Hpipe as <-.
    - injection Hpipe as <-. destruct (d !! "pipeline"); [|done].
      exfalso. apply Hd. by eexists. }
  subst pipeline.
  apply bind_Ok in H as (p1 & H1 & [= <- <-]).
  exists p, d, i.
  split_and!; [done|done|done|done|done|done| | |].
  - intros model_id Hid. rewrite Hframe.
    + by apply (normalize_model env _ user form_data p model_id).
    + rewrite !elem_of_cons, elem_of_nil. by intros [?|[?|[]]].
  - destruct (Py.truthy (Py.get d "pipeline")).
    + apply bind_Ok in H1 as (u & Hu & [= <-]).
      destruct user as [who|]; [|done]. injection Hu as <-.
      exists who. split; [done|].
      destruct (eq_str _ _); [|by rewrite lookup_insert_eq].
      destruct (_ !! "max_tokens"); [by rewrite lookup_insert_eq|].
      by rewrite lookup_insert_ne, lookup_insert_eq.
    + injection H1 as <-.
      destruct (eq_str _ _); [|done].
      destruct (_ !! "max_tokens"); [done|]. by rewrite lookup_insert_ne.
  - assert (Hmodel1 : Py.get p1 "model" = Py.get p "model"
                      ∧ p1 !! "max_tokens" = p !! "max_tokens").
    { destruct (Py.truthy (Py.get d "pipeline")).
      - apply bind_Ok in H1 as (u & _ & [= <-]). unfold Py.get.
        by rewrite !lookup_insert_ne.
      - by injection H1 as <-. }
    destruct Hmodel1 as [-> Hmax]. rewrite <- Hmax.
    destruct (eq_str (Py.get p "model") "gpt-4-vision-preview").
    + destruct (p1 !! "max_tokens") as [v|] eqn:Hv; [done|].
      by rewrite lookup_insert_eq.
    + by destruct (p1 !! "max_tokens").
Qed.

(** A request for a model of the first backend, without a profile. *)
Lemma routing_sets_user_and_max_tokens_witness :
  ∃ p model idx,
    normalize (chat_env None (Some completion))
      (get_model_by_id (chat_env None (Some completion)) (Py.get full_request "model"))
      (Some alice) full_request = Ok p
    ∧ lookup_model (MODELS chat_state) (Py.get p "model") = Ok (VDict model)
    ∧ model !! "urlIdx" = Some idx
    ∧ Py.index_value (OPENAI_API_BASE_URLS (config chat_state)) idx = Ok "http://10.0.0.1/v1"
    ∧ Py.index_value (OPENAI_API_KEYS (config chat_state)) idx = Ok "k"
    ∧ (∀ k, k ∉ ["user"; "max_tokens"] → full_request !! k = p !! k)
    ∧ (∀ model_id, full_request !! "model" = Some (VStr model_id) →
         full_request !! "model"
         = Some (VStr (resolved_model_id
                         (get_model_by_id (chat_env None (Some completion))
                            (Py.get full_request "model")) model_id)))
    ∧ (if Py.truthy (Py.get model "pipeline")
       then ∃ u, Some alice = Some u ∧ full_request !! "user" = Some (envelope u)
       else full_request !! "user" = p !! "user")
    ∧ full_request !! "max_tokens"
      = match p !! "max_tokens" with
        | Some v => Some v
        | None => if eq_str (Py.get p "model") "gpt-4-vision-preview"
                  then Some (VInt 4000) else None
        end.
Proof.
  apply (routing_sets_user_and_max_tokens (chat_env None (Some completion)) full_request
           (Some alice) chat_state "http://10.0.0.1/v1" "k" full_request).
  vm_compute. reflexivity.
Defined.

(** A pipeline model that is the vision model: the caller's envelope
    replaces the ["user"] of the request and [max_tokens] is set. *)
Example vision_pipeline_payload :
  (λ sent, (snd sent !! "user", snd sent !! "max_tokens"))
    <$> prepare vision_env vision_request (Some alice) vision_state
  = Ok (Some (envelope alice), Some (VInt 4000)).
Proof. vm_compute. reflexivity. Qed.

(** ** Aliases of the static entries *)

Lemma static_entry_urlIdx (t1 t2 : Z) (e : value) (mid : string) :
  e ∈ moonshot_models t1 ++ qianfan_models t2 →
  entry_id e = Some mid →
  ∃ t, e = static_model t mid
             (bool_decide (mid = "moonshot-v1-8k" ∨ mid = "ERNIE-4.0-8K")).
Proof.
  unfold moonshot_models, qianfan_models. cbn [app].
  rewrite !elem_of_cons, elem_of_nil.
  intros Hin Hid.
  repeat (destruct Hin as [->|Hin];
          [rewrite entry_id_static_model in Hid; injection Hid as <-;
           eexists; reflexivity|]).
  done.
Qed.

Lemma refresh_static_entry (env : environment) (st : app_state) (mid : string) :
  not_configured (config st) = false →
  is_Ok (returned (get_all_models env false st)) = true →
  mid ∈ static_ids →
  ∃ t, MODELS (state_after (get_all_models env false st)) !! mid
       = Some (static_model t mid
                 (bool_decide (mid = "moonshot-v1-8k" ∨ mid = "ERNIE-4.0-8K"))).
Proof.
  intros Hconf Hok Hin.
  destruct (returned (get_all_models env false st)) as [v|] eqn:Hret; [|done].
  destruct (refresh_returns env st v Hconf Hret) as (merged & _ & _ & _ & Hlook).
  rewrite Hlook, last_with_id_app.
  apply (last_with_id_static (clock env 0) (clock env 1)) in Hin as [e He].
  rewrite He. apply last_with_id_Some in He as [Hin Hid].
  destruct (static_entry_urlIdx _ _ _ _ Hin Hid) as [t ->]. by exists t.
Qed.

(** X13.  Ten of the twelve static entries of the catalog carry no
    ["urlIdx"].  Their ids have a reserved prefix, so a request that names
    one of them goes to an adapter; but a request for another model whose
    profile names one of them as its base model gets past the adapters,
    finds the static entry in the catalog, and ends in the [KeyError] of
    [model["urlIdx"]], with nothing sent.  This holds after any refresh
    that returned, whatever the backends listed. *)
Theorem alias_of_static_entry_is_unroutable (env env0 : environment)
    (form_data : gmap string value) (url_idx : option Z) (user : option UserModel)
    (st0 : app_state) (model_id mid : string) (p : gmap string value) :
  let st := state_after (get_all_models env0 false st0) in
  let info := get_model_by_id env (VStr model_id) in
  not_configured (config st0) = false →
  is_Ok (returned (get_all_models env0 false st0)) = true →
  form_data !! "model" = Some (VStr model_id) →
  reserved_adapter model_id = None →
  normalize env info user form_data = Ok p →
  resolved_model_id info model_id = mid →
  mid ∈ static_ids → mid ≠ "moonshot-v1-8k" → mid ≠ "ERNIE-4.0-8K" →
  generate_chat_completion env form_data url_idx user st
  = (Raise (KeyError (VStr "urlIdx")), []).
Proof.
  intros st info Hconf Hok Hmodel Hreserved Hnorm Hres Hin Hm He.
  destruct (refresh_static_entry env0 st0 mid Hconf Hok Hin) as [t Hentry].
  fold st in Hentry.
  rewrite bool_decide_eq_false_2 in Hentry by (by intros [?|?]).
  unfold generate_chat_completion. rewrite (get_Some _ _ _ Hmodel), Hreserved.
  unfold prepare. rewrite (get_Some _ _ _ Hmodel). fold info.
  rewrite Hnorm. cbn [mbind result_bind]. unfold route.
  rewrite (get_Some _ _ _ (normalize_model env info user form_data p model_id Hmodel Hnorm)).
  rewrite Hres. cbn [lookup_model]. rewrite Hentry. cbn [mbind result_bind].
  unfold static_model. cbn [Py.getitem].
  by rewrite !lookup_insert_ne, lookup_empty.
Qed.
(** A profile that names [moonshot-v1-32k] as the base of another model. *)
Lemma alias_of_static_entry_is_unroutable_witness :
  generate_chat_completion (chat_env (Some alias_profile) (Some completion))
    (<["model" := VStr "my-assistant"]> full_request) None (Some alice)
    (state_after (get_all_models flaky_env false flaky_state))
  = (Raise (KeyError (VStr "urlIdx")), []).
Proof.
  apply (alias_of_static_entry_is_unroutable
           (chat_env (Some alias_profile) (Some completion)) flaky_env
           (<["model" := VStr "my-assistant"]> full_request) None (Some alice)
           flaky_state "my-assistant" "moonshot-v1-32k"
           (<["model" := VStr "moonshot-v1-32k"]>
              (<["model" := VStr "my-assistant"]> full_request))).
  - reflexivity.
  - vm_compute. reflexivity.
  - reflexivity.
  - reflexivity.
  - vm_compute. reflexivity.
  - reflexivity.
  - repeat constructor.
  - discriminate.
  - discriminate.
Defined.

(** ** Sessions and responses are released on every path *)

Lemma count_app (p : event → bool) (a b : list event) :
  count p (a ++ b) = (count p a + count p b)%nat.
Proof. unfold count. by rewrite List.filter_app, length_app. Qed.

Lemma count_relay (p : event → bool) (body : list string) :
  (∀ c, p (ChunkRead c) = false) → (∀ c, p (ChunkSent c) = false) →
  count p (flat_map (λ c, [ChunkRead c; ChunkSent c]) body) = 0%nat.
Proof.
  intros Hr Hs. unfold count. induction body as [|c body IH]; [done|].
  cbn [flat_map app List.filter]. by rewrite Hr, Hs.
Qed.

Lemma balanced_nil : balanced [].
Proof. unfold balanced, count. simpl. split_and!; (done || lia || by left). Qed.

Lemma balanced_relay (req : event) (code : Z) (hdrs : gmap string string)
    (body : list string) :
  is_session_open req = false → is_session_close req = false →
  is_response_close req = false →
  balanced ([SessionOpen; req]
            ++ ResponseStart code hdrs
               :: flat_map (λ c, [ChunkRead c; ChunkSent c]) body
               ++ [ResponseClose; SessionClose]).
Proof.
  intros Ho Hc Hr. unfold balanced.
  change ([SessionOpen; req] ++ ResponseStart code hdrs :: ?x)
    with ([SessionOpen; req; ResponseStart code hdrs] ++ x).
  rewrite !count_app, !count_relay by done.
  unfold count. cbn [List.filter is_session_open is_session_close is_response_close].
  rewrite Ho, Hc, Hr. cbn [length].
  split_and!; [done|lia|lia|right].
  change [ResponseClose; SessionClose] with ([ResponseClose] ++ [SessionClose]).
  by rewrite !app_assoc, last_snoc.
Qed.

Lemma balanced_buffered (req : event) (reads : list event) (closes : list event) :
  is_session_open req = false → is_session_close req = false →
  is_response_close req = false →
  Forall (λ e, e = ReadJSON) reads →
  closes = [SessionClose] ∨ closes = [ResponseClose; SessionClose] →
  balanced ([SessionOpen; req] ++ reads ++ closes).
Proof.
  intros Ho Hc Hr Hreads Hcloses. unfold balanced.
  assert (Hnone : ∀ p, p ReadJSON = false → count p reads = 0%nat).
  { intros p Hp. unfold count. induction Hreads as [|e reads -> _ IH]; [done|].
    cbn [List.filter]. by rewrite Hp. }
  rewrite !count_app, !Hnone by done.
  unfold count. cbn [List.filter is_session_open is_session_close is_response_close].
  rewrite Ho, Hc, Hr.
  destruct Hcloses as [-> | ->]; cbn [List.filter is_session_open is_session_close
                                       is_response_close length];
    (split_and!; [done|lia|lia|right]).
  - by rewrite !app_assoc, last_snoc.
  - change [ResponseClose; SessionClose] with ([ResponseClose] ++ [SessionClose]).
    by rewrite !app_assoc, last_snoc.
Qed.

Lemma unreleased_relay (req : event) (code : Z) (hdrs : gmap string string)
    (body : list string) :
  is_session_open req = false → is_session_close req = false →
  is_response_close req = false →
  unreleased ([SessionOpen; req]
              ++ ResponseStart code hdrs
                 :: flat_map (λ c, [ChunkRead c; ChunkSent c]) body).
Proof.
  intros Ho Hc Hr. unfold unreleased.
  change ([SessionOpen; req] ++ ResponseStart code hdrs :: ?x)
    with ([SessionOpen; req; ResponseStart code hdrs] ++ x).
  rewrite !count_app, !count_relay by done.
  unfold count. cbn [List.filter is_session_open is_session_close is_response_close].
  by rewrite Ho, Hc, Hr.
Qed.

(** A relay, however its serving ends. *)
Lemma relay_released (req : event) (resp : http_response) (how : relay_end) :
  let handled :=
    (Ok (StreamingResponse (content resp) (status resp) (headers_dict (headers resp))
           (Some resp, Some client_session)),
     [SessionOpen; req]) in
  is_session_open req = false → is_session_close req = false →
  is_response_close req = false →
  if relay_cut_short handled how then unreleased (whole_trace handled how)
  else balanced (whole_trace handled how).
Proof.
  intros handled Ho Hc Hr. subst handled.
  unfold relay_cut_short, whole_trace. cbn [fst snd serve cleanup_response].
  destruct how as [|n e|n []]; cbn [background_runs_after negb forwarded app];
    rewrite ?app_nil_r.
  - by apply balanced_relay.
  - by apply unreleased_relay.
  - by apply balanced_relay.
  - by apply unreleased_relay.
Qed.

(** A handler that returned no relay: serving its result does nothing. *)
Lemma buffered_released (outcome : result response) (t : list event)
    (how : relay_end) :
  (∀ body code hdrs bg, outcome ≠ Ok (StreamingResponse body code hdrs bg)) →
  (∀ a p, outcome ≠ Ok (AdapterStream a p)) →
  balanced t →
  if relay_cut_short (outcome, t) how then unreleased (whole_trace (outcome, t) how)
  else balanced (whole_trace (outcome, t) how).
Proof.
  intros Hrelay Hadapter Ht. unfold relay_cut_short, whole_trace. cbn [fst snd].
  destruct outcome as [[v|body code hdrs bg|a p]|e].
  - cbn [serve]. by rewrite app_nil_r.
  - by destruct (Hrelay body code hdrs bg).
  - by destruct (Hadapter a p).
  - by rewrite app_nil_r.
Qed.

Lemma raised_released (e : exn) (t : list event) (how : relay_end) :
  balanced t →
  if relay_cut_short (Raise e, t) how then unreleased (whole_trace (Raise e, t) how)
  else balanced (whole_trace (Raise e, t) how).
Proof. by apply buffered_released. Qed.

Lemma forward_released (env : environment) (url key : string)
    (payload : gmap string value) (how : relay_end) :
  let handled := forward env url key payload in
  if relay_cut_short handled how then unreleased (whole_trace handled how)
  else balanced (whole_trace handled how).
Proof.
  cbn zeta. unfold forward, try_block.
  destruct (session_opens env); [|apply raised_released, balanced_nil].
  destruct (http_request env _ _ _ _) as [resp|].
  - destruct (400 <=? status resp) eqn:Hstatus.
    + unfold except_clause, json_after_status_check. cbn [r]. rewrite Hstatus.
      apply raised_released. cbn. rewrite ?app_nil_r.
      by apply (balanced_buffered _ [ReadJSON] [ResponseClose; SessionClose]);
        [..|repeat constructor|right].
    + destruct (is_event_stream resp).
      * cbn [finally_clause streaming negb andb]. rewrite app_nil_r.
        by apply relay_released.
      * destruct (json resp) as [v|e] eqn:Hjson.
        -- apply buffered_released; [done|done|]. cbn. rewrite ?app_nil_r.
           by apply (balanced_buffered _ [ReadJSON] [ResponseClose; SessionClose]);
             [..|repeat constructor|right].
        -- cbn [fmap result_fmap]. unfold except_clause. cbn [r].
           apply raised_released. cbn. rewrite ?app_nil_r.
           by apply (balanced_buffered _ [ReadJSON; ReadJSON]
                       [ResponseClose; SessionClose]);
             [..|repeat constructor|right].
  - apply raised_released. cbn. rewrite ?app_nil_r.
    by apply (balanced_buffered _ [] [SessionClose]); [..|constructor|left].
Qed.

Lemma proxy_released (env : environment) (path method body : string)
    (st : app_state) (how : relay_end) :
  let handled := proxy env path method body st in
  if relay_cut_short handled how then unreleased (whole_trace handled how)
  else balanced (whole_trace handled how).
Proof.
  cbn zeta. unfold proxy.
  destruct (_ ≫= _) as [[url key]|e]; [|apply raised_released, balanced_nil].
  unfold proxy_try_block.
  destruct (session_opens env); [|apply raised_released, balanced_nil].
  destruct (http_request env _ _ _ _) as [resp|].
  - destruct (400 <=? status resp) eqn:Hstatus.
    + unfold except_clause, json_after_status_check. cbn [r]. rewrite Hstatus.
      apply raised_released. cbn. rewrite ?app_nil_r.
      by apply (balanced_buffered _ [ReadJSON] [ResponseClose; SessionClose]);
        [..|repeat constructor|right].
    + destruct (is_event_stream resp).
      * cbn [finally_clause streaming negb andb]. rewrite app_nil_r.
        by apply relay_released.
      * destruct (json resp) as [v|e] eqn:Hjson.
        -- apply buffered_released; [done|done|]. cbn. rewrite ?app_nil_r.
           by apply (balanced_buffered _ [ReadJSON] [ResponseClose; SessionClose]);
             [..|repeat constructor|right].
        -- cbn [fmap result_fmap]. unfold except_clause. cbn [r].
           apply raised_released. cbn. rewrite ?app_nil_r.
           by apply (balanced_buffered _ [ReadJSON; ReadJSON]
                       [ResponseClose; SessionClose]);
             [..|repeat constructor|right].
  - apply raised_released. cbn. rewrite ?app_nil_r.
    by apply (balanced_buffered _ [] [SessionClose]); [..|constructor|left].
Qed.

(** X14.  On every path of a chat completion and of the catch-all proxy,
    whatever the request, the state and the backend do, and however the
    serving of the result ends.  When the handler raises or returns a
    decoded body, and when it returns a relay whose serving runs the
    cleanup task (the relay completes), what the handler opened is
    released: over the handler and the serving together, the session is
    opened at most once and closed exactly as often as it was opened, the
    response is closed at most once and only when a session was opened, and
    if anything happened at all the closing of the session is the last
    thing that happens.  When the handler returns a relay and the cleanup
    task is not run (the body breaks off during the relay), one session
    was opened and neither it nor the response is closed.  (A request that
    is handed to an adapter opens nothing in the handler itself.) *)
Theorem handlers_release_what_they_open (env : environment)
    (form_data : gmap string value) (url_idx : option Z) (user : option UserModel)
    (path method body : string) (st : app_state) (how : relay_end) :
  let chat := generate_chat_completion env form_data url_idx user st in
  let through := proxy env path method body st in
  (if relay_cut_short chat how then unreleased (whole_trace chat how)
   else balanced (whole_trace chat how))
  ∧ (if relay_cut_short through how then unreleased (whole_trace through how)
     else balanced (whole_trace through how))
  ∧ (background_runs_after how = true →
     balanced (whole_trace chat how) ∧ balanced (whole_trace through how))
  ∧ (∀ n e, how = BodyRaises n e →
     (relay_cut_short chat how = true
      ↔ ∃ relay_body code hdrs bg,
          fst chat = Ok (StreamingResponse relay_body code hdrs bg))
     ∧ (relay_cut_short through how = true
        ↔ ∃ relay_body code hdrs bg,
            fst through = Ok (StreamingResponse relay_body code hdrs bg))).
Proof.
  intros chat through.
  assert (Hchat : if relay_cut_short chat how then unreleased (whole_trace chat how)
                  else balanced (whole_trace chat how)).
  { subst chat. unfold generate_chat_completion.
    destruct (Py.get form_data "model"); try apply raised_released, balanced_nil.
    destruct (reserved_adapter s); [apply balanced_nil|].
    destruct (prepare env form_data user st) as [[[url key] payload]|e];
      [apply forward_released|apply raised_released, balanced_nil]. }
  pose proof (proxy_released env path method body st how) as Hthrough.
  cbn zeta in Hthrough. fold through in Hthrough.
  assert (Hcut : ∀ handled : result response * list event,
             background_runs_after how = true → relay_cut_short handled how = false).
  { intros handled Hruns. unfold relay_cut_short. rewrite Hruns.
    by destruct (fst handled) as [[| |]|]. }
  assert (Hrelay : ∀ (handled : result response * list event) n e,
             how = BodyRaises n e →
             relay_cut_short handled how = true
             ↔ ∃ relay_body code hdrs bg,
                 fst handled = Ok (StreamingResponse relay_body code hdrs bg)).
  { intros handled n e ->. unfold relay_cut_short.
    destruct (fst handled) as [[v|relay_body code hdrs bg|a p]|e'];
      cbn [background_runs_after negb]; split; try done;
      try (by intros (? & ? & ? & ? & ?)).
    intros _. by eexists _, _, _, _. }
  split_and!; [done|done| |].
  - intros Hruns. rewrite (Hcut chat Hruns) in Hchat.
    by rewrite (Hcut through Hruns) in Hthrough.
  - intros n e Hhow. split; by apply (Hrelay _ n e).
Qed.

(** A relay whose backend breaks off after the first chunk: the session
    that the handler opened stays open. *)
Example broken_relay_unreleased :
  relay_cut_short
    (generate_chat_completion (chat_env None (Some event_stream)) full_request None
       (Some alice) chat_state) (BodyRaises 1 ClientError) = true
  ∧ whole_trace
      (generate_chat_completion (chat_env None (Some event_stream)) full_request None
         (Some alice) chat_state) (BodyRaises 1 ClientError)
    = [ SessionOpen;
        Request "POST" "http://10.0.0.1/v1/chat/completions" (chat_headers "k")
          (VDict full_request);
        ResponseStart 200 (headers_dict (headers event_stream));
        ChunkRead "data: {}"; ChunkSent "data: {}" ].
Proof. split; vm_compute; reflexivity. Qed.

(** ** The detail of a backend error *)

(** The [except] clause when the body of the response does not decode. *)
Lemma except_clause_not_decoded (resp : http_response)
    (session : option ClientSession) (streaming : bool) (cause e : exn) :
  json resp = Raise cause →
  except_clause {| r := Some resp; session := session; streaming := streaming |} e
  = ([ReadJSON], HTTPException (status resp) (ExternalException e)).
Proof.
  intros Hjson. unfold except_clause, json_after_status_check. cbn [r].
  destruct (400 <=? status resp); [done|]. by rewrite Hjson.
Qed.

(** What a chat completion raises once the backend has answered. *)
Lemma forward_raised (env : environment) (url key : string)
    (payload : gmap string value) (resp : http_response) (e : exn) :
  session_opens env = true →
  http_request env "POST" (url +:+ "/chat/completions") (chat_headers key) (VDict payload)
  = Some resp →
  fst (forward env url key payload) = Raise e →
  ∃ cause,
    e = HTTPException (status resp) (ExternalException cause)
    ∧ (status resp < 400 → is_event_stream resp = false ∧ json resp = Raise cause).
Proof.
  intros Hopen Hresp. unfold forward, try_block. rewrite Hopen, Hresp.
  destruct (Z.leb_spec 400 (status resp)) as [Hhigh|Hlow].
  - rewrite except_clause_error_status by done. cbn [fst].
    intros [= <-]. eexists. split; [done|lia].
  - destruct (is_event_stream resp); [done|].
    destruct (json resp) as [v|cause] eqn:Hjson; [done|].
    cbn [fmap result_fmap]. rewrite (except_clause_not_decoded _ _ _ cause) by done.
    cbn [fst]. intros [= <-]. by exists cause.
Qed.

(** X15.  A chat completion that gets as far as the request to the backend
    raises nothing but an [HTTPException], and its detail never holds the
    body of the backend's answer.  Without an answer (the session or the
    request fails) the status is 500 and the detail the fixed message of a
    connection error.  With an answer of status 400 or more, the handler
    raises with that status and the exception of [raise_for_status] as
    detail, whatever the body holds: [raise_for_status] releases the
    response, so the [r.json()] of the [except] clause raises and the
    ["error"] of the body is not read.  With an answer of a lower status,
    the handler raises only when the body does not decode, with that status
    and the decoding error as detail. *)
Theorem backend_error_detail (env : environment)
    (form_data : gmap string value) (url_idx : option Z)
    (user : option UserModel) (st : app_state)
    (model_id url key : string) (payload : gmap string value) :
  let answer :=
    if session_opens env
    then http_request env "POST" (url +:+ "/chat/completions") (chat_headers key)
           (VDict payload)
    else None in
  let outcome := fst (generate_chat_completion env form_data url_idx user st) in
  form_data !! "model" = Some (VStr model_id) →
  reserved_adapter model_id = None →
  prepare env form_data user st = Ok (url, key, payload) →
  match answer with
  | None => outcome = Raise (HTTPException 500 ServerConnectionError)
  | Some resp =>
      (400 ≤ status resp →
       outcome = Raise (HTTPException (status resp)
                          (ExternalException (ResponseError (status resp)))))
      ∧ (∀ e, outcome = Raise e →
           ∃ cause,
             e = HTTPException (status resp) (ExternalException cause)
             ∧ (status resp < 400 →
                is_event_stream resp = false ∧ json resp = Raise cause))
      ∧ (∀ status_code v, outcome ≠ Raise (HTTPException status_code (ExternalValue v)))
  end.
Proof.
  intros answer outcome Hmodel Hreserved Hprep. subst outcome answer.
  rewrite (generate_chat_completion_forward env form_data url_idx user st
             model_id url key payload Hmodel Hreserved Hprep).
  destruct (session_opens env) eqn:Hopen;
    [|unfold forward, try_block; by rewrite Hopen].
  destruct (http_request env _ _ _ _) as [resp|] eqn:Hresp;
    [|unfold forward, try_block; by rewrite Hopen, Hresp].
  split_and!.
  - intros Hstatus. unfold forward, try_block. rewrite Hopen, Hresp.
    destruct (Z.leb_spec 400 (status resp)) as [_|?]; [|lia].
    by rewrite except_clause_error_status.
  - intros e. by apply forward_raised.
  - intros status_code v Hv.
    by destruct (forward_raised env url key payload resp _ Hopen Hresp Hv)
      as (cause & [=] & _).
Qed.

(** A backend that refuses the key of a chat completion. *)
Lemma backend_error_detail_witness :
  (400 ≤ status unauthorized →
   fst (generate_chat_completion (chat_env None (Some unauthorized)) full_request None
          (Some alice) chat_state)
   = Raise (HTTPException (status unauthorized)
              (ExternalException (ResponseError (status unauthorized)))))
  ∧ (∀ e,
       fst (generate_chat_completion (chat_env None (Some unauthorized)) full_request
              None (Some alice) chat_state) = Raise e →
       ∃ cause,
         e = HTTPException (status unauthorized) (ExternalException cause)
         ∧ (status unauthorized < 400 →
            is_event_stream unauthorized = false ∧ json unauthorized = Raise cause))
  ∧ (∀ status_code v,
       fst (generate_chat_completion (chat_env None (Some unauthorized)) full_request
              None (Some alice) chat_state)
       ≠ Raise (HTTPException status_code (ExternalValue v))).
Proof.
  apply (backend_error_detail (chat_env None (Some unauthorized)) full_request None
           (Some alice) chat_state "mistral" "http://10.0.0.1/v1" "k" full_request).
  - reflexivity.
  - reflexivity.
  - vm_compute. reflexivity.
Defined.

(** The message of the backend, ["Incorrect API key"], does not reach the
    caller; the status 401 does. *)
Example unauthorized_chat_completion :
  json unauthorized
  = Ok (VDict {["error" := VDict {["message" := VStr "Incorrect API key"]}]})
  ∧ fst (generate_chat_completion (chat_env None (Some unauthorized)) full_request None
           (Some alice) chat_state)
    = Raise (HTTPException 401 (ExternalException (ResponseError 401))).
Proof. split; vm_compute; reflexivity. Qed.

(** A backend that does not answer. *)
Example unanswered_chat_completion :
  generate_chat_completion (chat_env None None) full_request None (Some alice) chat_state
  = (Raise (HTTPException 500 ServerConnectionError),
     [ SessionOpen;
       Request "POST" "http://10.0.0.1/v1/chat/completions" (chat_headers "k")
         (VDict full_request);
       SessionClose ]).
Proof. vm_compute. reflexivity. Qed.

(** ** The catch-all proxy *)

Lemma index_raises {A} (l : list A) (i : Z) (e : exn) :
  Py.index l i = Raise e → e = IndexError.
Proof.
  unfold Py.index. destruct (_ || _); [by intros [= <-]|].
  destruct (l !! _); [done|by intros [= <-]].
Qed.

(** X16.  The proxy sends every request to the first backend with the
    first key, whatever the path: with an empty URL list or an empty key
    list it ends in the [IndexError] of the lookup before anything is
    opened.  Otherwise it asks [url/path] with the method and the body of
    the caller and, as a chat completion does, relays an answer that is an
    event stream with a status below 400 without reading it (the chunks in
    order when the relay completes, the first of them in order however it
    ends), returns the decoded body of any other answer with such a
    status, and turns an answer with a status of 400 or more into an
    [HTTPException] with that status and the exception of
    [raise_for_status] as detail, after which it has released the response
    and the session. *)
Theorem proxy_first_backend (env : environment) (path method body : string)
    (st : app_state) :
  (OPENAI_API_BASE_URLS (config st) = [] ∨ OPENAI_API_KEYS (config st) = [] →
   proxy env path method body st = (Raise IndexError, []))
  ∧ (∀ url urls key keys resp,
       OPENAI_API_BASE_URLS (config st) = url :: urls →
       OPENAI_API_KEYS (config st) = key :: keys →
       session_opens env = true →
       http_request env method (url +:+ "/" +:+ path) (chat_headers key) (VStr body)
       = Some resp →
       let sent := [SessionOpen;
                    Request method (url +:+ "/" +:+ path) (chat_headers key) (VStr body)] in
       let relay := StreamingResponse (content resp) (status resp)
                      (headers_dict (headers resp)) (Some resp, Some client_session) in
       let handled := proxy env path method body st in
       (status resp < 400 → is_event_stream resp = true →
          handled = (Ok relay, sent)
          ∧ chunks_sent (serve relay Completed) = content resp
          ∧ ∀ how, chunks_sent (serve relay how) `prefix_of` content resp)
       ∧ (status resp < 400 → is_event_stream resp = false →
          ∀ v, json resp = Ok v →
               handled = (Ok (JSONResponse v),
                          sent ++ [ReadJSON; ResponseClose; SessionClose]))
       ∧ (400 ≤ status resp →
          handled = (Raise (HTTPException (status resp)
                              (ExternalException (ResponseError (status resp)))),
                     sent ++ [ReadJSON; ResponseClose; SessionClose]))).
Proof.
  split.
  - intros [H|H]; unfold proxy; rewrite H; [done|].
    destruct (Py.index (OPENAI_API_BASE_URLS (config st)) 0) as [url|e] eqn:Hurl; [done|].
    by rewrite (index_raises _ _ _ Hurl).
  - intros url urls key keys resp Hurls Hkeys Hopen Hresp sent relay handled.
    subst handled. unfold proxy. rewrite Hurls, Hkeys.
    assert (Hu : Py.index (url :: urls) 0 = Ok url) by apply (index_lookup _ 0%nat), eq_refl.
    assert (Hk : Py.index (key :: keys) 0 = Ok key) by apply (index_lookup _ 0%nat), eq_refl.
    rewrite Hu, Hk. cbn [mbind result_bind].
    unfold proxy_try_block. rewrite Hopen, Hresp.
    split_and!.
    + intros Hstatus Hstream.
      destruct (Z.leb_spec 400 (status resp)) as [?|_]; [lia|].
      rewrite Hstream. cbn [finally_clause streaming negb andb].
      split_and!; [by rewrite app_nil_r| |].
      * exact (proj1 (proj2 (serve_relay resp Completed))).
      * intros how. subst relay.
        destruct (serve_relay resp how) as (_ & Hsent & Hprefix).
        by rewrite Hsent.
    + intros Hstatus Hstream v Hjson.
      destruct (Z.leb_spec 400 (status resp)) as [?|_]; [lia|].
      rewrite Hstream, Hjson. cbn. done.
    + intros Hstatus.
      destruct (Z.leb_spec 400 (status resp)) as [_|?]; [|lia].
      by rewrite except_clause_error_status.
Qed.

(** ** Text to speech *)

Lemma index_of_Ok (x : string) (l : list string) (n : nat) :
  index_of x l = Ok n → l !! n = Some x.
Proof.
  revert n. induction l as [|y l IH]; intros n; [done|].
  cbn [index_of]. destruct (String.eqb_spec y x) as [->|_].
  - by intros [= <-].
  - intros H. apply fmap_Ok in H as (m & Hm & ->). by apply IH.
Qed.

Lemma index_of_Raise (x : string) (l : list string) (e : exn) :
  index_of x l = Raise e → e = ValueError ∧ x ∉ l.
Proof.
  induction l as [|y l IH]; cbn [index_of].
  - intros [= <-]. split; [done|]. apply not_elem_of_nil.
  - destruct (String.eqb_spec y x) as [->|Hne]; [done|].
    destruct (index_of x l) as [n|e'] eqn:Hl; [done|].
    intros [= <-]. destruct (IH eq_refl) as [-> Hnot]. split; [done|].
    apply not_elem_of_cons. split; [congruence|done].
Qed.

Lemma index_of_elem (x : string) (l : list string) :
  x ∈ l → ∃ n, index_of x l = Ok n.
Proof.
  intros Hin. destruct (index_of x l) as [n|e] eqn:H; [by exists n|].
  by apply index_of_Raise in H as [_ ?].
Qed.

Lemma speech_request_raises (env : environment) (json_loads : string → result value)
    (name url key body : string) (cache cache' : speech_cache)
    (did : list event) (e : exn) :
  speech_request env json_loads name url key body cache = (Raise e, cache', did) →
  ∃ status_code detail, e = HTTPException status_code detail.
Proof.
  unfold speech_request.
  destruct (http_request env _ _ _ _) as [resp|]; [|intros [= <- _ _]; by eexists _, _].
  destruct (requests_ok resp); [|intros [= <- _ _]; by eexists _, _].
  destruct (json_loads body); [done|intros [= <- _ _]; by eexists _, _].
Qed.

(** X17.  The speech handler answers with status 401 and the message that
    OpenAI was not found exactly when no element of the URL list equals
    [https://api.openai.com/v1]; it has then sent nothing and written
    nothing.  The test is equality with that text: a URL that merely holds
    [api.openai.com], which the aggregation treats as OpenAI, does not
    count. *)
Theorem speech_not_found_iff (env : environment)
    (sha256_hexdigest : string → string) (json_loads : string → result value)
    (body : string) (st : app_state) (cache : speech_cache) :
  let handled := speech env sha256_hexdigest json_loads body st cache in
  (handled.1.1 = OpenAINotFound ↔ OPENAI_URL ∉ OPENAI_API_BASE_URLS (config st))
  ∧ (handled.1.1 = OpenAINotFound → handled = (OpenAINotFound, cache, []))
  ∧ is_openai_url (OPENAI_URL +:+ "/") = true
  ∧ OPENAI_URL +:+ "/" ≠ OPENAI_URL.
Proof.
  intros handled. subst handled. unfold speech, speech_body.
  destruct (index_of OPENAI_URL (OPENAI_API_BASE_URLS (config st))) as [idx|e] eqn:Hidx.
  - assert (Hin : OPENAI_URL ∈ OPENAI_API_BASE_URLS (config st)).
    { apply index_of_Ok in Hidx. by eapply list_elem_of_lookup_2. }
    assert (Hnot : ∀ x : speech_outcome * speech_cache * list event,
              x.1.1 ≠ OpenAINotFound →
              (x.1.1 = OpenAINotFound ↔ OPENAI_URL ∉ OPENAI_API_BASE_URLS (config st))
              ∧ (x.1.1 = OpenAINotFound → x = (OpenAINotFound, cache, []))
              ∧ is_openai_url (OPENAI_URL +:+ "/") = true
              ∧ OPENAI_URL +:+ "/" ≠ OPENAI_URL).
    { intros x Hx. split_and!; [split; [done|by intros ?]|done|done|done]. }
    case_bool_decide; [by apply Hnot|].
    destruct (_ ≫= _) as [[key url]|e] eqn:Hlook.
    + destruct (speech_request _ _ _ _ _ _ _) as [[[name|e] cache'] did] eqn:Hreq;
        [by apply Hnot|].
      apply speech_request_raises in Hreq as (c & dt & ->). by apply Hnot.
    + apply Hnot. cbn.
      assert (e = IndexError) as ->; [|done].
      destruct (Py.index (OPENAI_API_KEYS (config st)) (Z.of_nat idx)) as [k|e'] eqn:Hk.
      * cbn in Hlook.
        destruct (Py.index (OPENAI_API_BASE_URLS (config st)) (Z.of_nat idx)) eqn:Hu;
          [done|]. injection Hlook as <-. by eapply index_raises.
      * injection Hlook as <-. by eapply index_raises.
  - apply index_of_Raise in Hidx as [-> Hnot].
    split_and!; [done|done|done|done].
Qed.
Lemma speech_cached (env : environment)
    (sha256_hexdigest : string → string) (json_loads : string → result value)
    (body : string) (st : app_state) (cache : speech_cache) :
  OPENAI_URL ∈ OPENAI_API_BASE_URLS (config st) →
  is_Some (audio_files cache !! sha256_hexdigest body) →
  speech env sha256_hexdigest json_loads body st cache
  = (FileResponse (sha256_hexdigest body), cache, []).
Proof.
  intros Hin Hfile. unfold speech, speech_body.
  destruct (index_of_elem _ _ Hin) as [idx ->].
  by rewrite bool_decide_eq_true_2.
Qed.

Lemma speech_canonical (env : environment)
    (sha256_hexdigest : string → string) (json_loads : string → result value)
    (body : string) (st : app_state) (cache : speech_cache) (idx : nat) (key : string) :
  index_of OPENAI_URL (OPENAI_API_BASE_URLS (config st)) = Ok idx →
  audio_files cache !! sha256_hexdigest body = None →
  OPENAI_API_KEYS (config st) !! idx = Some key →
  speech_body env sha256_hexdigest json_loads body st cache
  = speech_request env json_loads (sha256_hexdigest body) OPENAI_URL key body cache.
Proof.
  intros Hidx Hfile Hkey. unfold speech_body. rewrite Hidx.
  rewrite bool_decide_eq_false_2 by (rewrite Hfile; by intros [? ?]).
  by rewrite (index_lookup _ _ _ Hkey), (index_lookup _ _ _ (index_of_Ok _ _ _ Hidx)).
Qed.

Lemma openai_in_three_urls : OPENAI_URL ∈ three_urls.
Proof. unfold three_urls. rewrite !elem_of_cons. right. by left. Qed.

(** X18.  A speech request that ends in a file has stored the audio under
    the digest of its body, and from then on the same body is served from
    the cache: on any gateway whose URL list holds the OpenAI URL, whatever
    its keys and whatever the backend would answer, the handler returns the
    same file, sends nothing and writes nothing. *)
Theorem speech_served_from_cache (env env' : environment)
    (sha256_hexdigest : string → string) (json_loads json_loads' : string → result value)
    (body : string) (st st' : app_state) (cache : speech_cache) (name : string) :
  let first := speech env sha256_hexdigest json_loads body st cache in
  first.1.1 = FileResponse name →
  OPENAI_URL ∈ OPENAI_API_BASE_URLS (config st') →
  name = sha256_hexdigest body
  ∧ is_Some (audio_files first.1.2 !! name)
  ∧ speech env' sha256_hexdigest json_loads' body st' first.1.2
    = (FileResponse name, first.1.2, []).
Proof.
  intros first Hfirst Hin.
  assert (Hfile : name = sha256_hexdigest body ∧ is_Some (audio_files first.1.2 !! name)).
  { subst first. revert Hfirst. unfold speech, speech_body.
    destruct (index_of _ _) as [idx|e]; [|by destruct e].
    case_bool_decide as Hcached; [by intros [= <-]|].
    destruct (_ ≫= _) as [[key url]|e]; [|by destruct e].
    unfold speech_request.
    destruct (http_request env _ _ _ _) as [resp|]; [|done].
    destruct (requests_ok resp); [|done].
    destruct (json_loads body); [|done].
    intros [= <-]. split; [done|]. cbn. rewrite lookup_insert_eq. by eexists. }
  destruct Hfile as [-> Hfile]. split_and!; [done|done|].
  by apply speech_cached.
Qed.

(** A first request that reaches the backend, then the same body again
    while the backend is down and the key list is empty. *)
Lemma speech_served_from_cache_witness :
  "sha-of-{}" = body_digest "{}"
  ∧ is_Some (audio_files
               (speech (speech_env (Some audio)) body_digest parsed_body "{}"
                  three_state empty_cache).1.2 !! "sha-of-{}")
  ∧ speech (speech_env None) body_digest (λ _, Raise ValueError) "{}"
      (configured three_urls [])
      (speech (speech_env (Some audio)) body_digest parsed_body "{}"
         three_state empty_cache).1.2
    = (FileResponse "sha-of-{}",
       (speech (speech_env (Some audio)) body_digest parsed_body "{}"
          three_state empty_cache).1.2, []).
Proof.
  apply (speech_served_from_cache (speech_env (Some audio)) (speech_env None)
           body_digest parsed_body (λ _, Raise ValueError) "{}" three_state
           (configured three_urls []) empty_cache "sha-of-{}").
  - vm_compute. reflexivity.
  - exact openai_in_three_urls.
Defined.

(** X19.  Whatever speech sends, it sends once, as a POST to
    [https://api.openai.com/v1/audio/speech] with the body of the caller
    and two headers: the key at the first position of the OpenAI URL in the
    URL list, and the JSON content type.  The branch that adds the
    OpenRouter headers is never taken, since the URL it tests is the OpenAI
    URL itself.  A file that is cached, or a key list too short for that
    position, ends the call before anything is sent, the latter in the
    [IndexError] of the lookup. *)
Theorem speech_request_shape (env : environment)
    (sha256_hexdigest : string → string) (json_loads : string → result value)
    (body : string) (st : app_state) (cache : speech_cache) :
  let handled := speech env sha256_hexdigest json_loads body st cache in
  (handled.2 = []
   ∨ ∃ idx key,
       index_of OPENAI_URL (OPENAI_API_BASE_URLS (config st)) = Ok idx
       ∧ OPENAI_API_KEYS (config st) !! idx = Some key
       ∧ audio_files cache !! sha256_hexdigest body = None
       ∧ handled.2
         = [Request "POST" "https://api.openai.com/v1/audio/speech"
              [("Authorization", "Bearer " +:+ key); ("Content-Type", "application/json")]
              (VStr body)])
  ∧ (∀ idx, index_of OPENAI_URL (OPENAI_API_BASE_URLS (config st)) = Ok idx →
       audio_files cache !! sha256_hexdigest body = None →
       OPENAI_API_KEYS (config st) !! idx = None →
       handled = (SpeechRaise IndexError, cache, [])).
Proof.
  intros handled. subst handled. split.
  - unfold speech.
    destruct (index_of OPENAI_URL (OPENAI_API_BASE_URLS (config st))) as [idx|e] eqn:Hidx;
      [|left; unfold speech_body; by rewrite Hidx].
    destruct (audio_files cache !! sha256_hexdigest body) as [chunks|] eqn:Hfile.
    { left. unfold speech_body. rewrite Hidx.
      by rewrite bool_decide_eq_true_2 by (rewrite Hfile; by eexists). }
    destruct (OPENAI_API_KEYS (config st) !! idx) as [key|] eqn:Hkey.
    + right. exists idx, key. split_and!; [done|done|done|].
      rewrite (speech_canonical env sha256_hexdigest json_loads body st cache idx key
                 Hidx Hfile Hkey).
      unfold speech_request.
      destruct (http_request env _ _ _ _) as [resp|]; [|done].
      destruct (requests_ok resp); [|done].
      by destruct (json_loads body).
    + left. unfold speech_body. rewrite Hidx.
      rewrite bool_decide_eq_false_2 by (rewrite Hfile; by intros [? ?]).
      rewrite (index_out_of_range (OPENAI_API_KEYS (config st)) (Z.of_nat idx)); [done|].
      right. apply lookup_ge_None in Hkey. lia.
  - intros idx Hidx Hfile Hkey. unfold speech, speech_body. rewrite Hidx.
    rewrite bool_decide_eq_false_2 by (rewrite Hfile; by intros [? ?]).
    rewrite (index_out_of_range (OPENAI_API_KEYS (config st)) (Z.of_nat idx)); [done|].
    right. apply lookup_ge_None in Hkey. lia.
Qed.

(** X20.  A speech request that the backend does not serve leaves the
    cache as it was, so that the same body is asked again the next time:
    when no answer arrives the handler raises status 500 with the fixed
    message; when the answer has a status from 400 to 599 it raises status
    500, whatever the status was, with the ["error"] of the body as detail
    when the body is a JSON object that has one. *)
Theorem speech_failure_leaves_cache (env : environment)
    (sha256_hexdigest : string → string) (json_loads : string → result value)
    (body : string) (st : app_state) (cache : speech_cache) (idx : nat) (key : string) :
  let handled := speech env sha256_hexdigest json_loads body st cache in
  let answer := http_request env "POST" (OPENAI_URL +:+ "/audio/speech")
                  (speech_headers OPENAI_URL key) (VStr body) in
  index_of OPENAI_URL (OPENAI_API_BASE_URLS (config st)) = Ok idx →
  audio_files cache !! sha256_hexdigest body = None →
  OPENAI_API_KEYS (config st) !! idx = Some key →
  (answer = None →
     handled.1 = (SpeechRaise (HTTPException 500 ServerConnectionError), cache))
  ∧ (∀ resp, answer = Some resp → 400 ≤ status resp < 600 →
       handled.1
       = (SpeechRaise (HTTPException 500
                         (requests_error_detail resp (ResponseError (status resp)))),
          cache)
       ∧ ∀ d v, json resp = Ok (VDict d) → d !! "error" = Some v →
                handled.1 = (SpeechRaise (HTTPException 500 (ExternalValue v)), cache)).
Proof.
  intros handled answer Hidx Hfile Hkey. subst handled. unfold speech.
  rewrite (speech_canonical env sha256_hexdigest json_loads body st cache idx key
             Hidx Hfile Hkey).
  unfold speech_request. fold answer.
  split.
  - by intros ->.
  - intros resp -> Hstatus.
    assert (Hok : requests_ok resp = false).
    { unfold requests_ok.
      destruct (Z.leb_spec 400 (status resp)), (Z.ltb_spec (status resp) 600);
        simpl; (done || lia). }
    rewrite Hok. split; [done|].
    intros d v Hjson Hv. cbn [fst]. unfold requests_error_detail.
    rewrite Hjson. cbn [mbind result_bind Py.contains].
    rewrite bool_decide_eq_true_2 by (by eexists).
    cbn [Py.getitem]. by rewrite Hv.
Qed.

(** OpenAI refuses the key of a speech request. *)
Lemma speech_failure_leaves_cache_witness :
  (http_request (speech_env (Some unauthorized)) "POST" (OPENAI_URL +:+ "/audio/speech")
     (speech_headers OPENAI_URL "k1") (VStr "{}") = None →
   (speech (speech_env (Some unauthorized)) body_digest parsed_body "{}"
      three_state empty_cache).1
   = (SpeechRaise (HTTPException 500 ServerConnectionError), empty_cache))
  ∧ (∀ resp,
       http_request (speech_env (Some unauthorized)) "POST"
         (OPENAI_URL +:+ "/audio/speech") (speech_headers OPENAI_URL "k1") (VStr "{}")
       = Some resp →
       400 ≤ status resp < 600 →
       (speech (speech_env (Some unauthorized)) body_digest parsed_body "{}"
          three_state empty_cache).1
       = (SpeechRaise (HTTPException 500
                         (requests_error_detail resp (ResponseError (status resp)))),
          empty_cache)
       ∧ ∀ d v, json resp = Ok (VDict d) → d !! "error" = Some v →
                (speech (speech_env (Some unauthorized)) body_digest parsed_body "{}"
                   three_state empty_cache).1
                = (SpeechRaise (HTTPException 500 (ExternalValue v)), empty_cache)).
Proof.
  apply (speech_failure_leaves_cache (speech_env (Some unauthorized)) body_digest
           parsed_body "{}" three_state empty_cache 1 "k1").
  - reflexivity.
  - reflexivity.
  - reflexivity.
Defined.

(** X21.  A speech request whose body the backend accepts and Python does
    not parse as JSON fails and fills the cache all the same: the audio is
    written before the body is parsed, the handler then raises an
    [HTTPException] that carries the status of the answer, which is not an
    error status, and the same body sent again is served the audio from the
    cache without a request. *)
Theorem speech_unparsed_body_is_cached (env env' : environment)
    (sha256_hexdigest : string → string) (json_loads json_loads' : string → result value)
    (body : string) (st st' : app_state) (cache : speech_cache)
    (idx : nat) (key : string) (resp : http_response) (e : exn) :
  let first := speech env sha256_hexdigest json_loads body st cache in
  index_of OPENAI_URL (OPENAI_API_BASE_URLS (config st)) = Ok idx →
  audio_files cache !! sha256_hexdigest body = None →
  OPENAI_API_KEYS (config st) !! idx = Some key →
  http_request env "POST" (OPENAI_URL +:+ "/audio/speech")
    (speech_headers OPENAI_URL key) (VStr body) = Some resp →
  requests_ok resp = true →
  json_loads body = Raise e →
  OPENAI_URL ∈ OPENAI_API_BASE_URLS (config st') →
  first.1.1 = SpeechRaise (HTTPException (status resp) (ExternalException e))
  ∧ audio_files first.1.2 !! sha256_hexdigest body = Some (content resp)
  ∧ body_files first.1.2 !! sha256_hexdigest body = Some None
  ∧ speech env' sha256_hexdigest json_loads' body st' first.1.2
    = (FileResponse (sha256_hexdigest body), first.1.2, []).
Proof.
  intros first Hidx Hfile Hkey Hresp Hok Hbody Hin.
  assert (Hfirst : first
                   = (SpeechRaise (HTTPException (status resp) (ExternalException e)),
                      write_body (sha256_hexdigest body) None
                        (write_audio (sha256_hexdigest body) (content resp) cache),
                      [Request "POST" (OPENAI_URL +:+ "/audio/speech")
                         (speech_headers OPENAI_URL key) (VStr body)])).
  { subst first. unfold speech.
    rewrite (speech_canonical env sha256_hexdigest json_loads body st cache idx key
               Hidx Hfile Hkey).
    unfold speech_request. by rewrite Hresp, Hok, Hbody. }
  rewrite Hfirst. cbn [fst snd write_body write_audio audio_files body_files].
  split_and!; [done|by rewrite lookup_insert_eq|by rewrite lookup_insert_eq|].
  apply speech_cached; [done|].
  cbn [audio_files write_body write_audio]. rewrite lookup_insert_eq. by eexists.
Qed.

(** A body that is not JSON, accepted by the backend. *)
Lemma speech_unparsed_body_is_cached_witness :
  (speech (speech_env (Some audio)) body_digest parsed_body "hello"
     three_state empty_cache).1.1
  = SpeechRaise (HTTPException (status audio) (ExternalException ValueError))
  ∧ audio_files (speech (speech_env (Some audio)) body_digest parsed_body "hello"
                   three_state empty_cache).1.2 !! body_digest "hello"
    = Some (content audio)
  ∧ body_files (speech (speech_env (Some audio)) body_digest parsed_body "hello"
                  three_state empty_cache).1.2 !! body_digest "hello"
    = Some None
  ∧ speech (speech_env None) body_digest parsed_body "hello" three_state
      (speech (speech_env (Some audio)) body_digest parsed_body "hello"
         three_state empty_cache).1.2
    = (FileResponse (body_digest "hello"),
       (speech (speech_env (Some audio)) body_digest parsed_body "hello"
          three_state empty_cache).1.2, []).
Proof.
  apply (speech_unparsed_body_is_cached (speech_env (Some audio)) (speech_env None)
           body_digest parsed_body parsed_body "hello" three_state three_state
           empty_cache 1 "k1" audio ValueError).
  - reflexivity.
  - reflexivity.
  - reflexivity.
  - reflexivity.
  - reflexivity.
  - reflexivity.
  - exact openai_in_three_urls.
Defined.

(** ** The adapters *)

Lemma relay_chunks_app (before after : list chunk) (tail : option exn) :
  Forall (λ c : chunk, c ≠ []) before →
  relay_chunks (before ++ after) tail
  = ((delta_frame <$> omap first_content before) ++ (relay_chunks after tail).1,
     (relay_chunks after tail).2).
Proof.
  induction 1 as [|c before Hc _ IH];
    [change ([] ++ after) with after; by destruct (relay_chunks after tail)|].
  change ((c :: before) ++ after) with (c :: (before ++ after)).
  cbn [relay_chunks]. rewrite IH.
  by destruct c as [|[content|] c].
Qed.

(** X22.  The stream of the Moonshot and Qianfan adapters holds one frame
    for each chunk whose first choice has a content, in the order of the
    chunks, with that content as its delta; a chunk whose first choice has
    no content gives no frame.  The stream ends as the stream of the client
    ends, with its exception if it has one; but a chunk without choices
    ends it at once in the [IndexError] of [chunk.choices[0]], after the
    frames of the chunks before it. *)
Theorem adapter_stream_frames (before after : list chunk) (tail : option exn) :
  Forall (λ c : chunk, c ≠ []) before →
  relay_chunks before tail
  = (delta_frame <$> omap first_content before, tail)
  ∧ relay_chunks (before ++ [] :: after) tail
    = (delta_frame <$> omap first_content before, Some IndexError).
Proof.
  intros Hbefore. split.
  - rewrite <- (app_nil_r before) at 1. rewrite relay_chunks_app by done.
    cbn. by rewrite app_nil_r.
  - rewrite relay_chunks_app by done. cbn. by rewrite app_nil_r.
Qed.

(** Three chunks, of which the second has no content. *)
Lemma adapter_stream_frames_witness :
  relay_chunks [[Some "Hel"]; [None]; [Some "lo"; Some "other"]] None
  = (delta_frame <$> omap first_content
                       [[Some "Hel"]; [None]; [Some "lo"; Some "other"]], None)
  ∧ relay_chunks ([[Some "Hel"]; [None]; [Some "lo"; Some "other"]]
                  ++ [] :: [[Some "late"]]) None
    = (delta_frame <$> omap first_content
                         [[Some "Hel"]; [None]; [Some "lo"; Some "other"]],
       Some IndexError).
Proof.
  apply (adapter_stream_frames [[Some "Hel"]; [None]; [Some "lo"; Some "other"]]
           [[Some "late"]] None).
  repeat constructor; discriminate.
Defined.

Section AdapterProperties.
Variable getenv : string → option string.
Variable create : completion_call → generated chunk.
Variable decode_strip : string → result string.
Variable user_dict : UserModel → value.
Variable leagent_post : string → value → option (list string).



Lemma not_task_done (m : string) : (m +:+ newline =? "TASK_DONE")%string = false.
Proof.
  apply String.eqb_neq. unfold newline. intros H.
  repeat (destruct m as [|? m]; simpl in H; [discriminate|injection H as _ H]).
  destruct m; discriminate H.
Qed.

(** The messages [leagent_processing] yields: each a text followed by a
    line feed. *)
Lemma leagent_lines_yield (lines : list string) :
  Forall (λ m, ∃ s, m = s +:+ newline) (leagent_lines decode_strip lines).1.
Proof.
  induction lines as [|line lines IH]; [done|].
  cbn [leagent_lines]. destruct (line =? EmptyString)%string; [done|].
  destruct (decode_strip line) as [message|e]; [|done].
  destruct (message =? "TASK_DONE")%string.
  - cbn. constructor; [by eexists|done].
  - destruct (leagent_lines decode_strip lines) as [messages e]. cbn in *.
    constructor; [by eexists|done].
Qed.

Lemma leagent_frames_relay (messages : list string) (tail : option exn) :
  Forall (λ m, ∃ s, m = s +:+ newline) messages →
  leagent_frames messages tail = (delta_frame <$> messages, tail).
Proof.
  induction 1 as [|m messages [s ->] _ IH]; [done|].
  cbn [leagent_frames]. by rewrite not_task_done, IH.
Qed.

Lemma leagent_processing_yield (model_id content messages : value)
    (user : option UserModel) :
  Forall (λ m, ∃ s, m = s +:+ newline)
    (leagent_processing decode_strip user_dict leagent_post
       model_id content messages user).1.
Proof.
  unfold leagent_processing. destruct user as [u|]; [|done].
  destruct (leagent_post _ _) as [lines|]; [|done]. apply leagent_lines_yield.
Qed.

Lemma leagent_lines_done (before after : list string) (line : string) :
  Forall (λ l, l = EmptyString
               ∨ ∃ m, decode_strip l = Ok m ∧ m ≠ "TASK_DONE") before →
  line ≠ EmptyString → decode_strip line = Ok "TASK_DONE" →
  leagent_lines decode_strip (before ++ line :: after)
  = (omap (λ l, if (l =? EmptyString)%string then None
                else match decode_strip l with
                     | Ok m => Some (m +:+ newline)
                     | Raise _ => None
                     end) before
     ++ ["TASK_DONE" +:+ newline], None).
Proof.
  intros Hbefore Hline Hdone.
  induction Hbefore as [|l before Hl _ IH].
  - cbn [app leagent_lines omap list_omap].
    rewrite (proj2 (String.eqb_neq _ _) Hline), Hdone. done.
  - change ((l :: before) ++ line :: after) with (l :: (before ++ line :: after)).
    cbn [leagent_lines omap list_omap]. rewrite IH.
    destruct (String.eqb_spec l EmptyString) as [->|Hl']; [done|].
    destruct Hl as [?|(m & Hm & Hne)]; [done|].
    by rewrite Hm, (proj2 (String.eqb_neq _ _) Hne).
Qed.

(** X24.  The stream of the leagent adapter never holds the closing frame
    of the assistant: [leagent_processing] yields every message with a line
    feed after it, so that the test of the handler for the text
    [TASK_DONE] is never true, and the handler relays every message it is
    given, the [TASK_DONE] line included, as a delta.  What ends the stream
    is the producer: once a line of the leagent server reads [TASK_DONE],
    that line is relayed and no line after it is. *)
Theorem leagent_stream_never_closes (payload : gmap string value)
    (user : option UserModel) (response : adapter_response) :
  handle_leagent_request decode_strip user_dict leagent_post payload user = Ok response →
  ∃ model_id content messages,
    let yielded := leagent_processing decode_strip user_dict leagent_post
                     model_id content messages user in
    event_generator response = (delta_frame <$> yielded.1, yielded.2)
    ∧ (done_frame ∉ fst (event_generator response))
    ∧ (∀ u before line after,
         user = Some u →
         leagent_post "http://localhost:8101/process"
           (VDict (<["model" := model_id]> (<["content" := content]>
                  (<["messages" := messages]> (<["user" := user_dict u]> ∅)))))
         = Some (before ++ line :: after) →
         Forall (λ l, l = EmptyString
                      ∨ ∃ m, decode_strip l = Ok m ∧ m ≠ "TASK_DONE") before →
         line ≠ EmptyString → decode_strip line = Ok "TASK_DONE" →
         ∃ relayed,
           event_generator response
           = (relayed ++ [delta_frame ("TASK_DONE" +:+ newline)], None)
           ∧ length relayed
             = length (List.filter (λ l, negb (l =? EmptyString)%string) before)).
Proof.
  unfold handle_leagent_request. intros H.
  apply bind_Ok in H as (messages & _ & H).
  apply bind_Ok in H as (content & _ & [= <-]).
  exists (Py.get payload "model"), content, messages.
  cbn [event_generator].
  pose proof (leagent_processing_yield (Py.get payload "model") content messages user)
    as Hyield.
  destruct (leagent_processing _ _ _ _ _ _ _) as [yielded e] eqn:Hproc.
  cbn [fst snd] in *.
  rewrite (leagent_frames_relay yielded e Hyield). cbn [fst].
  split_and!; [done| |].
  - intros Hin. apply list_elem_of_fmap in Hin as (m & Hm & _). discriminate Hm.
  - intros u before line after -> Hpost Hbefore Hline Hdone.
    unfold leagent_processing in Hproc. rewrite Hpost in Hproc.
    rewrite (leagent_lines_done before after line Hbefore Hline Hdone) in Hproc.
    injection Hproc as <- <-.
    eexists. rewrite fmap_app. split; [done|].
    rewrite length_fmap. clear -Hbefore.
    induction Hbefore as [|l before Hl _ IH]; [done|].
    cbn [omap list_omap List.filter].
    destruct (String.eqb_spec l EmptyString) as [->|Hne]; [done|].
    destruct Hl as [?|(m & -> & _)]; [done|]. cbn. by rewrite IH.
Qed.

(** X25.  The leagent adapter subscripts the ["messages"] of the request
    where the other two adapters use [get] with a default: a request
    without that key ends in the [KeyError] of the subscript, before any
    stream is set up.  With an empty list of messages the content sent to
    the leagent server is the empty text; with a list that ends in a
    dictionary it is the ["content"] of that last message, and a last
    message without ["content"] ends in a [KeyError] as well. *)
Theorem leagent_request_content (payload : gmap string value)
    (user : option UserModel) :
  let handled := handle_leagent_request decode_strip user_dict leagent_post payload user in
  let stream_for (content messages : value) := {|
    media_type := "text/event-stream";
    adapter_headers := [("Cache-Type", "text/event-stream")];
    event_generator :=
      leagent_frames
        (leagent_processing decode_strip user_dict leagent_post
           (Py.get payload "model") content messages user).1
        (leagent_processing decode_strip user_dict leagent_post
           (Py.get payload "model") content messages user).2 |} in
  (payload !! "messages" = None → handled = Raise (KeyError (VStr "messages")))
  ∧ (payload !! "messages" = Some (VList []) →
     handled = Ok (stream_for (VStr EmptyString) (VList [])))
  ∧ (∀ ms d, payload !! "messages" = Some (VList (ms ++ [VDict d])) →
       match d !! "content" with
       | Some content => handled = Ok (stream_for content (VList (ms ++ [VDict d])))
       | None => handled = Raise (KeyError (VStr "content"))
       end).
Proof.
  intros handled stream_for. subst handled. unfold handle_leagent_request.
  cbn [Py.getitem]. split_and!.
  - by intros ->.
  - intros ->. cbn [mbind result_bind Py.truthy]. unfold stream_for.
    by destruct (leagent_processing _ _ _ _ _ _ _).
  - intros ms d ->. cbn [mbind result_bind].
    assert (Py.truthy (VList (ms ++ [VDict d])) = true) as -> by (by destruct ms).
    cbn [last_item].
    assert (Hlast : Py.index (ms ++ [VDict d]) (-1) = Ok (VDict d)).
    { replace (-1) with (Z.of_nat (length ms) - Z.of_nat (length (ms ++ [VDict d])))
        by (rewrite length_app; simpl; lia).
      apply index_from_end. by rewrite lookup_app_r, Nat.sub_diag. }
    rewrite Hlast. cbn [mbind result_bind Py.getitem].
    destruct (d !! "content") as [content|]; [|done].
    cbn [mbind result_bind]. unfold stream_for.
    by destruct (leagent_processing _ _ _ _ _ _ _).
Qed.

End AdapterProperties.


(** The frames an ERNIE request is answered with. *)
Example ernie_request_frames :
  event_generator
    <$> run_adapter no_variables two_chunks as_written user_record leagent_server
          Qianfan (<["model" := VStr "ERNIE-4.0-8K"]> full_request) (Some alice)
  = Ok ([delta_frame "Hel"; delta_frame "lo"], None).
Proof. reflexivity. Qed.

(** A leagent server that sends a line after the closing line. *)
Lemma leagent_stream_never_closes_witness :
  ∃ model_id content messages,
    let yielded := leagent_processing as_written user_record leagent_server
                     model_id content messages (Some alice) in
    event_generator leagent_stream = (delta_frame <$> yielded.1, yielded.2)
    ∧ (done_frame ∉ fst (event_generator leagent_stream))
    ∧ (∀ u before line after,
         Some alice = Some u →
         leagent_server "http://localhost:8101/process"
           (VDict (<["model" := model_id]> (<["content" := content]>
                  (<["messages" := messages]> (<["user" := user_record u]> ∅)))))
         = Some (before ++ line :: after) →
         Forall (λ l, l = EmptyString
                      ∨ ∃ m, as_written l = Ok m ∧ m ≠ "TASK_DONE") before →
         line ≠ EmptyString → as_written line = Ok "TASK_DONE" →
         ∃ relayed,
           event_generator leagent_stream
           = (relayed ++ [delta_frame ("TASK_DONE" +:+ newline)], None)
           ∧ length relayed
             = length (List.filter (λ l, negb (l =? EmptyString)%string) before)).
Proof.
  apply (leagent_stream_never_closes as_written user_record leagent_server
           leagent_request (Some alice) leagent_stream).
  vm_compute. reflexivity.
Defined.

(** ** Profile values that pass through [int] *)

Lemma digits2_pos_bound (m : positive) :
  Z.pos m < 2 ^ Z.pos (SpecFloat.digits2_pos m).
Proof.
  induction m as [m IH|m IH|]; cbn [SpecFloat.digits2_pos]; [| |done].
  - rewrite Pos2Z.inj_succ, Z.pow_succ_r by lia. lia.
  - rewrite Pos2Z.inj_succ, Z.pow_succ_r by lia. lia.
Qed.

Lemma valid_mantissa_bound (m : positive) (e : Z) :
  SpecFloat.bounded prec emax m e = true → Z.pos m < 2 ^ 53.
Proof.
  unfold SpecFloat.bounded, SpecFloat.canonical_mantissa, SpecFloat.fexp.
  intros H. apply andb_true_iff in H as [H _]. apply Z.eqb_eq in H.
  pose proof (digits2_pos_bound m) as Hm.
  assert (Hd : Z.pos (SpecFloat.digits2_pos m) ≤ 53) by (unfold prec in H; lia).
  eapply Z.lt_le_trans; [exact Hm|]. apply Z.pow_le_mono_r; lia.
Qed.

(** [int(f)] of a float strictly between 0 and 1 is 0, and such a float is
    truthy. *)
Lemma int_of_fraction (f : float) :
  (0 <? f)%float = true → (f <? 1)%float = true →
  Py.int_of_float f = Ok 0 ∧ Py.truthy (VFloat f) = true.
Proof.
  intros Hpos Hlt.
  rewrite FloatAxioms.ltb_spec in Hpos, Hlt.
  pose proof (Prim2SF_valid f) as Hvalid.
  unfold Py.int_of_float, Py.truthy. rewrite FloatAxioms.eqb_spec.
  change (Prim2SF 0) with (S754_zero false) in *.
  change (Prim2SF 1) with (S754_finite false 4503599627370496 (-52)) in *.
  destruct (Prim2SF f) as [s|s| |s m e]; try done.
  - by destruct s.
  - destruct s; [done|]. split; [|done].
    cbn [SpecFloat.valid_binary] in Hvalid.
    apply valid_mantissa_bound in Hvalid.
    unfold SFltb, SFcompare in Hlt.
    assert (He : e < -52 ∨ (e = -52 ∧ Z.pos m < 4503599627370496)).
    { destruct (Z.compare_spec e (-52)) as [->|?|?]; [right|by left|done].
      split; [done|].
      by destruct (PosDef.Pos.compare_cont Eq m 4503599627370496) eqn:Hc. }
    f_equal. rewrite Z.shiftl_div_pow2 by lia.
    apply Z.div_small. split; [lia|].
    destruct He as [He|[-> Hm]].
    + eapply Z.lt_le_trans; [exact Hvalid|]. apply Z.pow_le_mono_r; lia.
    + exact Hm.
Qed.

(** X26.  A profile value for [top_p], [max_tokens] or
    [frequency_penalty] passes through [int]: a fraction strictly between 0
    and 1, as a [top_p] of 0.9 or a [frequency_penalty] of 0.5 is, counts
    as set, and what the payload gets under that key is the integer 0, over
    whatever the request held there. *)
Theorem fractional_profile_value_becomes_zero (env : environment)
    (params payload p' : gmap string value) (key : string) (f : float) :
  key ∈ ["top_p"; "max_tokens"; "frequency_penalty"] →
  params !! key = Some (VFloat f) →
  (0 <? f)%float = true → (f <? 1)%float = true →
  apply_params env params payload = Ok p' →
  p' !! key = Some (VInt 0).
Proof.
  intros Hkey Hparam Hpos Hlt Happly.
  destruct (int_of_fraction f Hpos Hlt) as [Hint Htruthy].
  destruct (profile_overrides_request env params payload p' Happly) as (_ & Hints & _).
  destruct (Hints key Hkey) as (z & Hz & ->).
  { by rewrite (get_Some _ _ _ Hparam). }
  rewrite (get_Some _ _ _ Hparam) in Hz. cbn [Py.to_int] in Hz.
  rewrite Hint in Hz. by injection Hz as <-.
Qed.
(** A [top_p] of 0.9 over a request that asked for 1. *)
Lemma fractional_profile_value_becomes_zero_witness :
  (<["frequency_penalty" := VInt 0]> (<["top_p" := VInt 0]> full_request)) !! "top_p"
  = Some (VInt 0).
Proof.
  apply (fractional_profile_value_becomes_zero silent_env (params fraction_profile)
           full_request
           (<["frequency_penalty" := VInt 0]> (<["top_p" := VInt 0]> full_request))
           "top_p" 0x1.ccccccccccccdp-1%float).
  - repeat constructor.
  - reflexivity.
  - reflexivity.
  - reflexivity.
  - vm_compute. reflexivity.
Defined.

(** The payload sent under that profile: both fractions arrive as 0. *)
Example fraction_profile_sent :
  (λ sent, (snd sent !! "top_p", snd sent !! "frequency_penalty"))
    <$> prepare (chat_env (Some fraction_profile) (Some completion)) full_request
          (Some alice) chat_state
  = Ok (Some (VInt 0), Some (VInt 0)).
Proof. vm_compute. reflexivity. Qed.
